(** * LabelMe polygon annotations to segmentation masks: a shallow embedding

    The development follows [q.py]: the class vocabulary
    ([auto_detect_classes]), the palette ([generate_class_colors]), the
    rasterizer ([json_to_mask]) and the batch loop with its report
    ([process_labelme_folder]).

    Python values are represented as follows.
    - [str] is a [string]: the UTF-8 bytes of the text.  Python orders
      strings by code point, and UTF-8 preserves that order bytewise, so
      [sorted] on labels is a sort by [String.le].
    - [int] is [Z]; the 8-bit channels of PIL images saturate ([clip8]).
    - a [dict] keeps insertion order: an association list with distinct
      keys, where assignment to an existing key keeps its position.
    - a [set] of labels is a [gset string].
    - a parsed annotation is a record of optional fields, one per key the
      program reads; a missing key raises [KeyError] where it is read.
      Values of the wrong JSON type are not represented.
    - the file system is a finite map from paths to files and directories;
      a path names one file (no links, no [.] or [..] components).
      [os.listdir] is an argument, the listing in the order the system
      gives it. [os.makedirs] is taken to succeed.
    - [print] appends an event to the console; exceptions are values of
      [exn], and a computation returns its outcome with the new world.
    - [random.randint] draws from a stream of integers that is part of the
      generator's state; every statement holds for every stream.
    - the pixels [ImageDraw.polygon] fills are a parameter [covers] of the
      rasterizer and of the batch; [even_odd_covers] is the fill the spec
      describes. [ImageDraw.polygon] raises [TypeError] on fewer than two
      vertices.
    - [Image.save] takes the format from the extension of the path and
      raises [ValueError] when the path has none; it raises [ValueError]
      on an image without pixels, after opening the file: a file it has
      created is removed again, a file that was there is left as the
      beginning of an image ([PartialImage]). *)

From Stdlib Require Import Ascii String QArith Lqa.
From stdpp Require Import gmap strings list sorting pretty.

Local Open Scope Z_scope.
Set Warnings "-clear-no-such-hyp".

(** ** Exceptions and the state-and-exception monad *)

Inductive exn : Type :=
| FileNotFoundError (path : string)
| IsADirectoryError (path : string)
| JSONDecodeError (path : string)
| KeyError (key : string)
| IndexError (index : Z)
| ValueError
| TypeError
| SameFileError (path : string).

Inductive outcome (A : Type) : Type :=
| Done (a : A)
| Raised (e : exn).
Arguments Done {A} a.
Arguments Raised {A} e.

(** ** POSIX paths ([os.path] on a POSIX host) *)

Module PosixPath.

Definition sep : ascii := "/"%char.
Definition extsep : ascii := "."%char.

(** [s.startswith(p)] *)
Fixpoint startswith (p s : string) : bool :=
  match p, s with
  | EmptyString, _ => true
  | String a p', String b s' => if decide (a = b) then startswith p' s' else false
  | String _ _, EmptyString => false
  end.

(** [s.endswith(p)] *)
Definition endswith (p s : string) : bool :=
  startswith (String.rev p) (String.rev s).

(** [os.path.isabs(s)]: [s.startswith('/')] *)
Definition isabs (s : string) : bool := startswith "/" s.

(** [p[p.rfind('/') + 1:]], with the part of the current component read so
    far in [acc]. *)
Fixpoint basename_from (acc p : string) : string :=
  match p with
  | EmptyString => acc
  | String c r =>
      if decide (c = sep) then basename_from "" r
      else basename_from (acc +:+ String c "") r
  end.

(** [os.path.basename(p)] *)
Definition basename (p : string) : string := basename_from "" p.

(** [p[:p.rfind('/') + 1]] *)
Fixpoint head_from (done acc p : string) : string :=
  match p with
  | EmptyString => done
  | String c r =>
      if decide (c = sep) then head_from (done +:+ acc +:+ "/") "" r
      else head_from done (acc +:+ String c "") r
  end.

(** [os.path.join(a, b)] *)
Definition join (a b : string) : string :=
  if startswith "/" b then b
  else if decide (a = "") then b
  else if endswith "/" a then a +:+ b
  else a +:+ "/" +:+ b.

(** [genericpath._splitext] on one path component: the text before the
    last dot, unless only dots precede that dot. [seen] is the text read
    so far, [cut] the text before the last dot that had a non-dot
    character before it. *)
Fixpoint component_root_from (seen : string) (cut : option string)
    (nondot : bool) (p : string) : string :=
  match p with
  | EmptyString => default seen cut
  | String c r =>
      if decide (c = extsep) then
        component_root_from (seen +:+ ".") (if nondot then Some seen else cut)
                            nondot r
      else component_root_from (seen +:+ String c "") cut true r
  end.

(** [os.path.splitext(p)[0]] *)
Definition splitext_root (p : string) : string :=
  head_from "" "" p +:+ component_root_from "" None false (basename p).

End PosixPath.

(** ** Values stored in files *)

(** A polygon vertex; JSON numbers are read as rationals. *)
Abbreviation point := (Q * Q)%type.

(** An RGB triple as Python holds it: three integers. *)
Abbreviation color := (Z * Z * Z)%type.

(** One entry of ["shapes"]; a key that is absent is [None]. *)
Record json_shape : Type := JsonShape {
  label : option string;
  points : option (list point)
}.

(** The object [json.load] returns for an annotation file; a key that is
    absent is [None]. *)
Record json_record : Type := JsonRecord {
  imageWidth : option Z;
  imageHeight : option Z;
  imagePath : option string;
  shapes : option (list json_shape)
}.

(** A PIL image: its size and its rows of pixels, top row first. *)
Record image (A : Type) : Type := Image {
  width : Z;
  height : Z;
  rows : list (list A)
}.
Arguments Image {A} width height rows.
Arguments width {A} i.
Arguments height {A} i.
Arguments rows {A} i.

Inductive file : Type :=
| Directory
| JsonFile (data : json_record)
| OtherFile (contents : string)
| ImageL (im : image Z)
| ImageRGB (im : image color)
| TextFile (lines : list string)
| PartialImage  (* what a save that fails leaves of a file it truncated *).

(** ** The console *)

Inductive event : Type :=
| WarnUnmappedLabel (label : string)               (* q.py:31 *)
| MasksCreated (mask_path color_mask_path : string) (* q.py:57 *)
| ImageCopied (output_image_path : string)          (* q.py:113 *)
| WarnImageMissing (image_path : string)            (* q.py:115 *)
| ErrorProcessing (json_path : string) (e : exn)    (* q.py:120 *)
| Summary (processed_count error_count : Z)         (* q.py:123-125 *)
| ErrorReading (json_path : string) (e : exn).      (* q.py:148 *)

Record world : Type := World {
  files : gmap string file;
  console : list event
}.

(** The world with no file and nothing printed. *)
Definition empty_world : world := World ∅ [].

(** ** Computations that read and write the world and may raise *)

Definition M (A : Type) : Type := world -> outcome A * world.

Definition ret {A} (a : A) : M A := fun w => (Done a, w).

Definition bind {A B} (m : M A) (k : A -> M B) : M B :=
  fun w => match m w with
           | (Done a, w') => k a w'
           | (Raised e, w') => (Raised e, w')
           end.

Definition raise {A} (e : exn) : M A := fun w => (Raised e, w).

Notation "'let*' x := m 'in' k" := (bind m (fun x => k))
  (at level 10, x pattern, m at level 100, k at level 200).
Notation "'do' m 'then' k" := (bind m (fun _ => k))
  (at level 10, m at level 100, k at level 200).

(** [d[key]] on a parsed JSON object *)
Definition getitem {A} (key : string) (field : option A) : M A :=
  match field with
  | Some a => ret a
  | None => raise (KeyError key)
  end.

(** [print(...)] *)
Definition print (e : event) : M unit :=
  fun w => (Done tt, World (files w) (console w ++ [e])).

(** [with open(path, 'r', encoding='utf-8') as f: json.load(f)] *)
Definition load_json (path : string) : M json_record :=
  fun w => match files w !! path with
           | None => (Raised (FileNotFoundError path), w)
           | Some Directory => (Raised (IsADirectoryError path), w)
           | Some (JsonFile data) => (Done data, w)
           | Some _ => (Raised (JSONDecodeError path), w)
           end.

(** Creating or truncating the file at [path] and writing [f] to it. *)
Definition write_file (path : string) (f : file) : M unit :=
  fun w => match files w !! path with
           | Some Directory => (Raised (IsADirectoryError path), w)
           | _ => (Done tt, World (<[path := f]> (files w)) (console w))
           end.

(** [im.save(path)] for a PIL image: the format comes from the extension
    of [path], the file is opened for writing, and the pixels are
    encoded. An image without pixels cannot be encoded. *)
Definition save {A} (wrap : image A -> file) (im : image A) (path : string)
  : M unit :=
  fun w =>
    if bool_decide (PosixPath.splitext_root path = path) then
      (Raised ValueError, w)
    else
      match files w !! path with
      | Some Directory => (Raised (IsADirectoryError path), w)
      | held =>
          if bool_decide (width im = 0 ∨ height im = 0) then
            (Raised ValueError,
             World (match held with
                    | Some _ => <[path := PartialImage]> (files w)
                    | None => files w
                    end) (console w))
          else (Done tt, World (<[path := wrap im]> (files w)) (console w))
      end.

(** [os.path.exists(path)] *)
Definition path_exists (path : string) : M bool :=
  fun w => (Done (bool_decide (is_Some (files w !! path))), w).

(** ** Dictionaries *)

(** A [dict] from labels to class ids, in insertion order. *)
Abbreviation dict := (list (string * Z)).

(** [key in d] *)
Definition dict_mem (key : string) (d : dict) : bool :=
  bool_decide (key ∈ d.*1).

(** [d[key]], for a key that is present *)
Fixpoint dict_get (key : string) (d : dict) : option Z :=
  match d with
  | [] => None
  | (k, v) :: r => if decide (key = k) then Some v else dict_get key r
  end.

(** [d[key] = v]: an existing key keeps its position, a new one goes last. *)
Fixpoint dict_set (key : string) (v : Z) (d : dict) : dict :=
  match d with
  | [] => [(key, v)]
  | (k, v') :: r =>
      if decide (key = k) then (k, v) :: r else (k, v') :: dict_set key v r
  end.

(** [lst[i]] on a Python list: negative indices count from the end. *)
Definition list_getitem {A} (l : list A) (i : Z) : option A :=
  let n := Z.of_nat (length l) in
  if decide (0 <= i < n) then l !! Z.to_nat i
  else if decide (- n <= i < 0) then l !! Z.to_nat (i + n)
  else None.

(** ** Vocabulary builder: [auto_detect_classes] *)

(** [for shape in data['shapes']: all_labels.add(shape['label'])]; a shape
    without the key raises and leaves the labels added so far. *)
Fixpoint add_labels (shps : list json_shape) (all_labels : gset string)
  : outcome unit * gset string :=
  match shps with
  | [] => (Done tt, all_labels)
  | s :: r =>
      match label s with
      | Some l => add_labels r ({[l]} ∪ all_labels)
      | None => (Raised (KeyError "label"), all_labels)
      end
  end.

(** The body of the loop over [os.listdir(input_dir)] (q.py:139-148). *)
Definition scan_file (input_dir : string) (st : gset string * world)
    (filename : string) : gset string * world :=
  let '(all_labels, w) := st in
  if PosixPath.endswith ".json" filename then
    let json_path := PosixPath.join input_dir filename in
    match (let* data := load_json json_path in getitem "shapes" (shapes data)) w with
    | (Done shps, w1) =>
        match add_labels shps all_labels with
        | (Done _, all_labels') => (all_labels', w1)
        | (Raised e, all_labels') =>
            (all_labels', snd (print (ErrorReading json_path e) w1))
        end
    | (Raised e, w1) => (all_labels, snd (print (ErrorReading json_path e) w1))
    end
  else st.

(** [sorted(all_labels)] *)
Definition sorted (all_labels : gset string) : list string :=
  merge_sort String.le (elements all_labels).

(** [for i, label in enumerate(labels, i): class_mapping[label] = i] *)
Fixpoint assign_ids (i : Z) (labels : list string) (class_mapping : dict)
  : dict :=
  match labels with
  | [] => class_mapping
  | l :: r => assign_ids (i + 1) r (dict_set l i class_mapping)
  end.

(** [auto_detect_classes(input_dir)], where [listing] is what
    [os.listdir(input_dir)] returns. *)
Definition auto_detect_classes (input_dir : string) (listing : list string)
    (w : world) : dict * world :=
  let '(all_labels, w') := fold_left (scan_file input_dir) listing (∅, w) in
  (assign_ids 1 (sorted all_labels) [("background", 0)], w').

(** ** Palette generator: [generate_class_colors] *)

(** The state of the [random] module: the raw draws still to come. *)
Record rng : Type := Rng { draws : nat -> Z; position : nat }.

(** [random.randint(a, b)]: an integer N with a <= N <= b. *)
Definition randint (a b : Z) (g : rng) : Z * rng :=
  (a + draws g (position g) `mod` (b - a + 1),
   Rng (draws g) (S (position g))).

(** The [k] remaining rounds of [for i in range(1, num_classes)]. *)
Fixpoint append_colors (k : nat) (colors : list color) (g : rng)
  : list color * rng :=
  match k with
  | O => (colors, g)
  | S k' =>
      let '(r, g1) := randint 50 255 g in
      let '(gr, g2) := randint 50 255 g1 in
      let '(b, g3) := randint 50 255 g2 in
      append_colors k' (colors ++ [(r, gr, b)]) g3
  end.

(** [generate_class_colors(num_classes)] (q.py:59-68) *)
Definition generate_class_colors (num_classes : Z) (g : rng)
  : list color * rng :=
  append_colors (Z.to_nat (num_classes - 1)) [(0, 0, 0)] g.

(** ** Images and polygon filling *)

(** [Image.new(mode, (w, h), fill)]; PIL rejects a negative size. *)
Definition Image_new {A} (w h : Z) (fill : A) : M (image A) :=
  if decide (w < 0 ∨ h < 0) then raise ValueError
  else ret (Image w h (replicate (Z.to_nat h) (replicate (Z.to_nat w) fill))).

(** The masks are 8-bit images (q.py:17, 'L'; q.py:21, 'RGB'): a channel
    holds a byte, and PIL stores an integer ink clipped to 0..255. *)
Definition clip8 (v : Z) : Z := Z.max 0 (Z.min 255 v).

(** The ink of an 'RGB' canvas for the tuple [c]. *)
Definition clip8_rgb (c : color) : color :=
  let '(r, g, b) := c in (clip8 r, clip8 g, clip8 b).

(** Painting [ink] on the pixels of [im] that [region] selects (column
    first, then row); the other pixels keep their value. *)
Definition paint {A} (region : nat -> nat -> bool) (ink : A) (im : image A)
  : image A :=
  Image (width im) (height im)
    (imap (fun y row => imap (fun x old => if region x y then ink else old) row)
          (rows im)).

(** [a < b] on rationals *)
Definition Qltb (a b : Q) : bool := negb (Qle_bool b a).

(** Whether the horizontal ray from (px, py) to the right crosses the
    edge from [a] to [b]. *)
Definition crosses (px py : Q) (e : point * point) : bool :=
  let '((x1, y1), (x2, y2)) := e in
  xorb (Qltb py y1) (Qltb py y2)
  && Qltb px (x1 + (x2 - x1) * (py - y1) / (y2 - y1))%Q.

(** The closed chain of edges of a polygon. *)
Definition edges (polygon : list point) : list (point * point) :=
  match polygon with
  | [] => []
  | p :: r => zip polygon (r ++ [p])
  end.

(** Modelled from the spec: [ImageDraw.polygon] belongs to PIL and is not
    among the sources.  The spec asks for "a standard scan-line
    point-in-polygon fill (even-odd or nonzero rule)", the same on both
    canvases: a pixel is filled when its centre is inside the polygon by
    the even-odd rule. *)
Definition even_odd_covers (polygon : list point) (x y : nat) : bool :=
  let px := (inject_Z (Z.of_nat x) + (1 # 2))%Q in
  let py := (inject_Z (Z.of_nat y) + (1 # 2))%Q in
  foldr (fun e inside => xorb (crosses px py e) inside) false (edges polygon).

Section Rasterizer.

(** The pixels that [ImageDraw.polygon] fills for a list of two vertices
    or more. *)
Variable covers : list point -> nat -> nat -> bool.

(** [draw.polygon(polygon, fill=class_id)] on an 'L' canvas; PIL wants
    two vertices at least. *)
Definition draw_polygon_L (polygon : list point) (fill : Z) (im : image Z)
  : M (image Z) :=
  if bool_decide (length polygon < 2)%nat then raise TypeError
  else ret (paint (covers polygon) (clip8 fill) im).

(** [color_draw.polygon(polygon, fill=color)] on an 'RGB' canvas *)
Definition draw_polygon_RGB (polygon : list point) (fill : color)
    (im : image color) : M (image color) :=
  if bool_decide (length polygon < 2)%nat then raise TypeError
  else ret (paint (covers polygon) (clip8_rgb fill) im).

(** The body of [for shape in data['shapes']] (q.py:26-44). *)
Definition draw_shape (class_mapping : dict) (class_colors : list color)
    (canvases : image Z * image color) (shape : json_shape)
  : M (image Z * image color) :=
  let* lbl := getitem "label" (label shape) in
  let* pts := getitem "points" (points shape) in
  if negb (dict_mem lbl class_mapping) then
    do print (WarnUnmappedLabel lbl) then ret canvases
  else
    match dict_get lbl class_mapping with
    | None => raise (KeyError lbl)
    | Some class_id =>
        match list_getitem class_colors class_id with
        | None => raise (IndexError class_id)
        | Some col =>
            let* mask := draw_polygon_L pts class_id (fst canvases) in
            let* color_mask := draw_polygon_RGB pts col (snd canvases) in
            ret (mask, color_mask)
        end
    end.

(** [for shape in data['shapes']] (q.py:25-44) *)
Fixpoint draw_shapes (class_mapping : dict) (class_colors : list color)
    (shps : list json_shape) (canvases : image Z * image color)
  : M (image Z * image color) :=
  match shps with
  | [] => ret canvases
  | shape :: r =>
      let* canvases' := draw_shape class_mapping class_colors canvases shape in
      draw_shapes class_mapping class_colors r canvases'
  end.

(** The two images [json_to_mask] has drawn when it reaches q.py:46. *)
Definition rasterize (data : json_record) (class_mapping : dict)
    (class_colors : list color) : M (image Z * image color) :=
  let* w := getitem "imageWidth" (imageWidth data) in
  let* h := getitem "imageHeight" (imageHeight data) in
  let* mask := Image_new w h 0 in
  let* color_mask := Image_new w h (0, 0, 0) in
  let* shps := getitem "shapes" (shapes data) in
  draw_shapes class_mapping class_colors shps (mask, color_mask).

(** [os.path.splitext(os.path.basename(path))[0]] *)
Definition image_name_of (path : string) : string :=
  PosixPath.splitext_root (PosixPath.basename path).

(** [mask_path] (q.py:50) for a record whose [imagePath] is [path] *)
Definition mask_path_of (output_mask_dir path : string) : string :=
  PosixPath.join output_mask_dir (image_name_of path +:+ ".png").

(** [color_mask_path] (q.py:54) *)
Definition color_mask_path_of (output_color_mask_dir path : string) : string :=
  PosixPath.join output_color_mask_dir (image_name_of path +:+ "_color.png").

(** [json_to_mask] (q.py:8-57) *)
Definition json_to_mask (json_path output_mask_dir output_color_mask_dir : string)
    (class_mapping : dict) (class_colors : list color) : M unit :=
  let* data := load_json json_path in
  let* masks := rasterize data class_mapping class_colors in
  let* path := getitem "imagePath" (imagePath data) in
  let mask_path := mask_path_of output_mask_dir path in
  do save ImageL (fst masks) mask_path then
  let color_mask_path := color_mask_path_of output_color_mask_dir path in
  do save ImageRGB (snd masks) color_mask_path then
  print (MasksCreated mask_path color_mask_path).

(** ** Batch orchestrator: [process_labelme_folder] *)

(** The path of the image to copy (q.py:105-108). *)
Definition image_path_of (input_dir image_filename : string) : string :=
  if negb (PosixPath.isabs image_filename) then
    PosixPath.join input_dir (PosixPath.basename image_filename)
  else image_filename.

(** [shutil.copy2(src, dst)] for an existing [src]: a destination that
    is a directory receives the file under its own name; a file is never
    copied onto itself. *)
Definition copy2 (src dst : string) : M unit :=
  fun w =>
    let dst' := match files w !! dst with
                | Some Directory => PosixPath.join dst (PosixPath.basename src)
                | _ => dst
                end in
    if decide (src = dst') then (Raised (SameFileError src), w)
    else match files w !! src with
         | None => (Raised (FileNotFoundError src), w)
         | Some Directory => (Raised (IsADirectoryError src), w)
         | Some f => write_file dst' f w
         end.

(** The body of the [try] (q.py:95-117), up to the counter. *)
Definition handle_record (input_dir images_dir masks_dir color_masks_dir : string)
    (class_mapping : dict) (class_colors : list color) (json_path : string)
  : M unit :=
  do json_to_mask json_path masks_dir color_masks_dir class_mapping class_colors then
  let* data := load_json json_path in
  let* image_filename := getitem "imagePath" (imagePath data) in
  let image_path := image_path_of input_dir image_filename in
  let* found := path_exists image_path in
  if found then
    let output_image_path :=
      PosixPath.join images_dir (PosixPath.basename image_path) in
    do copy2 image_path output_image_path then
    print (ImageCopied output_image_path)
  else print (WarnImageMissing image_path).

(** The two counters (q.py:86-87) and the world. *)
Record batch : Type := Batch {
  processed_count : Z;
  error_count : Z;
  batch_world : world
}.

(** The body of [for filename in os.listdir(input_dir)] (q.py:91-121). *)
Definition process_file (input_dir images_dir masks_dir color_masks_dir : string)
    (class_mapping : dict) (class_colors : list color)
    (st : batch) (filename : string) : batch :=
  if PosixPath.endswith ".json" filename then
    let json_path := PosixPath.join input_dir filename in
    match handle_record input_dir images_dir masks_dir color_masks_dir
            class_mapping class_colors json_path (batch_world st) with
    | (Done _, w) => Batch (processed_count st + 1) (error_count st) w
    | (Raised e, w) =>
        Batch (processed_count st) (error_count st + 1)
              (snd (print (ErrorProcessing json_path e) w))
    end
  else st.

(** [str(color)] for a tuple of three integers *)
Definition str_color (c : color) : string :=
  let '(r, g, b) := c in
  "(" +:+ pretty r +:+ ", " +:+ pretty g +:+ ", " +:+ pretty b +:+ ")".

(** The line [f"{class_id}, {class_name}, {color}"] (q.py:132), without
    its newline. *)
Definition color_line (class_id : Z) (class_name : string) (c : color)
  : string :=
  pretty class_id +:+ ", " +:+ class_name +:+ ", " +:+ str_color c.

(** The header line (q.py:129), without its newline. *)
Definition report_header : string := "Class ID, Class Name, Color (R,G,B)".

(** The loop over [class_mapping.items()] (q.py:130-132): the lines
    written, and the exception that ended the loop early, if any. *)
Fixpoint color_lines (items : dict) (class_colors : list color)
  : list string * option exn :=
  match items with
  | [] => ([], None)
  | (class_name, class_id) :: r =>
      match list_getitem class_colors class_id with
      | None => ([], Some (IndexError class_id))
      | Some c =>
          let '(ls, e) := color_lines r class_colors in
          (color_line class_id class_name c :: ls, e)
      end
  end.

(** Writing [class_colors.txt] (q.py:128-132). A text file is kept as its
    lines; what was written before an exception stays in the file. *)
Definition write_class_colors (output_base_dir : string)
    (class_mapping : dict) (class_colors : list color) : M unit :=
  fun w =>
    let path := PosixPath.join output_base_dir "class_colors.txt" in
    match files w !! path with
    | Some Directory => (Raised (IsADirectoryError path), w)
    | _ =>
        let '(ls, e) := color_lines class_mapping class_colors in
        (match e with None => Done tt | Some e => Raised e end,
         World (<[path := TextFile (report_header :: ls)]> (files w))
               (console w))
    end.

(** [process_labelme_folder(input_dir, output_base_dir, class_mapping)],
    where [listing] is what [os.listdir(input_dir)] returns and [g] the
    state of [random]. The value is the pair of counters it prints. *)
Definition process_labelme_folder (input_dir output_base_dir : string)
    (class_mapping : dict) (listing : list string) (g : rng) : M (Z * Z) :=
  fun w =>
    let images_dir := PosixPath.join output_base_dir "images" in
    let masks_dir := PosixPath.join output_base_dir "masks" in
    let color_masks_dir := PosixPath.join output_base_dir "color_masks" in
    let num_classes := Z.of_nat (length class_mapping) in
    let class_colors := fst (generate_class_colors num_classes g) in
    let st := fold_left
                (process_file input_dir images_dir masks_dir color_masks_dir
                              class_mapping class_colors)
                listing (Batch 0 0 w) in
    (do print (Summary (processed_count st) (error_count st)) then
     do write_class_colors output_base_dir class_mapping class_colors then
     ret (processed_count st, error_count st)) (batch_world st).

(** What [json_to_mask] has drawn and printed when it reaches q.py:46. *)
Definition masks_of (data : json_record) (class_mapping : dict)
    (class_colors : list color) : outcome (image Z * image color) :=
  fst (rasterize data class_mapping class_colors empty_world).

(** The warnings printed on the way. *)
Definition warnings_of (data : json_record) (class_mapping : dict)
    (class_colors : list color) : list event :=
  console (snd (rasterize data class_mapping class_colors empty_world)).

End Rasterizer.

(** * Notions used in the statements *)

(** ** Records and shapes *)

(** Both keys of a shape are present. *)
Definition complete_shape (s : json_shape) : bool :=
  match label s, points s with
  | Some _, Some _ => true
  | _, _ => false
  end.

(** Every key that [json_to_mask] reads is present. *)
Definition complete_record (data : json_record) : bool :=
  match imageWidth data, imageHeight data, imagePath data, shapes data with
  | Some _, Some _, Some _, Some shps => forallb complete_shape shps
  | _, _, _, _ => false
  end.

(** The file at [json_path] parses into a structurally valid record. *)
Definition parses (fs : gmap string file) (json_path : string) : bool :=
  match fs !! json_path with
  | Some (JsonFile data) => complete_record data
  | _ => false
  end.

(** The name contains a dot. *)
Fixpoint has_dot (s : string) : bool :=
  match s with
  | EmptyString => false
  | String c r => bool_decide (c = PosixPath.extsep) || has_dot r
  end.

(** The name contains a character other than a dot. *)
Fixpoint has_nondot (s : string) : bool :=
  match s with
  | EmptyString => false
  | String c r => negb (bool_decide (c = PosixPath.extsep)) || has_nondot r
  end.

(** The shape has a vertex list that [ImageDraw.polygon] accepts. *)
Definition polygonal (s : json_shape) : bool :=
  match points s with
  | Some pts => bool_decide (2 <= length pts)%nat
  | None => false
  end.

(** The masks of a record with this [imagePath] get file names with an
    extension: the name of the image has a character other than a dot. *)
Definition names_masks (path : string) : bool :=
  has_nondot (image_name_of path).

(** [Image.save] accepts the masks of the record: the canvas has pixels
    and the masks get file names with an extension. *)
Definition savable (data : json_record) : bool :=
  match imageWidth data, imageHeight data, imagePath data with
  | Some w, Some h, Some path => (0 <? w) && (0 <? h) && names_masks path
  | _, _, _ => false
  end.

(** [json_to_mask] can draw and save the record: every key it reads is
    present, every shape has two vertices or more, and the masks can be
    saved. *)
Definition rasterizable (data : json_record) : bool :=
  complete_record data
  && match shapes data with
     | Some shps => forallb polygonal shps
     | None => false
     end
  && savable data.

(** Every class id of the mapping indexes the palette. *)
Definition palette_covers (class_mapping : dict) (class_colors : list color)
  : Prop :=
  Forall (fun item => is_Some (list_getitem class_colors item.2)) class_mapping.

(** A structurally complete record. *)
Definition annotation (w h : Z) (path : string)
    (shps : list (string * list point)) : json_record :=
  JsonRecord (Some w) (Some h) (Some path)
    (Some ((fun s => JsonShape (Some s.1) (Some s.2)) <$> shps)).

(** The rectangle over the whole [w] x [h] canvas, as LabelMe lists it. *)
Definition full_canvas (w h : Z) : list point :=
  [(0, 0); (inject_Z w, 0); (inject_Z w, inject_Z h); (0, inject_Z h)]%Q.

(** The shape's label is a key of the mapping. *)
Definition mapped (class_mapping : dict) (s : json_shape) : bool :=
  match label s with
  | Some l => dict_mem l class_mapping
  | None => true
  end.

(** The labels of the shapes that are not in the mapping, in order. *)
Definition unmapped_labels (class_mapping : dict) (shps : list json_shape)
  : list string :=
  omap (fun s => match label s with
                 | Some l => if dict_mem l class_mapping then None else Some l
                 | None => None
                 end) shps.

(** ** Vocabulary *)

(** The labels one directory entry contributes to [all_labels]. *)
Definition labels_of_file (input_dir : string) (fs : gmap string file)
    (filename : string) : gset string :=
  if PosixPath.endswith ".json" filename then
    match fs !! PosixPath.join input_dir filename with
    | Some (JsonFile data) =>
        match shapes data with
        | Some shps => snd (add_labels shps ∅)
        | None => ∅
        end
    | _ => ∅
    end
  else ∅.

(** The set [all_labels] at q.py:150. *)
Definition observed_labels (input_dir : string) (listing : list string)
    (w : world) : gset string :=
  fst (fold_left (scan_file input_dir) listing (∅, w)).

(** ** Colors and canvases *)

(** Every channel is in the range [generate_class_colors] draws from. *)
Definition bright (c : color) : Prop :=
  let '(r, g, b) := c in
  50 <= r <= 255 /\ 50 <= g <= 255 /\ 50 <= b <= 255.

(** Every channel of an RGB triple fits in 8 bits. *)
Definition rgb8 (c : color) : Prop :=
  let '(r, g, b) := c in
  0 <= r <= 255 /\ 0 <= g <= 255 /\ 0 <= b <= 255.

(** A canvas of one value. *)
Definition filled {A} (w h : Z) (v : A) : image A :=
  Image w h (replicate (Z.to_nat h) (replicate (Z.to_nat w) v)).

(** ** Paths *)

(** The last character of a path. *)
Fixpoint last_char (s : string) : option ascii :=
  match s with
  | EmptyString => None
  | String c r => Some (default c (last_char r))
  end.

(** The first character of a path. *)
Definition head_char (s : string) : option ascii :=
  match s with
  | EmptyString => None
  | String c _ => Some c
  end.

(** The path contains a separator. *)
Fixpoint has_sep (s : string) : bool :=
  match s with
  | EmptyString => false
  | String c r => bool_decide (c = PosixPath.sep) || has_sep r
  end.

(** Following the spec's words (section 4.4): a relative [imagePath] is
    resolved against the input location's directory, an absolute one is
    used as it is. *)
Definition resolve_against_input (input_dir image_filename : string) : string :=
  if PosixPath.isabs image_filename then image_filename
  else PosixPath.join input_dir image_filename.

(** ** Computations *)

(** [m] reads nothing from the world and changes only the console: its
    outcome and the lines it prints are those of a run in the empty
    world. *)
Definition console_only {A} (m : M A) : Prop :=
  forall w,
    m w = (fst (m empty_world),
           World (files w) (console w ++ console (snd (m empty_world)))).

(** The outcome of [m], the files it leaves and the lines it prints depend
    on the files alone. *)
Definition local {A} (m : M A) : Prop :=
  forall fs c,
    m (World fs c)
    = (fst (m (World fs [])),
       World (files (snd (m (World fs []))))
             (c ++ console (snd (m (World fs []))))).

(** [m] turns no path into a directory. *)
Definition keeps_files {A} (m : M A) : Prop :=
  forall w q,
    files w !! q ≠ Some Directory -> files (snd (m w)) !! q ≠ Some Directory.

(** ** The batch *)

(** The files after q.py:51 and q.py:55. *)
Definition with_masks (fs : gmap string file) (masks_dir color_masks_dir path : string)
    (masks : image Z * image color) : gmap string file :=
  <[color_mask_path_of color_masks_dir path := ImageRGB masks.2]>
    (<[mask_path_of masks_dir path := ImageL masks.1]> fs).

(** [src] is a regular file that [shutil.copy2] can copy to [dst]. *)
Definition copyable (fs : gmap string file) (src dst : string) : Prop :=
  src ≠ dst /\ fs !! dst ≠ Some Directory
  /\ exists f, fs !! src = Some f /\ f ≠ Directory.

(** The state after one directory entry, relative to the state
    before it: counters add up and the console grows at its end. *)
Definition shift (p e : Z) (c : list event) (st : batch) : batch :=
  Batch (p + processed_count st) (e + error_count st)
        (World (files (batch_world st)) (c ++ console (batch_world st))).

(** [line] is the report line of the mapping entry [item]. *)
Definition line_of (class_colors : list color) (item : string * Z)
    (line : string) : Prop :=
  exists c, list_getitem class_colors item.2 = Some c
            /\ line = color_line item.2 item.1 c.

(** ** Sample directories *)

(** One annotation whose only shape is labelled "background". *)
Definition only_background : world :=
  World {[ "all/a.json" :=
             JsonFile (annotation 4 4 "a.png" [("background", full_canvas 4 4)]) ]}
        [].

(** One annotation with the labels "background" and "apple". *)
Definition apple_and_background : world :=
  World {[ "all/a.json" :=
             JsonFile (annotation 4 4 "a.png"
                         [("background", full_canvas 4 4);
                          ("apple", full_canvas 2 2)]) ]}
        [].

(** An annotation whose [imagePath] has a directory part; the image is
    where that path says. *)
Definition nested_image : world :=
  World {[ "all/a.json" :=
             JsonFile (annotation 4 4 "sub/a.png" [("cat", full_canvas 4 4)]);
           "all/sub/a.png" := OtherFile "pixels" ]}
        [].

(** The annotation of the spec's example, alone in its directory. *)
Definition cat_4x4 : world :=
  World {[ "all/a.json" :=
             JsonFile (annotation 4 4 "a.png" [("cat", full_canvas 4 4)]) ]}
        [].

(** The unmapped-label scenario of the spec. *)
Definition unknown_label : world :=
  World {[ "all/a.json" :=
             JsonFile (annotation 4 4 "a.png"
                         [("unknown_xyz", full_canvas 4 4)]);
           "all/a.png" := OtherFile "pixels of a" ]}
        [].

(** Two valid annotations, a file that is not JSON, and a text file. *)
Definition mixed_directory : world :=
  World {[ "all/a.json" :=
             JsonFile (annotation 4 4 "a.png" [("cat", full_canvas 4 4)]);
           "all/broken.json" := OtherFile "{";
           "all/b.json" :=
             JsonFile (annotation 2 2 "b.png" [("cat", full_canvas 2 2)]);
           "all/a.png" := OtherFile "pixels of a";
           "all/notes.txt" := TextFile ["todo"] ]}
        [].

(** A mapping of 257 classes: "background" and the labels "1" to "256". *)
Definition many_classes : dict :=
  ("background", 0) :: zip (pretty <$> seqZ 1 256) (seqZ 1 256).

(** The stream of draws used in the sample runs. *)
Definition sample_rng : rng := Rng (fun n => Z.of_nat n * 77) 0.

(** * The script (q.py:158-176) *)

(** What the script prints: the lines of the two functions it calls, and
    its own. *)
Inductive main_event : Type :=
| Printed (e : event)
| ClassesDetected (class_mapping : dict)   (* q.py:165 *)
| LabelsSaved (path : string)              (* q.py:175 *)
| ColorsSaved (path : string).             (* q.py:176 *)

(** The line [f"{class_id} {class_name}"] (q.py:173), without its
    newline. *)
Definition label_line (class_id : Z) (class_name : string) : string :=
  pretty class_id +:+ " " +:+ class_name.

(** Writing [labels.txt] (q.py:171-173). *)
Definition write_labels (output_directory : string) (class_mapping : dict)
  : M unit :=
  write_file (PosixPath.join output_directory "labels.txt")
    (TextFile ((fun item => label_line item.2 item.1) <$> class_mapping)).

(** q.py:160-161 *)
Definition input_directory : string := "all".
Definition output_directory : string := "datasets".

(** How a run of the script ends: normally or with the exception that
    stops it, the files it leaves, and what it has printed. *)
Record run : Type := Run {
  run_outcome : outcome unit;
  run_files : gmap string file;
  run_output : list main_event
}.

(** The script, on the files [fs]. [listing] and [listing'] are what
    [os.listdir] returns to [auto_detect_classes] and to
    [process_labelme_folder], [g] is the state of [random]. *)
Definition main (covers : list point -> nat -> nat -> bool)
    (listing listing' : list string) (g : rng) (fs : gmap string file) : run :=
  let '(class_mapping, w1) :=
    auto_detect_classes input_directory listing (World fs []) in
  let detected := (Printed <$> console w1) ++ [ClassesDetected class_mapping] in
  match process_labelme_folder covers input_directory output_directory
          class_mapping listing' g (World (files w1) []) with
  | (Raised e, w2) =>
      Run (Raised e) (files w2) (detected ++ (Printed <$> console w2))
  | (Done _, w2) =>
      match write_labels output_directory class_mapping
              (World (files w2) []) with
      | (Raised e, w3) =>
          Run (Raised e) (files w3) (detected ++ (Printed <$> console w2))
      | (Done _, w3) =>
          Run (Done tt) (files w3)
              (detected ++ (Printed <$> console w2)
               ++ [LabelsSaved (PosixPath.join output_directory "labels.txt");
                   ColorsSaved
                     (PosixPath.join output_directory "class_colors.txt")])
      end
  end.

(** * Further notions *)

(** ** Reading the annotations *)

(** [auto_detect_classes] reads the annotation at [json_path] to its end
    (q.py:142-146): the file is a JSON object with "shapes", and every
    shape has a "label". *)
Definition reads_to_end (fs : gmap string file) (json_path : string) : bool :=
  match fs !! json_path with
  | Some (JsonFile data) =>
      match shapes data with
      | Some shps => forallb (fun s => bool_decide (is_Some (label s))) shps
      | None => false
      end
  | _ => false
  end.

(** The directory entry is an annotation that is not read to its end. *)
Definition unreadable (input_dir : string) (fs : gmap string file)
    (filename : string) : bool :=
  PosixPath.endswith ".json" filename
  && negb (reads_to_end fs (PosixPath.join input_dir filename)).

(** [ev] is the line printed at q.py:148 for the entry [filename]. *)
Definition reports (input_dir : string) (filename : string) (ev : event)
  : Prop :=
  exists e, ev = ErrorReading (PosixPath.join input_dir filename) e.

(** An annotation whose second shape has no label. *)
Definition unlabelled_shape : world :=
  World {[ "all/a.json" :=
             JsonFile (JsonRecord (Some 4) (Some 4) (Some "a.png")
                         (Some [JsonShape (Some "cat") (Some (full_canvas 4 4));
                                JsonShape None (Some (full_canvas 2 2));
                                JsonShape (Some "dog") (Some (full_canvas 2 2))])) ]}
        [].

(** ** Pixels *)

(** The value of the pixel in column [x] of row [y], if the image has
    one. *)
Definition pixel {A} (im : image A) (x y : nat) : option A :=
  rows im !! y ≫= fun row => row !! x.

(** An image of [w] columns and [h] rows whose pixels all satisfy [P]. *)
Definition well_formed {A} (P : A -> Prop) (w h : Z) (im : image A) : Prop :=
  width im = w /\ height im = h
  /\ length (rows im) = Z.to_nat h
  /\ Forall (fun row => length row = Z.to_nat w /\ Forall P row) (rows im).

(** The shape is drawn and fills the pixel in column [x] of row [y]. *)
Definition paints (covers : list point -> nat -> nat -> bool)
    (class_mapping : dict) (x y : nat) (s : json_shape) : bool :=
  match label s, points s with
  | Some l, Some pts => dict_mem l class_mapping && covers pts x y
  | _, _ => false
  end.

(** ** Further samples *)

(** A record with two overlapping shapes: "cat" over the whole canvas,
    then "dog" over its top left quarter. *)
Definition overlapping_shapes : json_record :=
  annotation 4 4 "a.png" [("cat", full_canvas 4 4); ("dog", full_canvas 2 2)].

(** An annotation of an image without pixels: its width is 0. *)
Definition empty_canvas : world :=
  World {[ "all/a.json" :=
             JsonFile (annotation 0 4 "a.png" [("cat", full_canvas 4 4)]) ]}
        [].

(** An annotation whose only shape has a single vertex. *)
Definition single_vertex : world :=
  World {[ "all/a.json" :=
             JsonFile (annotation 4 4 "a.png" [("cat", [(1, 1)%Q])]) ]}
        [].

(** An annotation whose [imagePath] has an empty base name. *)
Definition nameless_image : world :=
  World {[ "all/a.json" :=
             JsonFile (annotation 4 4 "sub/" [("cat", full_canvas 4 4)]) ]}
        [].

(** ** Where a computation writes *)

(** [m] changes no path outside those that [area] selects. *)
Definition writes_only {A} (area : string -> bool) (m : M A) : Prop :=
  forall w q, area q = false -> files (snd (m w)) !! q = files w !! q.

(** The paths of the output layout: what lies in the three directories
    that [process_labelme_folder] names (q.py:74-76), and the report
    (q.py:128). *)
Definition output_area (output_base_dir : string) (q : string) : bool :=
  PosixPath.startswith (PosixPath.join output_base_dir "images" +:+ "/") q
  || PosixPath.startswith (PosixPath.join output_base_dir "masks" +:+ "/") q
  || PosixPath.startswith (PosixPath.join output_base_dir "color_masks" +:+ "/") q
  || bool_decide (q = PosixPath.join output_base_dir "class_colors.txt").

(** An annotation beside its image, inside the images directory of the
    output. *)
Definition image_in_place : world :=
  World {[ "out/images/a.json" :=
             JsonFile (annotation 4 4 "a.png" [("cat", full_canvas 4 4)]);
           "out/images/a.png" := OtherFile "pixels of a" ]}
        [].

(** ** File names *)

(** Two annotations of images with the same name without extension. *)
Definition same_image_name : world :=
  World {[ "all/a.json" :=
             JsonFile (annotation 2 2 "a.png" [("cat", full_canvas 2 2)]);
           "all/b.json" :=
             JsonFile (annotation 2 2 "sub/a.jpg" [("dog", full_canvas 1 1)]) ]}
        [].

(** ** The script's paths *)

(** The path of [labels.txt] (q.py:171). *)
Definition labels_path : string :=
  PosixPath.join output_directory "labels.txt".

(** The path of [class_colors.txt] (q.py:128) in a run of the script. *)
Definition colors_path : string :=
  PosixPath.join output_directory "class_colors.txt".

(** ** Shapes and the palette *)

(** The shape is skipped, or it is drawn without an exception: its class
    id has a color and its polygon has two vertices or more. *)
Definition drawable (class_mapping : dict) (class_colors : list color)
    (s : json_shape) : bool :=
  match label s with
  | Some l =>
      match dict_get l class_mapping with
      | Some class_id =>
          bool_decide (is_Some (list_getitem class_colors class_id))
          && polygonal s
      | None => true
      end
  | None => true
  end.

(** A record with an unmapped label, a mapped one, and "background". *)
Definition fruit_record : json_record :=
  JsonRecord (Some 4) (Some 4) (Some "a.png")
    (Some ([JsonShape (Some "pear") (Some (full_canvas 4 4));
            JsonShape (Some "apple") (Some (full_canvas 2 2))]
           ++ JsonShape (Some "background") (Some (full_canvas 4 4)) :: [])).

(** That record alone in its directory. *)
Definition fruit : world := World {[ "all/a.json" := JsonFile fruit_record ]} [].

(** ** A directory in order *)

(** The entry [filename] is an annotation in order: a record that
    rasterizes, kept outside the output area, whose image is missing or
    is a regular file outside the output area. *)
Definition ready (input_dir output_base_dir : string) (fs : gmap string file)
    (filename : string) : Prop :=
  exists data path,
    fs !! PosixPath.join input_dir filename = Some (JsonFile data)
    /\ rasterizable data = true
    /\ imagePath data = Some path
    /\ output_area output_base_dir (PosixPath.join input_dir filename) = false
    /\ output_area output_base_dir (image_path_of input_dir path) = false
    /\ fs !! image_path_of input_dir path ≠ Some Directory.

(** The files of a state [st] of the loop, compared with the files [fs]
    it started from: nothing changed outside the output area, and no
    directory inside it. *)
Definition reached (output_base_dir : string) (fs : gmap string file)
    (st : batch) : Prop :=
  (forall q, output_area output_base_dir q = false ->
             files (batch_world st) !! q = fs !! q)
  /\ (forall q, output_area output_base_dir q = true ->
                files (batch_world st) !! q ≠ Some Directory).

(** * Properties *)

(** ** Palette generator *)

Lemma randint_range a b g :
  a <= b -> a <= fst (randint a b g) <= b.
Proof.
  intros Hab. unfold randint. cbn [fst].
  pose proof (Z.mod_pos_bound (draws g (position g)) (b - a + 1)). lia.
Qed.

Lemma append_colors_spec k : forall colors g,
  exists extra,
    fst (append_colors k colors g) = colors ++ extra
    /\ length extra = k /\ Forall bright extra.
Proof.
  induction k as [|k IH]; intros colors g; cbn [append_colors].
  - exists []. rewrite app_nil_r. auto.
  - destruct (randint 50 255 g) as [r g1] eqn:E1.
    destruct (randint 50 255 g1) as [gr g2] eqn:E2.
    destruct (randint 50 255 g2) as [b g3] eqn:E3.
    destruct (IH (colors ++ [(r, gr, b)]) g3) as (extra & -> & Hlen & Hall).
    exists ((r, gr, b) :: extra). rewrite <- app_assoc. cbn.
    split; [done|]. split; [by rewrite Hlen|].
    constructor; [|done].
    pose proof (randint_range 50 255 g ltac:(lia)) as H1.
    pose proof (randint_range 50 255 g1 ltac:(lia)) as H2.
    pose proof (randint_range 50 255 g2 ltac:(lia)) as H3.
    rewrite E1 in H1. rewrite E2 in H2. rewrite E3 in H3. cbn in *. lia.
Qed.

Lemma generate_class_colors_spec num_classes g :
  exists extra,
    fst (generate_class_colors num_classes g) = (0, 0, 0) :: extra
    /\ length extra = Z.to_nat (num_classes - 1) /\ Forall bright extra.
Proof. apply (append_colors_spec _ [(0, 0, 0)] g). Qed.

(** C5. For every [num_classes >= 1] the palette has exactly [num_classes]
    entries, entry 0 is (0,0,0), and every other entry has its three
    channels in [50, 255]. *)
Theorem generate_class_colors_palette (num_classes : Z) (g : rng) :
  1 <= num_classes ->
  let colors := fst (generate_class_colors num_classes g) in
  Z.of_nat (length colors) = num_classes
  /\ colors !! 0%nat = Some (0, 0, 0)
  /\ forall (i : nat) (c : color), (0 < i)%nat -> colors !! i = Some c -> bright c.
Proof.
  intros Hn colors. subst colors.
  destruct (generate_class_colors_spec num_classes g) as (extra & -> & Hlen & Hall).
  split; [rewrite length_cons; lia|]. split; [done|].
  intros [|i] c Hi Hc; [lia|]. cbn in Hc.
  rewrite Forall_lookup in Hall. by eapply Hall.
Qed.

Lemma generate_class_colors_palette_witness :
  let colors := fst (generate_class_colors 3 sample_rng) in
  Z.of_nat (length colors) = 3
  /\ colors !! 0%nat = Some (0, 0, 0)
  /\ forall (i : nat) (c : color), (0 < i)%nat -> colors !! i = Some c -> bright c.
Proof. apply (generate_class_colors_palette 3); lia. Defined.

Lemma generate_class_colors_size num_classes g :
  Z.of_nat (length (fst (generate_class_colors num_classes g)))
  = Z.max num_classes 1.
Proof.
  destruct (generate_class_colors_spec num_classes g) as (extra & -> & Hlen & _).
  rewrite length_cons. lia.
Qed.

(** C10. The palette has [max num_classes 1] entries whatever the integer
    [num_classes] is; called with 0 it is the one-element list [(0,0,0)]
    and not the empty list. *)
Theorem generate_class_colors_length (g : rng) :
  (forall num_classes : Z,
     Z.of_nat (length (fst (generate_class_colors num_classes g)))
     = Z.max num_classes 1)
  /\ fst (generate_class_colors 0 g) = [(0, 0, 0)].
Proof.
  split; [|done]. intros n. apply generate_class_colors_size.
Qed.

(** ** Vocabulary builder *)

Lemma add_labels_union shps : forall L : gset string,
  snd (add_labels shps L) = L ∪ snd (add_labels shps ∅).
Proof.
  induction shps as [|s r IH]; intros L; cbn.
  - set_solver.
  - destruct (label s) as [l|]; cbn; [|set_solver].
    rewrite (IH ({[l]} ∪ L)), (IH ({[l]} ∪ ∅)). set_solver.
Qed.

Lemma scan_file_spec input_dir (L : gset string) w filename :
  exists evs,
    scan_file input_dir (L, w) filename
    = (L ∪ labels_of_file input_dir (files w) filename,
       World (files w) (console w ++ evs)).
Proof.
  unfold scan_file, labels_of_file.
  destruct (PosixPath.endswith ".json" filename).
  2:{ exists []. rewrite app_nil_r. destruct w. f_equal. set_solver. }
  unfold bind, load_json, getitem, print, ret, raise.
  set (json_path := PosixPath.join input_dir filename).
  destruct (files w !! json_path) as [[ | data | | | | | ]|] eqn:E;
    try (eexists [_]; cbn; f_equal; set_solver).
  destruct (shapes data) as [shps|]; [|eexists [_]; cbn; f_equal; set_solver].
  rewrite (surjective_pairing (add_labels shps L)), (add_labels_union shps L).
  destruct (add_labels shps L).1; cbn.
  - exists []. rewrite app_nil_r. by destruct w.
  - by eexists [_].
Qed.

Lemma scan_fold_spec input_dir listing : forall (L : gset string) w,
  exists evs,
    fold_left (scan_file input_dir) listing (L, w)
    = (L ∪ ⋃ (labels_of_file input_dir (files w) <$> listing),
       World (files w) (console w ++ evs)).
Proof.
  induction listing as [|f r IH]; intros L w; cbn [fold_left fmap list_fmap].
  - exists []. rewrite app_nil_r, union_list_nil. destruct w. f_equal. set_solver.
  - destruct (scan_file_spec input_dir L w f) as [evs1 ->].
    destruct (IH (L ∪ labels_of_file input_dir (files w) f)
                 (World (files w) (console w ++ evs1))) as [evs2 ->].
    exists (evs1 ++ evs2). cbn [files console].
    rewrite union_list_cons, <- app_assoc.
    f_equal. set_solver.
Qed.

Lemma observed_labels_union input_dir listing w :
  observed_labels input_dir listing w
  = ⋃ (labels_of_file input_dir (files w) <$> listing).
Proof.
  unfold observed_labels.
  destruct (scan_fold_spec input_dir listing ∅ w) as [evs ->]. cbn. set_solver.
Qed.

Lemma auto_detect_classes_mapping input_dir listing w :
  fst (auto_detect_classes input_dir listing w)
  = assign_ids 1 (sorted (observed_labels input_dir listing w))
               [("background", 0)].
Proof.
  unfold auto_detect_classes, observed_labels.
  by destruct (fold_left _ _ _).
Qed.

Lemma auto_detect_classes_files input_dir listing w :
  files (snd (auto_detect_classes input_dir listing w)) = files w.
Proof.
  unfold auto_detect_classes.
  by destruct (scan_fold_spec input_dir listing ∅ w) as [evs ->].
Qed.

(** The mapping does not depend on the order in which the directory is
    listed. *)
Lemma auto_detect_classes_permutation input_dir listing1 listing2 w :
  listing1 ≡ₚ listing2 ->
  fst (auto_detect_classes input_dir listing1 w)
  = fst (auto_detect_classes input_dir listing2 w).
Proof.
  intros Hp. rewrite !auto_detect_classes_mapping, !observed_labels_union.
  do 2 f_equal. apply leibniz_equiv. by rewrite Hp.
Qed.

Lemma dict_set_fresh key v (d : dict) :
  key ∉ d.*1 -> dict_set key v d = d ++ [(key, v)].
Proof.
  induction d as [|[k v'] d IH]; cbn; [done|].
  intros Hk. rewrite not_elem_of_cons in Hk. destruct Hk as [Hne Hk].
  destruct (decide (key = k)); [done|]. by rewrite IH.
Qed.

Lemma dict_set_keys key v (d : dict) :
  (dict_set key v d).*1 = if decide (key ∈ d.*1) then d.*1 else d.*1 ++ [key].
Proof.
  induction d as [|[k v'] d IH]; cbn.
  - rewrite decide_False; [done|]. apply not_elem_of_nil.
  - destruct (decide (key = k)) as [->|Hne]; cbn.
    + rewrite decide_True; [done|]. by left.
    + rewrite IH. destruct (decide (key ∈ d.*1)) as [Hin|Hin].
      * rewrite decide_True; [done|]. by right.
      * rewrite decide_False; [done|]. rewrite not_elem_of_cons. done.
Qed.

Lemma dict_get_set k' key v (d : dict) :
  dict_get k' (dict_set key v d)
  = if decide (k' = key) then Some v else dict_get k' d.
Proof.
  induction d as [|[k u] d IH]; cbn.
  - by destruct (decide (k' = key)).
  - destruct (decide (key = k)) as [->|Hne]; cbn.
    + by destruct (decide (k' = k)).
    + rewrite IH. destruct (decide (k' = k)) as [->|]; [|done].
      by rewrite decide_False.
Qed.

Lemma dict_get_elem k v (d : dict) :
  NoDup d.*1 -> (k, v) ∈ d <-> dict_get k d = Some v.
Proof.
  induction d as [|[k0 v0] d IH]; cbn; intros Hnd.
  - by rewrite elem_of_nil.
  - apply NoDup_cons in Hnd as [Hk0 Hnd]. rewrite elem_of_cons, (IH Hnd).
    destruct (decide (k = k0)) as [->|Hne].
    + split; [intros [[= ->]|Hget]; [done|] | intros [= ->]; by left].
      contradict Hk0. apply IH in Hget; [|done].
      apply list_elem_of_fmap. by exists (k0, v).
    + split; [intros [[= -> ->]|]; done | by right].
Qed.

Lemma dict_mem_get k (d : dict) :
  dict_mem k d = bool_decide (is_Some (dict_get k d)).
Proof.
  unfold dict_mem. apply bool_decide_ext.
  induction d as [|[k0 v0] d IH]; cbn.
  - rewrite elem_of_nil. split; [done|]. by intros [? ?].
  - rewrite elem_of_cons, IH. destruct (decide (k = k0)); [|naive_solver].
    split; [eauto|by left].
Qed.

Lemma dict_set_NoDup key v (d : dict) :
  NoDup d.*1 -> NoDup (dict_set key v d).*1.
Proof.
  intros Hnd. rewrite dict_set_keys.
  destruct (decide (key ∈ d.*1)); [done|].
  apply NoDup_app. split; [done|]. split; [|apply NoDup_singleton].
  intros x Hx ->%list_elem_of_singleton. done.
Qed.

Lemma assign_ids_NoDup labels : forall i (m : dict),
  NoDup m.*1 -> NoDup (assign_ids i labels m).*1.
Proof.
  induction labels as [|l r IH]; intros i m Hm; cbn; [done|].
  apply IH. by apply dict_set_NoDup.
Qed.

Lemma assign_ids_keys labels : forall i (m : dict) k,
  k ∈ (assign_ids i labels m).*1 <-> k ∈ labels \/ k ∈ m.*1.
Proof.
  induction labels as [|l r IH]; intros i m k; cbn.
  - rewrite elem_of_nil. naive_solver.
  - rewrite IH, dict_set_keys, elem_of_cons.
    destruct (decide (l ∈ m.*1)); [naive_solver|].
    rewrite elem_of_app, list_elem_of_singleton. naive_solver.
Qed.

Lemma dict_get_assign_ids_notin labels : forall i (m : dict) k,
  k ∉ labels -> dict_get k (assign_ids i labels m) = dict_get k m.
Proof.
  induction labels as [|l r IH]; intros i m k Hk; cbn; [done|].
  apply not_elem_of_cons in Hk as [Hne Hk].
  rewrite IH, dict_get_set by done. by rewrite decide_False.
Qed.

Lemma dict_get_assign_ids_in labels : forall i (m : dict) (j : nat) k,
  NoDup labels -> labels !! j = Some k ->
  dict_get k (assign_ids i labels m) = Some (i + Z.of_nat j).
Proof.
  induction labels as [|l r IH]; intros i m j k Hnd Hj; [done|].
  apply NoDup_cons in Hnd as [Hl Hnd]. cbn [assign_ids].
  destruct j as [|j]; cbn in Hj.
  - injection Hj as ->.
    rewrite dict_get_assign_ids_notin, dict_get_set, decide_True by done.
    f_equal. lia.
  - rewrite (IH _ _ j k) by done. f_equal. lia.
Qed.

Lemma assign_ids_fresh labels : forall i (m : dict),
  NoDup labels -> (forall l, l ∈ labels -> l ∉ m.*1) ->
  assign_ids i labels m
  = m ++ zip labels (seqZ i (Z.of_nat (length labels))).
Proof.
  induction labels as [|l r IH]; intros i m Hnd Hfresh.
  - cbn. by rewrite app_nil_r.
  - apply NoDup_cons in Hnd as [Hl Hnd]. cbn [assign_ids length].
    rewrite dict_set_fresh by (apply Hfresh; by left).
    rewrite IH; [|done|].
    + rewrite (seqZ_cons i) by lia. cbn [zip zip_with]. rewrite <- app_assoc.
      cbn [app]. repeat f_equal; lia.
    + intros k Hk. rewrite fmap_app, elem_of_app. cbn.
      rewrite list_elem_of_singleton. intros [Hin| ->]; [|done].
      by apply (Hfresh k); [right|].
Qed.

Lemma sorted_elem (L : gset string) l : l ∈ sorted L <-> l ∈ L.
Proof. unfold sorted. by rewrite merge_sort_Permutation, elem_of_elements. Qed.

Lemma sorted_NoDup (L : gset string) : NoDup (sorted L).
Proof. unfold sorted. rewrite merge_sort_Permutation. apply NoDup_elements. Qed.

Lemma sorted_length (L : gset string) : length (sorted L) = size L.
Proof. unfold sorted. by rewrite merge_sort_Permutation. Qed.

Lemma sorted_Sorted (L : gset string) : StronglySorted String.le (sorted L).
Proof. apply StronglySorted_merge_sort; apply _. Qed.

(** The keys of the mapping are distinct, and they are "background" and
    the observed labels. *)
Lemma auto_detect_classes_keys input_dir listing w :
  let class_mapping := fst (auto_detect_classes input_dir listing w) in
  NoDup class_mapping.*1
  /\ forall l, l ∈ class_mapping.*1
               <-> l = "background" \/ l ∈ observed_labels input_dir listing w.
Proof.
  cbn zeta. rewrite auto_detect_classes_mapping. split.
  - apply assign_ids_NoDup. cbn. apply NoDup_singleton.
  - intros l. rewrite assign_ids_keys, sorted_elem. cbn.
    rewrite list_elem_of_singleton. naive_solver.
Qed.

(** Every observed label gets 1 plus its rank in sorted order. *)
Lemma auto_detect_classes_rank input_dir listing w (j : nat) l :
  sorted (observed_labels input_dir listing w) !! j = Some l ->
  dict_get l (fst (auto_detect_classes input_dir listing w))
  = Some (1 + Z.of_nat j).
Proof.
  intros Hj. rewrite auto_detect_classes_mapping.
  apply dict_get_assign_ids_in; [apply sorted_NoDup|done].
Qed.

(** When no shape is labelled "background", the mapping is "background"
    with id 0 followed by the observed labels in sorted order with ids
    1, 2, ...: a bijection onto the dense range 0 .. n. *)
Lemma auto_detect_classes_dense input_dir listing w :
  let L := observed_labels input_dir listing w in
  "background" ∉ L ->
  fst (auto_detect_classes input_dir listing w)
  = ("background", 0) :: zip (sorted L) (seqZ 1 (Z.of_nat (size L))).
Proof.
  intros L Hbg. rewrite auto_detect_classes_mapping. fold L.
  rewrite assign_ids_fresh, sorted_length; [done|apply sorted_NoDup|].
  intros l Hl. cbn. rewrite list_elem_of_singleton. intros ->.
  by apply sorted_elem in Hl.
Qed.

Lemma auto_detect_classes_dense_ids input_dir listing w :
  let L := observed_labels input_dir listing w in
  let class_mapping := fst (auto_detect_classes input_dir listing w) in
  "background" ∉ L ->
  dict_get "background" class_mapping = Some 0
  /\ class_mapping.*1 = "background" :: sorted L
  /\ class_mapping.*2 = seqZ 0 (Z.of_nat (length class_mapping)).
Proof.
  intros L class_mapping Hbg. subst class_mapping.
  rewrite (auto_detect_classes_dense _ _ _ Hbg). fold L.
  assert (Hlen : length (seqZ 1 (Z.of_nat (size L))) = length (sorted L)).
  { rewrite length_seqZ, sorted_length. lia. }
  split; [done|]. split.
  - cbn. by rewrite fst_zip by lia.
  - cbn [fmap list_fmap snd length]. rewrite snd_zip by lia.
    rewrite length_zip_with, <- Hlen, Nat.min_id, length_seqZ.
    rewrite (seqZ_cons 0) by lia. repeat f_equal; lia.
Qed.

(** When some shape is labelled "background", that label gets the id of its
    sorted rank like any other, and no class is left with id 0. *)
Lemma auto_detect_classes_background_in_data input_dir listing w :
  let L := observed_labels input_dir listing w in
  let class_mapping := fst (auto_detect_classes input_dir listing w) in
  "background" ∈ L ->
  (exists j : nat, sorted L !! j = Some "background"
                   /\ dict_get "background" class_mapping = Some (1 + Z.of_nat j))
  /\ forall l class_id, (l, class_id) ∈ class_mapping -> 1 <= class_id.
Proof.
  intros L class_mapping Hbg.
  destruct (auto_detect_classes_keys input_dir listing w) as [Hnd Hkeys].
  fold class_mapping L in Hnd, Hkeys. split.
  - apply sorted_elem, list_elem_of_lookup in Hbg as [j Hj]. exists j.
    split; [done|]. by apply auto_detect_classes_rank.
  - intros l v Hin.
    assert (l ∈ L) as Hl.
    { assert (l ∈ class_mapping.*1) as Hk.
      { apply list_elem_of_fmap. by exists (l, v). }
      apply Hkeys in Hk as [->|]; done. }
    apply sorted_elem, list_elem_of_lookup in Hl as [j Hj].
    apply (dict_get_elem _ _ _ Hnd) in Hin.
    unfold class_mapping in Hin.
    rewrite (auto_detect_classes_rank _ _ _ _ _ Hj) in Hin.
    injection Hin as <-. lia.
Qed.

(** C1. The claim asks for id 0 on "background" and a dense range of ids
    from 0 for every collection of records. On a directory whose only
    shape is labelled "background" the builder returns the single entry
    "background" -> 1: the label does not have id 0 and no class has. *)
Theorem auto_detect_classes_background_only :
  fst (auto_detect_classes "all" ["a.json"] only_background)
  = [("background", 1)].
Proof. vm_compute. reflexivity. Qed.

(** C2. The claim asks that a shape labelled "background" coincide with
    class id 0. With the labels "apple" and "background" in the data the
    builder keeps one entry for "background" but gives it id 2, its rank
    among the sorted labels; "apple" gets 1 and id 0 is unused. *)
Theorem auto_detect_classes_background_shadowed :
  let class_mapping :=
    fst (auto_detect_classes "all" ["a.json"] apple_and_background) in
  class_mapping = [("background", 2); ("apple", 1)]
  /\ dict_get "background" class_mapping = Some 2.
Proof. vm_compute. split; reflexivity. Qed.

(** With the mapping [auto_detect_classes] builds from the labels "apple"
    and "background", the palette has two entries while "background" has id
    2: the record is counted as an error, and writing the report raises. *)
Lemma background_label_breaks_the_batch :
  let class_mapping :=
    fst (auto_detect_classes "all" ["a.json"] apple_and_background) in
  let run :=
    process_labelme_folder even_odd_covers "all" "out" class_mapping
      ["a.json"] sample_rng apple_and_background in
  fst run = Raised (IndexError 2)
  /\ console (snd run)
     = [ErrorProcessing "all/a.json" (IndexError 2); Summary 0 1]
  /\ files (snd run) !! "out/class_colors.txt"
     = Some (TextFile [report_header]).
Proof. vm_compute. repeat split; reflexivity. Qed.

(** ** Paths *)

Lemma app_cons c (a b : string) : String c a +:+ b = String c (a +:+ b).
Proof. reflexivity. Qed.

Lemma app_empty_l (b : string) : "" +:+ b = b.
Proof. reflexivity. Qed.

Lemma last_char_app (a b : string) :
  last_char (a +:+ b)
  = match last_char b with Some d => Some d | None => last_char a end.
Proof.
  induction a as [|c a IH]; [rewrite app_empty_l; by destruct (last_char b)|].
  rewrite app_cons. cbn. rewrite IH. by destruct (last_char b).
Qed.

Lemma head_char_rev_app (s acc : string) :
  head_char (String.rev_app s acc)
  = match last_char s with Some c => Some c | None => head_char acc end.
Proof.
  revert acc. induction s as [|c s IH]; intros acc; cbn; [done|].
  rewrite IH. by destruct (last_char s).
Qed.

Lemma last_char_rev (s : string) : head_char (String.rev s) = last_char s.
Proof.
  unfold String.rev. rewrite head_char_rev_app. by destruct (last_char s).
Qed.

Lemma startswith_head (p s : string) c :
  PosixPath.startswith p s = true -> head_char p = Some c -> head_char s = Some c.
Proof.
  destruct p as [|a p], s as [|b s]; cbn; try done.
  destruct (decide (a = b)) as [->|]; [|done]. by intros _ [= ->].
Qed.

Lemma endswith_last (p s : string) c :
  PosixPath.endswith p s = true -> last_char p = Some c -> last_char s = Some c.
Proof.
  unfold PosixPath.endswith. intros Hs Hp.
  rewrite <- last_char_rev in *. by eapply startswith_head.
Qed.

Lemma join_last (a b : string) c :
  last_char b = Some c -> last_char (PosixPath.join a b) = Some c.
Proof.
  intros Hb. unfold PosixPath.join.
  repeat case_match; rewrite ?last_char_app, ?Hb; done.
Qed.

Lemma json_path_last input_dir filename :
  PosixPath.endswith ".json" filename = true ->
  last_char (PosixPath.join input_dir filename) = Some "n"%char.
Proof. intros H. apply join_last. by apply (endswith_last ".json"). Qed.

Lemma mask_path_last output_mask_dir path :
  last_char (mask_path_of output_mask_dir path) = Some "g"%char.
Proof. apply join_last. by rewrite last_char_app. Qed.

Lemma color_mask_path_last output_color_mask_dir path :
  last_char (color_mask_path_of output_color_mask_dir path) = Some "g"%char.
Proof. apply join_last. by rewrite last_char_app. Qed.

Lemma json_path_not_mask input_dir filename dir path :
  PosixPath.endswith ".json" filename = true ->
  PosixPath.join input_dir filename ≠ mask_path_of dir path
  /\ PosixPath.join input_dir filename ≠ color_mask_path_of dir path.
Proof.
  intros H%(json_path_last input_dir).
  split; intros E; rewrite E in H;
    [rewrite mask_path_last in H | rewrite color_mask_path_last in H]; done.
Qed.

(** *** The output layout *)

Lemma string_app_assoc (a b c : string) : (a +:+ b) +:+ c = a +:+ (b +:+ c).
Proof.
  induction a as [|x a IH]; [done|]. by rewrite !app_cons, IH.
Qed.

Lemma string_app_empty_r (a : string) : a +:+ "" = a.
Proof. induction a as [|x a IH]; [done|]. by rewrite app_cons, IH. Qed.

Lemma startswith_app (a x y : string) :
  PosixPath.startswith (a +:+ x) (a +:+ y) = PosixPath.startswith x y.
Proof.
  induction a as [|c a IH]; [done|]. rewrite !app_cons. cbn.
  by rewrite decide_True.
Qed.

Lemma has_sep_app (a b : string) : has_sep (a +:+ b) = has_sep a || has_sep b.
Proof.
  induction a as [|c a IH]; [done|]. rewrite app_cons. cbn. rewrite IH.
  by destruct (bool_decide (c = PosixPath.sep)).
Qed.

Lemma basename_from_no_sep (p : string) : forall acc,
  has_sep acc = false -> has_sep (PosixPath.basename_from acc p) = false.
Proof.
  induction p as [|c p IH]; intros acc Hacc; cbn; [done|].
  destruct (decide (c = PosixPath.sep)) as [->|Hc]; [by apply IH|].
  apply IH. rewrite has_sep_app, Hacc. cbn. by rewrite bool_decide_false.
Qed.

Lemma head_from_no_sep (p : string) : forall done acc,
  has_sep p = false -> PosixPath.head_from done acc p = done.
Proof.
  induction p as [|c p IH]; intros dn acc Hp; cbn in *; [done|].
  apply orb_false_iff in Hp as [Hc Hp]. apply bool_decide_eq_false in Hc.
  rewrite decide_False by done. by apply IH.
Qed.

Lemma component_root_from_no_sep (p : string) : forall seen cut nondot,
  has_sep seen = false -> has_sep (default "" cut) = false ->
  has_sep p = false ->
  has_sep (PosixPath.component_root_from seen cut nondot p) = false.
Proof.
  induction p as [|c p IH]; intros seen cut nondot Hseen Hcut Hp; cbn in *.
  - by destruct cut.
  - apply orb_false_iff in Hp as [Hc Hp].
    destruct (decide (c = PosixPath.extsep)) as [->|Hne].
    + apply IH; [by rewrite has_sep_app, Hseen| |done].
      by destruct nondot.
    + apply IH; [|done..]. rewrite has_sep_app, Hseen. cbn. by rewrite Hc.
Qed.

Lemma image_name_no_sep (path : string) : has_sep (image_name_of path) = false.
Proof.
  unfold image_name_of, PosixPath.splitext_root.
  assert (has_sep (PosixPath.basename path) = false) as Hb.
  { by apply basename_from_no_sep. }
  rewrite head_from_no_sep, app_empty_l by done.
  apply component_root_from_no_sep; try done. by apply basename_from_no_sep.
Qed.

Lemma no_sep_relative (s t : string) :
  has_sep s = false -> PosixPath.startswith "/" (s +:+ String "." t) = false.
Proof.
  destruct s as [|c s]; [done|]. rewrite app_cons. cbn.
  intros [Hc _]%orb_false_iff. apply bool_decide_eq_false in Hc.
  rewrite decide_False; [done|]. by intros <-.
Qed.

Lemma no_sep_relative_underscore (s t : string) :
  has_sep s = false -> PosixPath.startswith "/" (s +:+ String "_" t) = false.
Proof.
  destruct s as [|c s]; [done|]. rewrite app_cons. cbn.
  intros [Hc _]%orb_false_iff. apply bool_decide_eq_false in Hc.
  rewrite decide_False; [done|]. by intros <-.
Qed.

(** Joining a relative path is appending it to the directory with its
    separator. *)
Lemma join_relative (a b : string) :
  PosixPath.startswith "/" b = false ->
  PosixPath.join a b = PosixPath.join a "" +:+ b.
Proof.
  intros Hb. unfold PosixPath.join. rewrite Hb. cbn [PosixPath.startswith].
  destruct (decide (a = "")); [done|].
  destruct (PosixPath.endswith "/" a).
  - by rewrite string_app_empty_r.
  - by rewrite string_app_assoc.
Qed.

(** A path under a directory named like an output directory. *)
Lemma join_under (a name b : string) c :
  last_char name = Some c -> c ≠ "/"%char ->
  PosixPath.startswith "/" name = false ->
  PosixPath.startswith "/" b = false ->
  PosixPath.join (PosixPath.join a name) b
  = PosixPath.join a "" +:+ name +:+ "/" +:+ b.
Proof.
  intros Hlast Hc Hname Hb.
  rewrite (join_relative a name Hname).
  set (dir := PosixPath.join a "" +:+ name).
  assert (last_char dir = Some c) as Hdir.
  { unfold dir. by rewrite last_char_app, Hlast. }
  unfold PosixPath.join at 1. rewrite Hb.
  rewrite decide_False by (intros E; by rewrite E in Hdir).
  destruct (PosixPath.endswith "/" dir) eqn:E.
  - apply (endswith_last "/" dir "/"%char) in E; [|done]. congruence.
  - unfold dir. by rewrite string_app_assoc.
Qed.

Lemma basename_from_plain (p : string) : forall acc,
  has_sep p = false -> PosixPath.basename_from acc p = acc +:+ p.
Proof.
  induction p as [|c p IH]; intros acc Hp; cbn in *.
  - by rewrite string_app_empty_r.
  - apply orb_false_iff in Hp as [Hc Hp]. apply bool_decide_eq_false in Hc.
    rewrite decide_False, IH by done. by rewrite string_app_assoc.
Qed.

(** For an [imagePath] without directory part the batch looks where
    resolving against the input directory leads. *)
Lemma image_path_plain input_dir path :
  has_sep path = false ->
  image_path_of input_dir path = resolve_against_input input_dir path.
Proof.
  intros Hp. unfold image_path_of, resolve_against_input, PosixPath.basename.
  rewrite basename_from_plain by done.
  by destruct (PosixPath.isabs path).
Qed.

(** The masks of a record are not written under the images directory. *)
Lemma masks_outside_images output_base_dir path q :
  PosixPath.startswith (PosixPath.join output_base_dir "images" +:+ "/") q = true ->
  q ≠ mask_path_of (PosixPath.join output_base_dir "masks") path
  /\ q ≠ color_mask_path_of (PosixPath.join output_base_dir "color_masks") path.
Proof.
  intros Hq. pose proof (image_name_no_sep path) as Hname.
  rewrite (join_relative output_base_dir "images") in Hq by done.
  rewrite string_app_assoc in Hq.
  split; intros ->; revert Hq.
  - unfold mask_path_of.
    rewrite (join_under output_base_dir "masks" _ "s"%char)
      by (done || by apply no_sep_relative).
    by rewrite startswith_app.
  - unfold color_mask_path_of.
    rewrite (join_under output_base_dir "color_masks" _ "s"%char)
      by (done || by apply no_sep_relative_underscore).
    by rewrite startswith_app.
Qed.

Lemma masks_apart output_base_dir path :
  mask_path_of (PosixPath.join output_base_dir "masks") path
  ≠ color_mask_path_of (PosixPath.join output_base_dir "color_masks") path.
Proof.
  pose proof (image_name_no_sep path) as Hname.
  unfold mask_path_of, color_mask_path_of.
  rewrite (join_under output_base_dir "masks" _ "s"%char)
    by (done || by apply no_sep_relative).
  rewrite (join_under output_base_dir "color_masks" _ "s"%char)
    by (done || by apply no_sep_relative_underscore).
  by intros E%(inj (String.app _)).
Qed.

(** *** File names and extensions *)

Lemma basename_from_app (a b : string) : forall acc,
  PosixPath.basename_from acc (a +:+ b)
  = PosixPath.basename_from (PosixPath.basename_from acc a) b.
Proof.
  induction a as [|c a IH]; intros acc; [done|].
  rewrite app_cons. cbn. by destruct (decide (c = PosixPath.sep)).
Qed.

Lemma basename_from_trailing_sep (a : string) : forall acc,
  last_char a = Some "/"%char -> PosixPath.basename_from acc a = "".
Proof.
  induction a as [|c a IH]; intros acc Hlast; [done|].
  cbn in *. destruct (last_char a) as [d|] eqn:Hd.
  - cbn in Hlast. injection Hlast as ->.
    destruct (decide (c = PosixPath.sep)); by apply IH.
  - cbn in Hlast. injection Hlast as ->. destruct a; [|done].
    by rewrite decide_True.
Qed.

Lemma no_sep_not_absolute (b : string) :
  has_sep b = false -> PosixPath.startswith "/" b = false.
Proof.
  destruct b as [|c b]; [done|]. cbn.
  intros [Hc _]%orb_false_iff. apply bool_decide_eq_false in Hc.
  rewrite decide_False; [done|]. by intros <-.
Qed.

(** The last component of a path joined with a plain name is that name. *)
Lemma basename_join (a b : string) :
  has_sep b = false -> PosixPath.basename (PosixPath.join a b) = b.
Proof.
  intros Hb. unfold PosixPath.basename, PosixPath.join.
  rewrite no_sep_not_absolute by done.
  destruct (decide (a = "")); [by rewrite basename_from_plain|].
  destruct (PosixPath.endswith "/" a) eqn:E.
  - rewrite basename_from_app, (basename_from_trailing_sep a).
    + by rewrite basename_from_plain.
    + by apply (endswith_last "/").
  - rewrite basename_from_app. change ("/" +:+ b) with (String "/" b).
    cbn [PosixPath.basename_from]. rewrite decide_True by done.
    by rewrite basename_from_plain.
Qed.

Lemma component_root_from_stem (stem rest : string) : forall seen cut nondot,
  exists cut',
    PosixPath.component_root_from seen cut nondot (stem +:+ rest)
    = PosixPath.component_root_from (seen +:+ stem) cut'
        (nondot || has_nondot stem) rest.
Proof.
  induction stem as [|c stem IH]; intros seen cut nondot.
  - exists cut. by rewrite string_app_empty_r, orb_false_r.
  - rewrite app_cons. cbn [PosixPath.component_root_from has_nondot].
    destruct (decide (c = PosixPath.extsep)) as [->|Hc].
    + destruct (IH (seen +:+ ".") (if nondot then Some seen else cut) nondot)
        as [cut' ->].
      exists cut'. rewrite string_app_assoc. by rewrite bool_decide_true.
    + destruct (IH (seen +:+ String c "") cut true) as [cut' ->].
      exists cut'. rewrite string_app_assoc, bool_decide_false by done.
      cbn. by rewrite orb_true_r.
Qed.

Lemma component_root_from_ext (ext : string) : forall seen root,
  has_dot ext = false ->
  PosixPath.component_root_from seen (Some root) true ext = root.
Proof.
  induction ext as [|c ext IH]; intros seen root Hext; [done|].
  cbn in *. apply orb_false_iff in Hext as [Hc Hext].
  apply bool_decide_eq_false in Hc. rewrite decide_False by done.
  by apply IH.
Qed.

Lemma splitext_root_stem (stem ext : string) :
  has_sep stem = false -> has_sep ext = false ->
  has_nondot stem = true -> has_dot ext = false ->
  PosixPath.splitext_root (stem +:+ "." +:+ ext) = stem.
Proof.
  intros Hstem Hext Hnd Hdot. unfold PosixPath.splitext_root.
  assert (has_sep (stem +:+ "." +:+ ext) = false) as Hsep.
  { by rewrite !has_sep_app, Hstem, Hext. }
  rewrite head_from_no_sep by done. unfold PosixPath.basename.
  rewrite basename_from_plain by done. rewrite !app_empty_l.
  destruct (component_root_from_stem stem ("." +:+ ext) "" None false)
    as [cut' ->].
  rewrite Hnd, app_empty_l. change ("." +:+ ext) with (String "." ext).
  cbn [PosixPath.component_root_from orb]. rewrite decide_True by done.
  by apply component_root_from_ext.
Qed.

Lemma head_from_basename_from (p : string) : forall done acc,
  PosixPath.head_from done acc p +:+ PosixPath.basename_from acc p
  = done +:+ acc +:+ p.
Proof.
  induction p as [|c p IH]; intros dn acc; cbn.
  - by rewrite string_app_empty_r.
  - destruct (decide (c = PosixPath.sep)) as [->|Hc].
    + rewrite IH. by rewrite app_empty_l, !string_app_assoc.
    + rewrite IH. by rewrite !string_app_assoc.
Qed.

Lemma string_app_length (a b : string) :
  String.length (a +:+ b) = (String.length a + String.length b)%nat.
Proof. induction a as [|c a IH]; [done|]. rewrite app_cons. cbn. by rewrite IH. Qed.

(** A file name with a stem other than dots keeps its extension when it
    is joined to a directory. *)
Lemma join_has_extension (dir stem ext : string) :
  has_sep stem = false -> has_sep ext = false ->
  has_nondot stem = true -> has_dot ext = false ->
  PosixPath.splitext_root (PosixPath.join dir (stem +:+ "." +:+ ext))
  ≠ PosixPath.join dir (stem +:+ "." +:+ ext).
Proof.
  intros Hstem Hext Hnd Hdot.
  set (b := stem +:+ "." +:+ ext).
  assert (has_sep b = false) as Hb.
  { unfold b. by rewrite !has_sep_app, Hstem, Hext. }
  set (p := PosixPath.join dir b).
  pose proof (head_from_basename_from p "" "") as Hp.
  rewrite !app_empty_l in Hp. fold (PosixPath.basename p) in Hp.
  assert (PosixPath.basename p = b) as Hbase by (by apply basename_join).
  unfold PosixPath.splitext_root. rewrite Hbase.
  pose proof (splitext_root_stem stem ext Hstem Hext Hnd Hdot) as Hroot.
  unfold PosixPath.splitext_root in Hroot. fold b in Hroot.
  rewrite head_from_no_sep in Hroot by done.
  unfold PosixPath.basename in Hroot.
  rewrite basename_from_plain, !app_empty_l in Hroot by done.
  rewrite Hroot. rewrite <- Hp at 2. rewrite Hbase.
  intros E%(inj (String.app _)).
  apply (f_equal String.length) in E. unfold b in E.
  rewrite string_app_length in E.
  change ("." +:+ ext) with (String "." ext) in E. cbn in E. lia.
Qed.

Lemma has_nondot_app (a b : string) :
  has_nondot (a +:+ b) = has_nondot a || has_nondot b.
Proof.
  induction a as [|c a IH]; [done|]. rewrite app_cons. cbn. rewrite IH.
  by destruct (bool_decide (c = PosixPath.extsep)).
Qed.

Lemma mask_path_extension output_mask_dir path :
  names_masks path = true ->
  PosixPath.splitext_root (mask_path_of output_mask_dir path)
  ≠ mask_path_of output_mask_dir path.
Proof.
  intros Hname. unfold mask_path_of.
  apply (join_has_extension _ (image_name_of path) "png"); try done.
  apply image_name_no_sep.
Qed.

Lemma color_mask_path_extension output_color_mask_dir path :
  PosixPath.splitext_root (color_mask_path_of output_color_mask_dir path)
  ≠ color_mask_path_of output_color_mask_dir path.
Proof.
  unfold color_mask_path_of.
  replace (image_name_of path +:+ "_color.png")
    with ((image_name_of path +:+ "_color") +:+ "." +:+ "png")
    by (by rewrite string_app_assoc).
  apply join_has_extension; try done.
  - by rewrite has_sep_app, image_name_no_sep.
  - rewrite has_nondot_app. by rewrite orb_true_r.
Qed.

(** ** Computations that only print *)

Lemma console_only_ret {A} (a : A) : console_only (ret a).
Proof. intros [fs c]. cbn. by rewrite app_nil_r. Qed.

Lemma console_only_raise {A} e : console_only (@raise A e).
Proof. intros [fs c]. cbn. by rewrite app_nil_r. Qed.

Lemma console_only_print e : console_only (print e).
Proof. by intros [fs c]. Qed.

Lemma console_only_getitem {A} key (field : option A) :
  console_only (getitem key field).
Proof.
  destruct field; [apply console_only_ret|apply console_only_raise].
Qed.

Lemma console_only_Image_new {A} w h (fill : A) :
  console_only (Image_new w h fill).
Proof.
  unfold Image_new.
  case_decide; [apply console_only_raise|apply console_only_ret].
Qed.

Lemma console_only_bind {A B} (m : M A) (k : A -> M B) :
  console_only m -> (forall a, console_only (k a)) -> console_only (bind m k).
Proof.
  intros Hm Hk w. unfold bind. rewrite (Hm w).
  destruct (m empty_world) as [[a|e] [fs1 c1]] eqn:E; cbn.
  - rewrite (Hk a (World (files w) (console w ++ c1))),
            (Hk a (World fs1 c1)). cbn.
    pose proof (Hm empty_world) as H0. rewrite E in H0. cbn in H0.
    injection H0 as ->. by rewrite app_assoc.
  - done.
Qed.

Create HintDb console.

#[local] Hint Resolve console_only_ret console_only_raise console_only_print
  console_only_getitem console_only_Image_new : console.

Ltac console_only :=
  repeat first
    [ apply console_only_bind; [|intros ?]
    | progress eauto with console
    | case_match ].

(** ** Computations that do not read the console *)

Lemma local_console_only {A} (m : M A) : console_only m -> local m.
Proof.
  intros H fs c. rewrite (H (World fs c)), (H (World fs [])). done.
Qed.

Lemma local_load_json path : local (load_json path).
Proof.
  intros fs c. unfold load_json. cbn.
  destruct (fs !! path) as [[]|]; cbn; by rewrite app_nil_r.
Qed.

Lemma local_write_file path f : local (write_file path f).
Proof.
  intros fs c. unfold write_file. cbn.
  destruct (fs !! path) as [[]|]; cbn; by rewrite app_nil_r.
Qed.

Lemma local_path_exists path : local (path_exists path).
Proof. intros fs c. cbn. by rewrite app_nil_r. Qed.

Lemma local_bind {A B} (m : M A) (k : A -> M B) :
  local m -> (forall a, local (k a)) -> local (bind m k).
Proof.
  intros Hm Hk fs c. unfold bind. rewrite (Hm fs c).
  destruct (m (World fs [])) as [[a|e] [fs1 c1]]; cbn; [|done].
  rewrite (Hk a fs1 (c ++ c1)), (Hk a fs1 c1). cbn. by rewrite app_assoc.
Qed.

(** ** Computations that create no directory *)

Lemma keeps_files_console_only {A} (m : M A) : console_only m -> keeps_files m.
Proof. intros H w q Hq. by rewrite (H w). Qed.

Lemma keeps_files_load_json path : keeps_files (load_json path).
Proof.
  intros w q Hq. unfold load_json. by destruct (files w !! path) as [[]|].
Qed.

Lemma keeps_files_path_exists path : keeps_files (path_exists path).
Proof. by intros w q Hq. Qed.

Lemma keeps_files_write_file path f :
  f ≠ Directory -> keeps_files (write_file path f).
Proof.
  intros Hf w q Hq. unfold write_file.
  destruct (files w !! path) as [[]|]; cbn; try done;
    (rewrite lookup_insert; case_decide; [by intros [= ->]|done]).
Qed.

Lemma keeps_files_bind {A B} (m : M A) (k : A -> M B) :
  keeps_files m -> (forall a, keeps_files (k a)) -> keeps_files (bind m k).
Proof.
  intros Hm Hk w q Hq. unfold bind. specialize (Hm w q Hq).
  destruct (m w) as [[a|e] w1]; [by apply Hk|done].
Qed.

Lemma local_save {A} (wrap : image A -> file) im path :
  local (save wrap im path).
Proof.
  intros fs c. unfold save. cbn [files console].
  case_bool_decide; [cbn; by rewrite app_nil_r|].
  destruct (fs !! path) as [[]|]; try case_bool_decide; cbn;
    by rewrite app_nil_r.
Qed.

Lemma keeps_files_save {A} (wrap : image A -> file) im path :
  wrap im ≠ Directory -> keeps_files (save wrap im path).
Proof.
  intros Hf w q Hq. unfold save.
  case_bool_decide; [done|].
  destruct (files w !! path) as [[]|]; try done; case_bool_decide; cbn;
    try done; (rewrite lookup_insert; case_decide; [|done]);
    first [by intros [= ?] | intros [= E]; by rewrite E in Hf].
Qed.

Lemma save_ok {A} (wrap : image A -> file) im path w :
  PosixPath.splitext_root path ≠ path ->
  files w !! path ≠ Some Directory ->
  width im ≠ 0 -> height im ≠ 0 ->
  save wrap im path w
  = (Done tt, World (<[path := wrap im]> (files w)) (console w)).
Proof.
  intros Hext Hdir Hw Hh. unfold save.
  rewrite bool_decide_false by done.
  rewrite (bool_decide_false (width im = 0 ∨ height im = 0)) by tauto.
  destruct (files w !! path) as [[]|]; done.
Qed.

Lemma save_Done_inv {A} (wrap : image A -> file) im path w w' :
  save wrap im path w = (Done tt, w') ->
  files w !! path ≠ Some Directory
  /\ PosixPath.splitext_root path ≠ path
  /\ width im ≠ 0 /\ height im ≠ 0
  /\ w' = World (<[path := wrap im]> (files w)) (console w).
Proof.
  unfold save. case_bool_decide; [done|].
  destruct (files w !! path) as [[]|]; try done; case_bool_decide; try done;
    intros [= <-]; repeat split; try done; tauto.
Qed.

(** A run of [save] that raises leaves the files as they were, unless
    the image has no pixels and the path held a file. *)
Lemma save_Raised_inv {A} (wrap : image A -> file) im path w e w' :
  save wrap im path w = (Raised e, w') ->
  console w' = console w
  /\ (files w' = files w
      \/ (e = ValueError /\ (width im = 0 \/ height im = 0)
          /\ is_Some (files w !! path)
          /\ files w' = <[path := PartialImage]> (files w))).
Proof.
  unfold save. case_bool_decide; [intros [= <- <-]; by auto|].
  destruct (files w !! path) as [[]|] eqn:Hp; try (intros [= <- <-]; by auto);
    case_bool_decide; try done; intros [= <- <-]; cbn;
    (split; [done|]); first [by left | right; by eauto].
Qed.

Lemma save_nonempty_Raised {A} (wrap : image A -> file) im path w e w' :
  PosixPath.splitext_root path ≠ path -> width im ≠ 0 -> height im ≠ 0 ->
  save wrap im path w = (Raised e, w') ->
  e = IsADirectoryError path /\ w' = w.
Proof.
  intros Hext Hw Hh. unfold save. rewrite bool_decide_false by done.
  rewrite (bool_decide_false (width im = 0 ∨ height im = 0)) by tauto.
  destruct (files w !! path) as [[]|]; try done. by intros [= <- <-].
Qed.

Lemma write_file_ok path f w :
  files w !! path ≠ Some Directory ->
  write_file path f w = (Done tt, World (<[path := f]> (files w)) (console w)).
Proof.
  intros H. unfold write_file.
  destruct (files w !! path) as [[]|]; done.
Qed.

Section RasterizerProperties.

Variable covers : list point -> nat -> nat -> bool.

Lemma console_only_draw_polygon_L polygon fill im :
  console_only (draw_polygon_L covers polygon fill im).
Proof.
  unfold draw_polygon_L.
  case_bool_decide; [apply console_only_raise|apply console_only_ret].
Qed.

Lemma console_only_draw_polygon_RGB polygon fill im :
  console_only (draw_polygon_RGB covers polygon fill im).
Proof.
  unfold draw_polygon_RGB.
  case_bool_decide; [apply console_only_raise|apply console_only_ret].
Qed.

Lemma console_only_draw_shape class_mapping class_colors canvases shape :
  console_only (draw_shape covers class_mapping class_colors canvases shape).
Proof.
  unfold draw_shape.
  pose proof console_only_draw_polygon_L. pose proof console_only_draw_polygon_RGB.
  console_only.
Qed.

Lemma console_only_draw_shapes class_mapping class_colors shps :
  forall canvases,
    console_only (draw_shapes covers class_mapping class_colors shps canvases).
Proof.
  induction shps as [|s r IH]; intros canvases; cbn [draw_shapes].
  - apply console_only_ret.
  - apply console_only_bind; [apply console_only_draw_shape|done].
Qed.

Lemma console_only_rasterize data class_mapping class_colors :
  console_only (rasterize covers data class_mapping class_colors).
Proof.
  unfold rasterize.
  repeat (apply console_only_bind; [solve [eauto with console]|intros ?]).
  apply console_only_draw_shapes.
Qed.

(** What one round of the loop over the shapes does when it does not
    raise. *)
Lemma draw_shape_done class_mapping class_colors canvases s w canvases' w' :
  draw_shape covers class_mapping class_colors canvases s w
  = (Done canvases', w') ->
  exists l pts,
    label s = Some l /\ points s = Some pts
    /\ ((dict_mem l class_mapping = false /\ canvases' = canvases)
        \/ exists class_id col,
             dict_mem l class_mapping = true
             /\ dict_get l class_mapping = Some class_id
             /\ list_getitem class_colors class_id = Some col
             /\ (2 <= length pts)%nat
             /\ canvases'
                = (paint (covers pts) (clip8 class_id) (fst canvases),
                   paint (covers pts) (clip8_rgb col) (snd canvases))).
Proof.
  unfold draw_shape, bind, getitem, ret, raise.
  destruct (label s) as [l|]; [|done].
  destruct (points s) as [pts|]; [|done].
  intros H. exists l, pts. split; [done|]. split; [done|].
  destruct (dict_mem l class_mapping) eqn:Hl; cbn in H.
  - right. destruct (dict_get l class_mapping) as [class_id|]; [|done].
    destruct (list_getitem class_colors class_id) as [col|] eqn:Hcol; [|done].
    unfold draw_polygon_L, draw_polygon_RGB, raise, ret in H.
    case_bool_decide; [done|]. simplify_eq.
    exists class_id, col. repeat split; try done. lia.
  - left. unfold print in H. by simplify_eq.
Qed.

(** A shape that is drawn. *)
Lemma draw_shape_painted class_mapping class_colors canvases l pts class_id
    col w :
  dict_get l class_mapping = Some class_id ->
  list_getitem class_colors class_id = Some col ->
  (2 <= length pts)%nat ->
  draw_shape covers class_mapping class_colors canvases
             (JsonShape (Some l) (Some pts)) w
  = (Done (paint (covers pts) (clip8 class_id) (fst canvases),
           paint (covers pts) (clip8_rgb col) (snd canvases)), w).
Proof.
  intros Hget Hcol Hpts. unfold draw_shape, bind, getitem, ret. cbn.
  rewrite dict_mem_get, Hget, bool_decide_true by eauto. cbn. rewrite Hcol.
  unfold draw_polygon_L, draw_polygon_RGB, ret.
  by rewrite !bool_decide_false by lia.
Qed.

(** The canvases keep their size. *)
Lemma draw_shapes_size class_mapping class_colors shps :
  forall canvases w canvases' w',
    draw_shapes covers class_mapping class_colors shps canvases w
    = (Done canvases', w') ->
    width (fst canvases') = width (fst canvases)
    /\ height (fst canvases') = height (fst canvases)
    /\ width (snd canvases') = width (snd canvases)
    /\ height (snd canvases') = height (snd canvases).
Proof.
  induction shps as [|s r IH]; intros canvases w canvases' w' Hrun.
  - cbn in Hrun. unfold ret in Hrun. by simplify_eq.
  - cbn [draw_shapes] in Hrun. unfold bind in Hrun.
    destruct (draw_shape _ _ _ _ _ _) as [[c1|e] w1] eqn:Hs; [|done].
    apply IH in Hrun as (-> & -> & -> & ->).
    by apply draw_shape_done in Hs
      as (l & pts & _ & _ & [[_ ->]|(id & col & _ & _ & _ & _ & ->)]).
Qed.

(** The canvases [rasterize] starts from, and the shapes it draws. *)
Lemma masks_of_done data class_mapping class_colors masks :
  masks_of covers data class_mapping class_colors = Done masks ->
  exists w h shps wld,
    imageWidth data = Some w /\ imageHeight data = Some h
    /\ shapes data = Some shps /\ 0 <= w /\ 0 <= h
    /\ draw_shapes covers class_mapping class_colors shps
         (filled w h 0, filled w h (0, 0, 0)) empty_world
       = (Done masks, wld).
Proof.
  unfold masks_of, rasterize.
  destruct (imageWidth data) as [w|]; [|done].
  destruct (imageHeight data) as [h|]; [|done].
  cbn [getitem]. unfold bind at 1 2, ret. unfold bind at 1, Image_new.
  destruct (decide (w < 0 ∨ h < 0)) as [|Hsize]; [done|].
  cbn [ret]. unfold bind at 1. cbn [ret].
  destruct (shapes data) as [shps|]; [|done].
  cbn [getitem]. unfold bind, ret. intros H.
  exists w, h, shps.
  destruct (draw_shapes _ _ _ _ _ _) as [r wld] eqn:E. cbn in H. subst r.
  exists wld. repeat split; try done; lia.
Qed.

(** The two masks have the size the record declares. *)
Lemma masks_of_size data class_mapping class_colors masks :
  masks_of covers data class_mapping class_colors = Done masks ->
  exists w h,
    imageWidth data = Some w /\ imageHeight data = Some h
    /\ 0 <= w /\ 0 <= h
    /\ width (fst masks) = w /\ height (fst masks) = h
    /\ width (snd masks) = w /\ height (snd masks) = h.
Proof.
  intros (w & h & shps & wld & Hw & Hh & _ & Hw0 & Hh0 & Hrun)%masks_of_done.
  exists w, h. do 4 (split; [done|]).
  by apply draw_shapes_size in Hrun as (-> & -> & -> & ->).
Qed.

(** The masks of a record that can be saved have pixels. *)
Lemma masks_of_savable data class_mapping class_colors masks :
  masks_of covers data class_mapping class_colors = Done masks ->
  savable data = true ->
  width (fst masks) ≠ 0 /\ height (fst masks) ≠ 0.
Proof.
  intros (w & h & Hw & Hh & _ & _ & -> & -> & _)%masks_of_size Hs.
  unfold savable in Hs. rewrite Hw, Hh in Hs.
  destruct (imagePath data); [|done].
  apply andb_true_iff in Hs as [[Hw0%Z.ltb_lt Hh0%Z.ltb_lt]%andb_true_iff _].
  lia.
Qed.

Lemma json_to_mask_unreadable json_path masks_dir color_masks_dir
    class_mapping class_colors w :
  (forall data, files w !! json_path ≠ Some (JsonFile data)) ->
  exists e,
    json_to_mask covers json_path masks_dir color_masks_dir
                 class_mapping class_colors w = (Raised e, w).
Proof.
  intros Hno. unfold json_to_mask, bind, load_json.
  destruct (files w !! json_path) as [[ | data | | | | | ]|] eqn:E; eauto.
  by destruct (Hno data).
Qed.

Lemma json_to_mask_raised json_path masks_dir color_masks_dir
    class_mapping class_colors w data e :
  files w !! json_path = Some (JsonFile data) ->
  masks_of covers data class_mapping class_colors = Raised e ->
  json_to_mask covers json_path masks_dir color_masks_dir
               class_mapping class_colors w
  = (Raised e,
     World (files w)
           (console w ++ warnings_of covers data class_mapping class_colors)).
Proof.
  intros Hf He. unfold json_to_mask, bind at 1, load_json. rewrite Hf.
  unfold bind at 1. rewrite console_only_rasterize.
  fold (masks_of covers data class_mapping class_colors). by rewrite He.
Qed.

Lemma json_to_mask_no_imagePath json_path masks_dir color_masks_dir
    class_mapping class_colors w data masks :
  files w !! json_path = Some (JsonFile data) ->
  masks_of covers data class_mapping class_colors = Done masks ->
  imagePath data = None ->
  json_to_mask covers json_path masks_dir color_masks_dir
               class_mapping class_colors w
  = (Raised (KeyError "imagePath"),
     World (files w)
           (console w ++ warnings_of covers data class_mapping class_colors)).
Proof.
  intros Hf Hm Hp. unfold json_to_mask, bind at 1, load_json. rewrite Hf.
  unfold bind at 1. rewrite console_only_rasterize.
  fold (masks_of covers data class_mapping class_colors). rewrite Hm.
  unfold bind. by rewrite Hp.
Qed.

(** The masks are saved when the index mask has pixels and a file name
    with an extension, and no directory stands at the two paths. *)
Lemma json_to_mask_saved json_path masks_dir color_masks_dir
    class_mapping class_colors w data masks path :
  files w !! json_path = Some (JsonFile data) ->
  masks_of covers data class_mapping class_colors = Done masks ->
  imagePath data = Some path ->
  PosixPath.splitext_root (mask_path_of masks_dir path)
  ≠ mask_path_of masks_dir path ->
  width (fst masks) ≠ 0 -> height (fst masks) ≠ 0 ->
  files w !! mask_path_of masks_dir path ≠ Some Directory ->
  files w !! color_mask_path_of color_masks_dir path ≠ Some Directory ->
  json_to_mask covers json_path masks_dir color_masks_dir
               class_mapping class_colors w
  = (Done tt,
     World (with_masks (files w) masks_dir color_masks_dir path masks)
           (console w ++ warnings_of covers data class_mapping class_colors
            ++ [MasksCreated (mask_path_of masks_dir path)
                             (color_mask_path_of color_masks_dir path)])).
Proof.
  intros Hf Hm Hp Hext Hw1 Hh1 Hmp Hcp.
  destruct (masks_of_size data class_mapping class_colors masks Hm)
    as (iw & ih & _ & _ & _ & _ & E1 & E2 & E3 & E4).
  unfold json_to_mask, bind at 1, load_json. rewrite Hf.
  unfold bind at 1. rewrite console_only_rasterize.
  fold (masks_of covers data class_mapping class_colors). rewrite Hm.
  unfold bind at 1. rewrite Hp. cbn [getitem ret].
  unfold bind at 1. rewrite save_ok by done.
  unfold bind. rewrite save_ok.
  - unfold print, with_masks. cbn. by rewrite <- app_assoc.
  - apply color_mask_path_extension.
  - cbn. rewrite lookup_insert. case_decide; [done|]. done.
  - congruence.
  - congruence.
Qed.

Lemma json_to_mask_done json_path masks_dir color_masks_dir
    class_mapping class_colors w data masks path :
  files w !! json_path = Some (JsonFile data) ->
  masks_of covers data class_mapping class_colors = Done masks ->
  imagePath data = Some path ->
  savable data = true ->
  files w !! mask_path_of masks_dir path ≠ Some Directory ->
  files w !! color_mask_path_of color_masks_dir path ≠ Some Directory ->
  json_to_mask covers json_path masks_dir color_masks_dir
               class_mapping class_colors w
  = (Done tt,
     World (with_masks (files w) masks_dir color_masks_dir path masks)
           (console w ++ warnings_of covers data class_mapping class_colors
            ++ [MasksCreated (mask_path_of masks_dir path)
                             (color_mask_path_of color_masks_dir path)])).
Proof.
  intros Hf Hm Hp Hs Hmp Hcp.
  destruct (masks_of_savable data class_mapping class_colors masks Hm Hs)
    as (Hw1 & Hh1).
  assert (names_masks path = true) as Hname.
  { unfold savable in Hs. rewrite Hp in Hs.
    destruct (imageWidth data), (imageHeight data); try done.
    by apply andb_true_iff in Hs as [_ Hs]. }
  apply (json_to_mask_saved _ _ _ _ _ _ data); try done.
  by apply mask_path_extension.
Qed.

(** A run of [json_to_mask] that ends normally has read a record, drawn
    it and written both masks. *)
Lemma json_to_mask_Done_inv json_path masks_dir color_masks_dir
    class_mapping class_colors w w1 :
  json_to_mask covers json_path masks_dir color_masks_dir
               class_mapping class_colors w = (Done tt, w1) ->
  exists data path masks,
    files w !! json_path = Some (JsonFile data)
    /\ imagePath data = Some path
    /\ masks_of covers data class_mapping class_colors = Done masks
    /\ files w !! mask_path_of masks_dir path ≠ Some Directory
    /\ PosixPath.splitext_root (mask_path_of masks_dir path)
       ≠ mask_path_of masks_dir path
    /\ width (fst masks) ≠ 0 /\ height (fst masks) ≠ 0
    /\ w1 = World (with_masks (files w) masks_dir color_masks_dir path masks)
              (console w ++ warnings_of covers data class_mapping class_colors
               ++ [MasksCreated (mask_path_of masks_dir path)
                                (color_mask_path_of color_masks_dir path)]).
Proof.
  unfold json_to_mask, bind at 1, load_json.
  destruct (files w !! json_path) as [[ | data | | | | | ]|] eqn:Hf; try done.
  unfold bind at 1. rewrite console_only_rasterize.
  fold (masks_of covers data class_mapping class_colors).
  fold (warnings_of covers data class_mapping class_colors).
  destruct (masks_of covers data class_mapping class_colors) as [masks|e]
    eqn:Hm; [|done].
  unfold bind at 1. destruct (imagePath data) as [path|] eqn:Hp; [|done].
  cbn [getitem ret]. unfold bind at 1.
  destruct (save ImageL _ _ _) as [[[]|e] w2] eqn:Hs1; [|done].
  apply save_Done_inv in Hs1 as (Hmp & Hext & Hw1 & Hh1 & ->).
  cbn [files] in Hmp. unfold bind.
  destruct (save ImageRGB _ _ _) as [[[]|e] w3] eqn:Hs2; [|done].
  apply save_Done_inv in Hs2 as (_ & _ & _ & _ & ->).
  unfold print. cbn. intros [= <-].
  exists data, path, masks. unfold with_masks. rewrite <- app_assoc.
  by repeat split.
Qed.

(** Once the masks of a record are written, the rest of the [try] body
    runs on the path computed at q.py:105-108. *)
Lemma handle_record_after_masks input_dir images_dir masks_dir color_masks_dir
    class_mapping class_colors json_path w w1 data path :
  json_to_mask covers json_path masks_dir color_masks_dir
               class_mapping class_colors w = (Done tt, w1) ->
  files w1 !! json_path = Some (JsonFile data) ->
  imagePath data = Some path ->
  let image_path :=
    if PosixPath.isabs path then path
    else PosixPath.join input_dir (PosixPath.basename path) in
  handle_record covers input_dir images_dir masks_dir color_masks_dir
                class_mapping class_colors json_path w
  = (if bool_decide (is_Some (files w1 !! image_path)) then
       let output_image_path :=
         PosixPath.join images_dir (PosixPath.basename image_path) in
       do copy2 image_path output_image_path then
       print (ImageCopied output_image_path)
     else print (WarnImageMissing image_path)) w1.
Proof.
  intros Hmask Hfile Hpath image_path.
  unfold handle_record, bind at 1. rewrite Hmask.
  unfold bind at 1, load_json. rewrite Hfile.
  unfold bind at 1. rewrite Hpath. cbn [getitem ret].
  unfold bind at 1, path_exists, image_path_of.
  subst image_path. by destruct (PosixPath.isabs path).
Qed.

(** *** Shapes with a label outside the mapping *)

Lemma draw_shape_unmapped class_mapping class_colors canvases l pts w :
  dict_mem l class_mapping = false ->
  draw_shape covers class_mapping class_colors canvases
             (JsonShape (Some l) (Some pts)) w
  = (Done canvases, World (files w) (console w ++ [WarnUnmappedLabel l])).
Proof. intros H. unfold draw_shape, bind. cbn. by rewrite H. Qed.

Lemma draw_shape_mapped class_mapping class_colors canvases l pts w :
  dict_mem l class_mapping = true ->
  snd (draw_shape covers class_mapping class_colors canvases
                  (JsonShape (Some l) (Some pts)) w) = w.
Proof.
  intros H. unfold draw_shape, bind. cbn. rewrite H. cbn.
  destruct (dict_get l class_mapping) as [class_id|]; [|done].
  destruct (list_getitem class_colors class_id); [|done].
  unfold draw_polygon_L, draw_polygon_RGB. by case_bool_decide.
Qed.

Lemma draw_shapes_skips class_mapping class_colors shps :
  forallb complete_shape shps = true ->
  forall canvases,
    let run := draw_shapes covers class_mapping class_colors in
    fst (run shps canvases empty_world)
    = fst (run (filter (fun s => mapped class_mapping s = true) shps)
               canvases empty_world)
    /\ (forall result,
          fst (run shps canvases empty_world) = Done result ->
          console (snd (run shps canvases empty_world))
          = WarnUnmappedLabel <$> unmapped_labels class_mapping shps).
Proof.
  induction shps as [|s r IH]; intros Hc canvases; [done|].
  cbn [forallb] in Hc. apply andb_true_iff in Hc as [Hs Hc].
  specialize (IH Hc). destruct s as [[l|] [pts|]]; try done.
  cbn zeta in *. destruct (dict_mem l class_mapping) eqn:Hl.
  - rewrite filter_cons_True by (unfold mapped; by cbn).
    unfold unmapped_labels. cbn [omap list_omap label]. rewrite Hl.
    cbn [draw_shapes]. unfold bind.
    pose proof (draw_shape_mapped class_mapping class_colors canvases l pts
                  empty_world Hl) as Hw.
    destruct (draw_shape _ _ _ _ _ _) as [[canvases'|e] w']; [|done].
    cbn in Hw. subst w'. apply IH.
  - rewrite filter_cons_False by (unfold mapped; cbn; by rewrite Hl).
    unfold unmapped_labels. cbn [omap list_omap label]. rewrite Hl.
    cbn [draw_shapes]. unfold bind.
    rewrite draw_shape_unmapped by done.
    rewrite (console_only_draw_shapes class_mapping class_colors r canvases
               (World _ _)).
    cbn [fst snd files console empty_world app].
    destruct (IH canvases) as [IH1 IH2]. split; [done|].
    intros result Hr. cbn [fmap list_fmap]. f_equal. by eapply IH2.
Qed.

Lemma masks_of_unmapped_shape class_mapping class_colors w h path l pts :
  0 <= w -> 0 <= h -> dict_mem l class_mapping = false ->
  masks_of covers (annotation w h path [(l, pts)]) class_mapping class_colors
  = Done (filled w h 0, filled w h (0, 0, 0))
  /\ warnings_of covers (annotation w h path [(l, pts)]) class_mapping class_colors
     = [WarnUnmappedLabel l].
Proof.
  intros Hw Hh Hl.
  unfold masks_of, warnings_of, rasterize, annotation, bind, getitem, ret,
    Image_new.
  cbn [imageWidth imageHeight shapes fmap list_fmap].
  rewrite !decide_False by lia. cbn [draw_shapes fst snd].
  unfold bind, draw_shape, getitem, ret, bind, print. cbn [label points fst snd].
  rewrite Hl. done.
Qed.

(** *** Records that rasterize *)

Lemma dict_get_elem_of k v (d : dict) : dict_get k d = Some v -> (k, v) ∈ d.
Proof.
  induction d as [|[k0 v0] d IH]; cbn; [done|].
  destruct (decide (k = k0)) as [->|]; [intros [= ->]; by left|].
  intros H. right. by apply IH.
Qed.

Lemma draw_shapes_total class_mapping class_colors shps :
  forallb complete_shape shps = true ->
  forallb polygonal shps = true ->
  palette_covers class_mapping class_colors ->
  forall canvases w,
    exists canvases',
      fst (draw_shapes covers class_mapping class_colors shps canvases w)
      = Done canvases'.
Proof.
  intros Hc Hpoly Hp. induction shps as [|s r IH]; intros canvases w.
  - by exists canvases.
  - cbn [forallb] in Hc, Hpoly.
    apply andb_true_iff in Hc as [Hs Hc].
    apply andb_true_iff in Hpoly as [Hs2 Hpoly].
    destruct s as [[l|] [pts|]]; try done.
    unfold polygonal in Hs2. cbn in Hs2. apply bool_decide_eq_true in Hs2.
    cbn [draw_shapes]. unfold bind.
    destruct (dict_mem l class_mapping) eqn:Hl.
    + rewrite dict_mem_get in Hl. apply bool_decide_eq_true in Hl as [id Hid].
      assert (is_Some (list_getitem class_colors id)) as [col Hcol].
      { unfold palette_covers in Hp. rewrite Forall_forall in Hp.
        by apply (Hp (l, id)), dict_get_elem_of. }
      rewrite (draw_shape_painted class_mapping class_colors canvases l pts
                 id col w Hid Hcol Hs2).
      by apply IH.
    + rewrite draw_shape_unmapped by done. by apply IH.
Qed.

Lemma rasterizable_savable data : rasterizable data = true -> savable data = true.
Proof. unfold rasterizable. by intros [_ ?]%andb_true_iff. Qed.

Lemma masks_of_total data class_mapping class_colors :
  rasterizable data = true ->
  palette_covers class_mapping class_colors ->
  exists masks, masks_of covers data class_mapping class_colors = Done masks.
Proof.
  unfold rasterizable, complete_record, savable, masks_of, rasterize.
  intros Hr Hp. apply andb_true_iff in Hr as [[Hc Hpoly]%andb_true_iff Hsize].
  destruct (imageWidth data) as [w|]; [|done].
  destruct (imageHeight data) as [h|]; [|done].
  destruct (imagePath data) as [path|]; [|done].
  destruct (shapes data) as [shps|]; [|done].
  apply andb_true_iff in Hsize
    as [[Hw%Z.ltb_lt Hh%Z.ltb_lt]%andb_true_iff _].
  unfold bind, getitem, ret, Image_new. rewrite !decide_False by lia.
  by apply draw_shapes_total.
Qed.

(** *** Files that are not valid records *)

Lemma draw_shapes_incomplete class_mapping class_colors shps :
  forallb complete_shape shps = false ->
  forall canvases w,
    exists e, fst (draw_shapes covers class_mapping class_colors shps canvases w)
              = Raised e.
Proof.
  induction shps as [|s r IH]; [done|]. cbn [forallb draw_shapes].
  intros H canvases w. unfold bind.
  destruct (draw_shape covers class_mapping class_colors canvases s w)
    as [[canvases'|e] w'] eqn:E; [|by exists e].
  apply andb_false_iff in H as [H|H]; [|by apply IH].
  exfalso. revert E. unfold draw_shape, complete_shape in *.
  destruct (label s), (points s); try done; by cbn.
Qed.

Lemma masks_of_incomplete data class_mapping class_colors :
  complete_record data = false ->
  (exists e, masks_of covers data class_mapping class_colors = Raised e)
  \/ imagePath data = None.
Proof.
  unfold complete_record, masks_of, rasterize. intros H.
  destruct (imageWidth data) as [w|]; [|left; by eexists].
  destruct (imageHeight data) as [h|]; [|left; by eexists].
  destruct (imagePath data) as [path|]; [|by right].
  left. cbn [getitem]. unfold bind at 1 2. cbn [ret].
  unfold bind at 1.
  destruct (Image_new w h 0 empty_world) as [[mask|e] w1] eqn:E1;
    [|by eexists].
  unfold bind at 1.
  destruct (Image_new w h (0, 0, 0) w1) as [[color_mask|e] w2] eqn:E2;
    [|by eexists].
  destruct (shapes data) as [shps|]; [|by eexists].
  cbn [getitem]. unfold bind, ret. by apply draw_shapes_incomplete.
Qed.

Lemma json_to_mask_invalid json_path masks_dir color_masks_dir
    class_mapping class_colors w :
  parses (files w) json_path = false ->
  exists e warnings,
    json_to_mask covers json_path masks_dir color_masks_dir
                 class_mapping class_colors w
    = (Raised e, World (files w) (console w ++ warnings)).
Proof.
  unfold parses. intros H.
  destruct (files w !! json_path) as [f|] eqn:Hf.
  2:{ destruct (json_to_mask_unreadable json_path masks_dir color_masks_dir
                  class_mapping class_colors w) as [e ->].
      { intros data. by rewrite Hf. }
      exists e, []. rewrite app_nil_r. by destruct w. }
  assert ((exists data, f = JsonFile data)
          \/ forall data, f ≠ JsonFile data) as [[data ->]|Hno].
  { destruct f; eauto. }
  - destruct (masks_of covers data class_mapping class_colors) as [masks|e] eqn:Hm.
    + destruct (masks_of_incomplete data class_mapping class_colors H)
        as [[e He]|Hp]; [congruence|].
      eexists _, _. by eapply json_to_mask_no_imagePath.
    + eexists _, _. by eapply json_to_mask_raised.
  - destruct (json_to_mask_unreadable json_path masks_dir color_masks_dir
                class_mapping class_colors w) as [e ->].
    { intros data. rewrite Hf. intros [= ->]. by apply (Hno data). }
    exists e, []. rewrite app_nil_r. by destruct w.
Qed.

Lemma local_copy2 src dst : local (copy2 src dst).
Proof.
  intros fs c. unfold copy2. cbn [files].
  set (dst' := match fs !! dst with
               | Some Directory => PosixPath.join dst (PosixPath.basename src)
               | _ => dst end).
  destruct (decide (src = dst')); [cbn; by rewrite app_nil_r|].
  destruct (fs !! src) as [f|]; [|cbn; by rewrite app_nil_r].
  destruct f; try apply local_write_file; cbn; by rewrite app_nil_r.
Qed.

Lemma local_json_to_mask json_path masks_dir color_masks_dir
    class_mapping class_colors :
  local (json_to_mask covers json_path masks_dir color_masks_dir
                      class_mapping class_colors).
Proof.
  unfold json_to_mask.
  apply local_bind; [apply local_load_json|intros data].
  apply local_bind;
    [apply local_console_only, console_only_rasterize|intros masks].
  apply local_bind;
    [apply local_console_only, console_only_getitem|intros path].
  apply local_bind; [apply local_save|intros _].
  apply local_bind; [apply local_save|intros _].
  apply local_console_only, console_only_print.
Qed.

Lemma local_handle_record input_dir images_dir masks_dir color_masks_dir
    class_mapping class_colors json_path :
  local (handle_record covers input_dir images_dir masks_dir color_masks_dir
                       class_mapping class_colors json_path).
Proof.
  unfold handle_record.
  apply local_bind; [apply local_json_to_mask|intros _].
  apply local_bind; [apply local_load_json|intros data].
  apply local_bind;
    [apply local_console_only, console_only_getitem|intros path].
  apply local_bind; [apply local_path_exists|intros found].
  destruct found.
  - apply local_bind; [apply local_copy2|intros _].
    apply local_console_only, console_only_print.
  - apply local_console_only, console_only_print.
Qed.

Lemma keeps_files_copy2 src dst : keeps_files (copy2 src dst).
Proof.
  intros w q Hq. unfold copy2.
  case_decide; [done|].
  destruct (files w !! src) as [f|]; [|done].
  destruct f; first [done | by apply keeps_files_write_file].
Qed.

Lemma keeps_files_json_to_mask json_path masks_dir color_masks_dir
    class_mapping class_colors :
  keeps_files (json_to_mask covers json_path masks_dir color_masks_dir
                            class_mapping class_colors).
Proof.
  unfold json_to_mask.
  apply keeps_files_bind; [apply keeps_files_load_json|intros data].
  apply keeps_files_bind;
    [apply keeps_files_console_only, console_only_rasterize|intros masks].
  apply keeps_files_bind;
    [apply keeps_files_console_only, console_only_getitem|intros path].
  apply keeps_files_bind; [by apply keeps_files_save|intros _].
  apply keeps_files_bind; [by apply keeps_files_save|intros _].
  apply keeps_files_console_only, console_only_print.
Qed.

Lemma keeps_files_handle_record input_dir images_dir masks_dir color_masks_dir
    class_mapping class_colors json_path :
  keeps_files (handle_record covers input_dir images_dir masks_dir
                             color_masks_dir class_mapping class_colors
                             json_path).
Proof.
  unfold handle_record.
  apply keeps_files_bind; [apply keeps_files_json_to_mask|intros _].
  apply keeps_files_bind; [apply keeps_files_load_json|intros data].
  apply keeps_files_bind;
    [apply keeps_files_console_only, console_only_getitem|intros path].
  apply keeps_files_bind; [apply keeps_files_path_exists|intros found].
  destruct found.
  - apply keeps_files_bind; [apply keeps_files_copy2|intros _].
    apply keeps_files_console_only, console_only_print.
  - apply keeps_files_console_only, console_only_print.
Qed.

Section Batch.

Variables input_dir images_dir masks_dir color_masks_dir : string.
Variable class_mapping : dict.
Variable class_colors : list color.

Local Abbreviation step :=
  (process_file covers input_dir images_dir masks_dir color_masks_dir
                class_mapping class_colors).

Lemma process_file_other_extension st filename :
  PosixPath.endswith ".json" filename = false -> step st filename = st.
Proof. intros H. unfold step, process_file. by rewrite H. Qed.

Lemma process_file_invalid st filename :
  PosixPath.endswith ".json" filename = true ->
  parses (files (batch_world st)) (PosixPath.join input_dir filename) = false ->
  exists e warnings,
    step st filename
    = Batch (processed_count st) (error_count st + 1)
        (World (files (batch_world st))
           (console (batch_world st) ++ warnings
            ++ [ErrorProcessing (PosixPath.join input_dir filename) e])).
Proof.
  intros Hext Hbad. unfold step, process_file. rewrite Hext.
  destruct (json_to_mask_invalid (PosixPath.join input_dir filename)
              masks_dir color_masks_dir class_mapping class_colors
              (batch_world st) Hbad) as (e & warnings & Hj).
  unfold handle_record, bind at 1. rewrite Hj.
  exists e, warnings. cbn. by rewrite <- app_assoc.
Qed.

Lemma process_file_counts st filename :
  processed_count (step st filename) + error_count (step st filename)
  = processed_count st + error_count st
    + (if PosixPath.endswith ".json" filename then 1 else 0).
Proof.
  unfold step, process_file.
  destruct (PosixPath.endswith ".json" filename); [|lia].
  destruct (handle_record _ _ _ _ _ _ _ _ _) as [[[]|e] w]; cbn; lia.
Qed.

Lemma batch_counts listing : forall st,
  let st' := fold_left step listing st in
  processed_count st' + error_count st'
  = processed_count st + error_count st
    + Z.of_nat (length (filter (fun f => PosixPath.endswith ".json" f = true)
                               listing)).
Proof.
  induction listing as [|f r IH]; intros st; cbn [fold_left]; [cbn; lia|].
  cbn zeta in *. rewrite IH, process_file_counts, filter_cons.
  destruct (PosixPath.endswith ".json" f); cbn.
  - rewrite decide_True by done. cbn [length]. lia.
  - rewrite decide_False by done. lia.
Qed.

Lemma process_file_shift p e fs c filename :
  step (Batch p e (World fs c)) filename
  = shift p e c (step (Batch 0 0 (World fs [])) filename).
Proof.
  unfold step, process_file, shift.
  destruct (PosixPath.endswith ".json" filename).
  2:{ cbn. rewrite app_nil_r. f_equal; lia. }
  cbn [batch_world processed_count error_count].
  rewrite (local_handle_record input_dir images_dir masks_dir
             color_masks_dir class_mapping class_colors _ fs c).
  destruct (handle_record _ _ _ _ _ _ _ _ _) as [[[]|ex] [fs1 c1]]; cbn.
  - f_equal; lia.
  - rewrite <- app_assoc. f_equal; lia.
Qed.

Lemma batch_shift listing : forall p e fs c,
  fold_left step listing (Batch p e (World fs c))
  = shift p e c (fold_left step listing (Batch 0 0 (World fs []))).
Proof.
  induction listing as [|f r IH]; intros p e fs c; cbn [fold_left].
  - unfold shift. cbn. rewrite app_nil_r. f_equal; lia.
  - rewrite process_file_shift.
    destruct (step (Batch 0 0 (World fs [])) f) as [p1 e1 [fs1 c1]].
    change (shift p e c (Batch p1 e1 (World fs1 c1)))
      with (Batch (p + p1) (e + e1) (World fs1 (c ++ c1))).
    rewrite (IH (p + p1) (e + e1) fs1 (c ++ c1)), (IH p1 e1 fs1 c1).
    unfold shift. cbn. rewrite app_assoc. f_equal; lia.
Qed.

(** C8. The loop looks only at directory entries ending in ".json":
    any other entry leaves the batch as it was. An entry that does not
    parse into a structurally valid record is counted as one error and
    logged, changes no file, and the loop goes on with the entries
    after it: compared with the same listing without the bad entry,
    the batch ends with the same files and the same processed count,
    and one more error. Every ".json" entry is counted exactly once. *)
Theorem batch_isolates_bad_files (st : batch) (before after : list string) :
  let st1 := fold_left step before st in
  (forall other,
     PosixPath.endswith ".json" other = false ->
     fold_left step (before ++ other :: after) st
     = fold_left step (before ++ after) st)
  /\ (forall bad,
        PosixPath.endswith ".json" bad = true ->
        parses (files (batch_world st1)) (PosixPath.join input_dir bad)
        = false ->
        (exists e warnings,
           step st1 bad
           = Batch (processed_count st1) (error_count st1 + 1)
               (World (files (batch_world st1))
                  (console (batch_world st1) ++ warnings
                   ++ [ErrorProcessing (PosixPath.join input_dir bad) e])))
        /\ let with_bad := fold_left step (before ++ bad :: after) st in
           let without := fold_left step (before ++ after) st in
           with_bad = fold_left step after (step st1 bad)
           /\ processed_count with_bad = processed_count without
           /\ error_count with_bad = error_count without + 1
           /\ files (batch_world with_bad) = files (batch_world without))
  /\ (forall listing,
        let st' := fold_left step listing st in
        processed_count st' + error_count st'
        = processed_count st + error_count st
          + Z.of_nat (length (filter
               (fun f => PosixPath.endswith ".json" f = true) listing))).
Proof.
  intros st1. split; [|split].
  - intros other Hext. rewrite !fold_left_app. cbn [fold_left].
    fold st1. by rewrite process_file_other_extension.
  - intros bad Hext Hbad.
    destruct (process_file_invalid st1 bad Hext Hbad) as (e & warnings & Hs).
    split; [by exists e, warnings|].
    cbn zeta. rewrite !fold_left_app. cbn [fold_left]. fold st1.
    split; [done|]. rewrite Hs.
    destruct st1 as [p1 e1 [fs1 c1]].
    cbn [processed_count error_count batch_world files console].
    rewrite (batch_shift after p1 (e1 + 1) fs1),
            (batch_shift after p1 e1 fs1).
    unfold shift. cbn. repeat split; lia.
  - intros listing. apply batch_counts.
Qed.

(** *** The batch on records that rasterize *)

Lemma copy2_copyable fs c src dst :
  copyable fs src dst ->
  exists f, fs !! src = Some f
            /\ copy2 src dst (World fs c) = (Done tt, World (<[dst := f]> fs) c).
Proof.
  intros (Hne & Hdst & f & Hsrc & Hf). exists f. split; [done|].
  unfold copy2. cbn [files].
  assert ((match fs !! dst with
           | Some Directory => PosixPath.join dst (PosixPath.basename src)
           | _ => dst end) = dst) as ->.
  { destruct (fs !! dst) as [[]|]; done. }
  destruct (decide (src = dst)); [done|]. rewrite Hsrc.
  destruct f; first [done | by rewrite write_file_ok].
Qed.

(** What the loop does with a record whose masks get written: the
    rest of the [try] body runs in the world [w1] left by
    [json_to_mask]. *)
Lemma process_file_rasterized st filename data masks path :
  let w := batch_world st in
  let json_path := PosixPath.join input_dir filename in
  let image_path := image_path_of input_dir path in
  let output_image_path :=
    PosixPath.join images_dir (PosixPath.basename image_path) in
  let mask_path := mask_path_of masks_dir path in
  let color_mask_path := color_mask_path_of color_masks_dir path in
  let w1 :=
    World (with_masks (files w) masks_dir color_masks_dir path masks)
          (console w ++ warnings_of covers data class_mapping class_colors
           ++ [MasksCreated mask_path color_mask_path]) in
  PosixPath.endswith ".json" filename = true ->
  files w !! json_path = Some (JsonFile data) ->
  imagePath data = Some path ->
  masks_of covers data class_mapping class_colors = Done masks ->
  savable data = true ->
  files w !! mask_path ≠ Some Directory ->
  files w !! color_mask_path ≠ Some Directory ->
  step st filename
  = match (if bool_decide (is_Some (files w1 !! image_path)) then
             do copy2 image_path output_image_path then
             print (ImageCopied output_image_path)
           else print (WarnImageMissing image_path)) w1 with
    | (Done _, w2) => Batch (processed_count st + 1) (error_count st) w2
    | (Raised e, w2) =>
        Batch (processed_count st) (error_count st + 1)
              (snd (print (ErrorProcessing json_path e) w2))
    end.
Proof.
  intros w json_path image_path output_image_path mask_path
    color_mask_path w1 Hext Hfile Hpath Hmasks Hsav Hmp Hcp.
  unfold step, process_file. rewrite Hext. fold json_path w.
  assert (json_to_mask covers json_path masks_dir color_masks_dir
            class_mapping class_colors w = (Done tt, w1)) as Hj.
  { by apply json_to_mask_done. }
  assert (files w1 !! json_path = Some (JsonFile data)) as Hfile1.
  { destruct (json_path_not_mask input_dir filename masks_dir path Hext)
      as [Hn1 _].
    destruct (json_path_not_mask input_dir filename color_masks_dir path Hext)
      as [_ Hn2].
    unfold w1, with_masks. cbn [files].
    by rewrite !lookup_insert_ne. }
  rewrite (handle_record_after_masks input_dir images_dir masks_dir
             color_masks_dir class_mapping class_colors json_path w w1
             data path Hj Hfile1 Hpath).
  subst output_image_path image_path. unfold image_path_of.
  by destruct (PosixPath.isabs path).
Qed.

(** C3 (amended). For every record whose masks [json_to_mask] has
    written, the batch looks for the image at this path: an absolute
    [imagePath] as it is; of a relative one only the base name, joined to
    the input directory. That path is what [os.path.exists] is asked
    about in the files the masks leave, the source of the copy, and the
    path named in the warning. *)
Theorem batch_image_path st filename w1 :
  let w := batch_world st in
  let json_path := PosixPath.join input_dir filename in
  PosixPath.endswith ".json" filename = true ->
  json_to_mask covers json_path masks_dir color_masks_dir
               class_mapping class_colors w = (Done tt, w1) ->
  exists data path,
    files w !! json_path = Some (JsonFile data)
    /\ imagePath data = Some path
    /\ let image_path :=
         if PosixPath.isabs path then path
         else PosixPath.join input_dir (PosixPath.basename path) in
       let output_image_path :=
         PosixPath.join images_dir (PosixPath.basename image_path) in
       step st filename
       = match (if bool_decide (is_Some (files w1 !! image_path)) then
                  do copy2 image_path output_image_path then
                  print (ImageCopied output_image_path)
                else print (WarnImageMissing image_path)) w1 with
         | (Done _, w2) => Batch (processed_count st + 1) (error_count st) w2
         | (Raised e, w2) =>
             Batch (processed_count st) (error_count st + 1)
                   (snd (print (ErrorProcessing json_path e) w2))
         end.
Proof.
  intros w json_path Hext Hj.
  destruct (json_to_mask_Done_inv json_path masks_dir color_masks_dir
              class_mapping class_colors w w1 Hj)
    as (data & path & masks & Hfile & Hpath & _ & _ & _ & _ & _ & Hw1).
  exists data, path. split; [done|]. split; [done|]. cbn zeta.
  assert (files w1 !! json_path = Some (JsonFile data)) as Hfile1.
  { destruct (json_path_not_mask input_dir filename masks_dir path Hext)
      as [Hn1 _].
    destruct (json_path_not_mask input_dir filename color_masks_dir path Hext)
      as [_ Hn2].
    rewrite Hw1. unfold with_masks. cbn [files].
    by rewrite !lookup_insert_ne. }
  unfold step, process_file. rewrite Hext. fold json_path w.
  by rewrite (handle_record_after_masks input_dir images_dir masks_dir
                color_masks_dir class_mapping class_colors json_path w w1
                data path Hj Hfile1 Hpath).
Qed.

(** A record that rasterizes and whose image path does not exist when the
    batch looks for it: the warning is printed, nothing is copied, the
    record counts as processed. The files after the record are those
    before it with the two masks written at their paths. *)
Lemma process_file_missing_image st filename data masks path :
  let w := batch_world st in
  let json_path := PosixPath.join input_dir filename in
  let image_path := image_path_of input_dir path in
  let mask_path := mask_path_of masks_dir path in
  let color_mask_path := color_mask_path_of color_masks_dir path in
  let fs1 := with_masks (files w) masks_dir color_masks_dir path masks in
  PosixPath.endswith ".json" filename = true ->
  files w !! json_path = Some (JsonFile data) ->
  imagePath data = Some path ->
  masks_of covers data class_mapping class_colors = Done masks ->
  savable data = true ->
  files w !! mask_path ≠ Some Directory ->
  files w !! color_mask_path ≠ Some Directory ->
  fs1 !! image_path = None ->
  step st filename
  = Batch (processed_count st + 1) (error_count st)
      (World fs1
         (console w ++ warnings_of covers data class_mapping class_colors
          ++ [MasksCreated mask_path color_mask_path;
              WarnImageMissing image_path]))
  /\ fs1 !! color_mask_path = Some (ImageRGB masks.2)
  /\ (mask_path ≠ color_mask_path -> fs1 !! mask_path = Some (ImageL masks.1))
  /\ forall q, q ≠ mask_path -> q ≠ color_mask_path -> fs1 !! q = files w !! q.
Proof.
  intros w json_path image_path mask_path color_mask_path fs1
    Hext Hfile Hpath Hmasks Hsav Hmp Hcp Hmissing.
  split; [|split; [|split]].
  - rewrite (process_file_rasterized st filename data masks path
               Hext Hfile Hpath Hmasks Hsav Hmp Hcp).
    cbn [files]. fold w fs1 image_path. rewrite Hmissing.
    rewrite bool_decide_false by (by intros [? ?]).
    unfold print. cbn. by rewrite <- !app_assoc.
  - unfold fs1, with_masks. by rewrite lookup_insert_eq.
  - intros Hne. unfold fs1, with_masks.
    by rewrite lookup_insert_ne, lookup_insert_eq.
  - intros q Hq1 Hq2. unfold fs1, with_masks.
    by rewrite !lookup_insert_ne.
Qed.

(** C4. Shapes whose label is not in the mapping are skipped: the
    masks of a structurally complete record are those of the record
    without these shapes, and each skipped label is printed in a
    warning. A record whose only shape is unmapped gives two canvases
    of background, and the batch counts it as processed when its masks
    can be saved (a canvas with pixels, an image name that gives the
    masks an extension, no directory at their paths) and its image is
    missing or can be copied. *)
Theorem unmapped_shapes_are_skipped :
  (forall w h path shps,
     let kept := filter (fun s => mapped class_mapping s = true) shps in
     let data := JsonRecord (Some w) (Some h) (Some path) (Some shps) in
     forallb complete_shape shps = true ->
     masks_of covers data class_mapping class_colors
     = masks_of covers (JsonRecord (Some w) (Some h) (Some path) (Some kept))
                class_mapping class_colors
     /\ forall masks,
          masks_of covers data class_mapping class_colors = Done masks ->
          warnings_of covers data class_mapping class_colors
          = WarnUnmappedLabel <$> unmapped_labels class_mapping shps)
  /\ (forall w h path l pts,
        0 <= w -> 0 <= h -> dict_mem l class_mapping = false ->
        masks_of covers (annotation w h path [(l, pts)]) class_mapping class_colors
        = Done (filled w h 0, filled w h (0, 0, 0))
        /\ warnings_of covers (annotation w h path [(l, pts)])
                       class_mapping class_colors
           = [WarnUnmappedLabel l])
  /\ (forall st filename w h path l pts,
        let fs := files (batch_world st) in
        let image_path := image_path_of input_dir path in
        let mask_path := mask_path_of masks_dir path in
        let color_mask_path := color_mask_path_of color_masks_dir path in
        let fs1 := with_masks fs masks_dir color_masks_dir path
                     (filled w h 0, filled w h (0, 0, 0)) in
        PosixPath.endswith ".json" filename = true ->
        fs !! PosixPath.join input_dir filename
        = Some (JsonFile (annotation w h path [(l, pts)])) ->
        0 < w -> 0 < h -> names_masks path = true ->
        dict_mem l class_mapping = false ->
        fs !! mask_path ≠ Some Directory ->
        fs !! color_mask_path ≠ Some Directory ->
        fs1 !! image_path = None
        \/ copyable fs1 image_path
             (PosixPath.join images_dir (PosixPath.basename image_path)) ->
        processed_count (step st filename) = processed_count st + 1
        /\ error_count (step st filename) = error_count st
        /\ WarnUnmappedLabel l ∈ console (batch_world (step st filename))
        /\ (files (batch_world (step st filename)) = fs1
            \/ exists f,
                 fs1 !! image_path = Some f
                 /\ files (batch_world (step st filename))
                    = <[PosixPath.join images_dir
                          (PosixPath.basename image_path) := f]> fs1)).
Proof.
  split; [|split].
  - intros w h path shps kept data Hc.
    unfold masks_of, warnings_of, rasterize, data.
    cbn [imageWidth imageHeight shapes getitem]. unfold bind, ret.
    destruct (Image_new w h 0 empty_world) as [[mask|e] w1] eqn:E1;
      [|done].
    assert (w1 = empty_world) as ->.
    { revert E1. unfold Image_new. case_decide; [done|]. by intros [= _ <-]. }
    destruct (Image_new w h (0, 0, 0) empty_world) as [[cmask|e] w2] eqn:E2;
      [|done].
    assert (w2 = empty_world) as ->.
    { revert E2. unfold Image_new. case_decide; [done|]. by intros [= _ <-]. }
    apply (draw_shapes_skips class_mapping class_colors shps Hc).
  - intros w h path l pts Hw Hh Hl. by apply masks_of_unmapped_shape.
  - intros st filename w h path l pts fs image_path mask_path
      color_mask_path fs1 Hext Hfile Hw Hh Hname Hl Hmp Hcp Himg.
    destruct (masks_of_unmapped_shape class_mapping class_colors
                w h path l pts ltac:(lia) ltac:(lia) Hl) as [Hmasks Hwarn].
    assert (savable (annotation w h path [(l, pts)]) = true) as Hsav.
    { unfold savable, annotation. cbn.
      rewrite Hname, !andb_true_r. apply andb_true_iff.
      split; by apply Z.ltb_lt. }
    rewrite (process_file_rasterized st filename _ _ path
               Hext Hfile eq_refl Hmasks Hsav Hmp Hcp).
    cbn [files]. fold fs fs1 image_path mask_path color_mask_path.
    destruct Himg as [Hnone|Hcopy].
    + rewrite Hnone, bool_decide_false by (by intros [? ?]).
      unfold print. cbn. rewrite Hwarn. repeat split; try done.
      * set_solver.
      * by left.
    + destruct (copy2_copyable _
                  (console (batch_world st)
                   ++ warnings_of covers (annotation w h path [(l, pts)])
                        class_mapping class_colors
                   ++ [MasksCreated mask_path color_mask_path]) _ _ Hcopy)
        as (f & Hf & Hc2).
      rewrite Hf, bool_decide_true by eauto.
      unfold bind. rewrite Hc2. unfold print. cbn. rewrite Hwarn.
      repeat split; try done.
      * set_solver.
      * right. by exists f.
Qed.

Lemma process_file_keeps_files st filename q :
  files (batch_world st) !! q ≠ Some Directory ->
  files (batch_world (step st filename)) !! q ≠ Some Directory.
Proof.
  intros Hq. unfold process_file.
  destruct (PosixPath.endswith ".json" filename); [|done].
  pose proof (keeps_files_handle_record input_dir images_dir masks_dir
                color_masks_dir class_mapping class_colors
                (PosixPath.join input_dir filename) (batch_world st) q Hq) as H.
  by destruct (handle_record _ _ _ _ _ _ _ _ _) as [[[]|e] w].
Qed.

Lemma batch_keeps_files listing : forall st q,
  files (batch_world st) !! q ≠ Some Directory ->
  files (batch_world (fold_left step listing st)) !! q ≠ Some Directory.
Proof.
  induction listing as [|f r IH]; intros st q Hq; cbn [fold_left]; [done|].
  by apply IH, process_file_keeps_files.
Qed.

End Batch.

End RasterizerProperties.

(** ** The batch on sample directories, and in its output layout *)

(** The counters [process_labelme_folder] prints are those of its loop
    over the listing, whatever happens to the report afterwards. *)
Lemma process_labelme_folder_summary covers input_dir output_base_dir
    class_mapping listing g w :
  let st :=
    fold_left
      (process_file covers input_dir
         (PosixPath.join output_base_dir "images")
         (PosixPath.join output_base_dir "masks")
         (PosixPath.join output_base_dir "color_masks") class_mapping
         (fst (generate_class_colors (Z.of_nat (length class_mapping)) g)))
      listing (Batch 0 0 w) in
  let run :=
    process_labelme_folder covers input_dir output_base_dir class_mapping
                           listing g w in
  console (snd run)
  = console (batch_world st) ++ [Summary (processed_count st) (error_count st)]
  /\ forall counts,
       fst run = Done counts -> counts = (processed_count st, error_count st).
Proof.
  intros st run. unfold run, process_labelme_folder. fold st.
  unfold bind at 1, print. unfold bind, write_class_colors. cbn [files console].
  set (colors := fst (generate_class_colors _ g)).
  destruct (color_lines class_mapping colors) as [ls [e|]];
    destruct (files (batch_world st) !! _) as [[]|]; cbn; split; try done;
    by intros counts [= <-].
Qed.

(** C3, as stated, fails: resolving "sub/a.png" against "all" gives
    "all/sub/a.png", a file that exists, but the batch looks for
    "all/a.png", finds nothing and copies nothing. *)
Lemma image_path_drops_directories :
  resolve_against_input "all" "sub/a.png" = "all/sub/a.png"
  /\ is_Some (files nested_image !! "all/sub/a.png")
  /\ image_path_of "all" "sub/a.png" = "all/a.png"
  /\ console (snd (handle_record even_odd_covers "all" "out/images" "out/masks"
                     "out/color_masks" [("background", 0); ("cat", 1)]
                     [(0, 0, 0); (200, 100, 50)] "all/a.json" nested_image))
     = [MasksCreated "out/masks/a.png" "out/color_masks/a_color.png";
        WarnImageMissing "all/a.png"].
Proof. vm_compute. repeat split; eauto. Qed.

Lemma batch_image_path_witness :
  exists data path,
    files nested_image !! PosixPath.join "all" "a.json" = Some (JsonFile data)
    /\ imagePath data = Some path
    /\ process_file even_odd_covers "all" "out/images" "out/masks"
         "out/color_masks" [("background", 0); ("cat", 1)]
         [(0, 0, 0); (200, 100, 50)] (Batch 0 0 nested_image) "a.json"
       = Batch 1 0
           (World (with_masks (files nested_image) "out/masks"
                     "out/color_masks" "sub/a.png"
                     (filled 4 4 1, filled 4 4 (200, 100, 50)))
                  [MasksCreated "out/masks/a.png" "out/color_masks/a_color.png";
                   WarnImageMissing "all/a.png"]).
Proof.
  destruct (batch_image_path even_odd_covers "all" "out/images" "out/masks"
              "out/color_masks" [("background", 0); ("cat", 1)]
              [(0, 0, 0); (200, 100, 50)] (Batch 0 0 nested_image) "a.json"
              (World (with_masks (files nested_image) "out/masks"
                        "out/color_masks" "sub/a.png"
                        (filled 4 4 1, filled 4 4 (200, 100, 50)))
                     [MasksCreated "out/masks/a.png"
                                   "out/color_masks/a_color.png"])
              eq_refl ltac:(vm_compute; reflexivity))
    as (data & path & Hfile & Hpath & Hstep).
  exists data, path. split; [exact Hfile|]. split; [exact Hpath|].
  cbn zeta in Hstep. rewrite Hstep.
  vm_compute in Hfile. injection Hfile as <-.
  vm_compute in Hpath. injection Hpath as <-.
  vm_compute. reflexivity.
Defined.

Lemma unmapped_shapes_are_skipped_witness :
  let st :=
    process_file even_odd_covers "all" "out/images" "out/masks"
      "out/color_masks" [("background", 0); ("cat", 1)]
      [(0, 0, 0); (200, 100, 50)] (Batch 0 0 unknown_label) "a.json" in
  masks_of even_odd_covers
           (annotation 4 4 "a.png" [("unknown_xyz", full_canvas 4 4)])
           [("background", 0); ("cat", 1)] [(0, 0, 0); (200, 100, 50)]
  = Done (filled 4 4 0, filled 4 4 (0, 0, 0))
  /\ processed_count st = 1 /\ error_count st = 0.
Proof.
  destruct (unmapped_shapes_are_skipped even_odd_covers "all" "out/images"
              "out/masks" "out/color_masks" [("background", 0); ("cat", 1)]
              [(0, 0, 0); (200, 100, 50)]) as (_ & Hmask & Hbatch).
  split.
  - apply (Hmask 4 4 "a.png" "unknown_xyz" (full_canvas 4 4)); [lia|lia|].
    reflexivity.
  - destruct (Hbatch (Batch 0 0 unknown_label) "a.json" 4 4 "a.png"
                "unknown_xyz" (full_canvas 4 4)) as (Hp & He & _ & _);
      try reflexivity; try lia; try (vm_compute; congruence).
    + right. split; [vm_compute; congruence|].
      split; [vm_compute; congruence|].
      eexists. split; [vm_compute; reflexivity|]. discriminate.
    + cbn zeta. by rewrite Hp, He.
Defined.

Lemma batch_isolates_bad_files_witness :
  let step :=
    process_file even_odd_covers "all" "out/images" "out/masks"
      "out/color_masks" [("background", 0); ("cat", 1)]
      [(0, 0, 0); (200, 100, 50)] in
  let st := Batch 0 0 mixed_directory in
  let with_bad := fold_left step ["a.json"; "broken.json"; "b.json"] st in
  let without := fold_left step ["a.json"; "b.json"] st in
  fold_left step ["a.json"; "notes.txt"; "b.json"] st = without
  /\ processed_count with_bad = processed_count without
  /\ error_count with_bad = error_count without + 1
  /\ files (batch_world with_bad) = files (batch_world without).
Proof.
  intros step st with_bad without.
  destruct (batch_isolates_bad_files even_odd_covers "all" "out/images"
              "out/masks" "out/color_masks" [("background", 0); ("cat", 1)]
              [(0, 0, 0); (200, 100, 50)] st ["a.json"] ["b.json"])
    as (Hother & Hbad & _).
  split; [apply (Hother "notes.txt"); reflexivity|].
  destruct (Hbad "broken.json") as (_ & _ & Hp & He & Hf);
    [reflexivity | vm_compute; reflexivity |].
  repeat split; assumption.
Defined.

(** C9. In a run of [process_labelme_folder] over [output_base_dir], take
    a record that [json_to_mask] can draw and save (every key present, a
    canvas with pixels, polygons of two vertices or more, masks with an
    extension, a color for every class, no directory at the mask paths)
    and whose image path does not exist when the batch looks for it (it
    is not there before the record and is not one of the two mask
    paths). The batch prints the warning and copies nothing; the record
    is counted as processed and not as an error; both masks are in their
    files; and no path under the images directory has changed. *)
Theorem missing_image_is_not_an_error covers input_dir output_base_dir
    class_mapping class_colors st filename data path :
  let images_dir := PosixPath.join output_base_dir "images" in
  let masks_dir := PosixPath.join output_base_dir "masks" in
  let color_masks_dir := PosixPath.join output_base_dir "color_masks" in
  let w := batch_world st in
  let image_path := image_path_of input_dir path in
  let mask_path := mask_path_of masks_dir path in
  let color_mask_path := color_mask_path_of color_masks_dir path in
  PosixPath.endswith ".json" filename = true ->
  files w !! PosixPath.join input_dir filename = Some (JsonFile data) ->
  rasterizable data = true ->
  imagePath data = Some path ->
  palette_covers class_mapping class_colors ->
  files w !! mask_path ≠ Some Directory ->
  files w !! color_mask_path ≠ Some Directory ->
  files w !! image_path = None ->
  image_path ≠ mask_path -> image_path ≠ color_mask_path ->
  exists masks,
    masks_of covers data class_mapping class_colors = Done masks
    /\ let fs1 := with_masks (files w) masks_dir color_masks_dir path masks in
       process_file covers input_dir images_dir masks_dir color_masks_dir
                    class_mapping class_colors st filename
       = Batch (processed_count st + 1) (error_count st)
           (World fs1
              (console w ++ warnings_of covers data class_mapping class_colors
               ++ [MasksCreated mask_path color_mask_path;
                   WarnImageMissing image_path]))
       /\ fs1 !! mask_path = Some (ImageL masks.1)
       /\ fs1 !! color_mask_path = Some (ImageRGB masks.2)
       /\ forall q, PosixPath.startswith (images_dir +:+ "/") q = true ->
                    fs1 !! q = files w !! q.
Proof.
  intros images_dir masks_dir color_masks_dir w image_path mask_path
    color_mask_path Hext Hfile Hvalid Hpath Hcovers Hmp Hcp Hmissing Hne1 Hne2.
  destruct (masks_of_total covers data class_mapping class_colors Hvalid Hcovers)
    as [masks Hmasks].
  exists masks. split; [done|]. cbn zeta.
  assert (with_masks (files w) masks_dir color_masks_dir path masks
            !! image_path = None) as Hmissing1.
  { unfold with_masks. by rewrite !lookup_insert_ne. }
  destruct (process_file_missing_image covers input_dir images_dir masks_dir
              color_masks_dir class_mapping class_colors st filename data
              masks path Hext Hfile Hpath Hmasks (rasterizable_savable data Hvalid)
              Hmp Hcp Hmissing1)
    as (Hstep & Hcolor & Hmask & Hother).
  split; [done|]. split; [apply Hmask, masks_apart|]. split; [done|].
  intros q Hq.
  destruct (masks_outside_images output_base_dir path q Hq) as [Hq1 Hq2].
  by apply Hother.
Qed.

Lemma missing_image_is_not_an_error_witness :
  let st :=
    process_file even_odd_covers "all" (PosixPath.join "out" "images")
      (PosixPath.join "out" "masks") (PosixPath.join "out" "color_masks")
      [("background", 0); ("cat", 1)] [(0, 0, 0); (200, 100, 50)]
      (Batch 0 0 cat_4x4) "a.json" in
  processed_count st = 1 /\ error_count st = 0
  /\ console (batch_world st)
     = [MasksCreated "out/masks/a.png" "out/color_masks/a_color.png";
        WarnImageMissing "all/a.png"]
  /\ files (batch_world st) !! "out/masks/a.png" = Some (ImageL (filled 4 4 1))
  /\ files (batch_world st) !! "out/images/a.png" = None.
Proof.
  assert (palette_covers [("background", 0); ("cat", 1)]
                         [(0, 0, 0); (200, 100, 50)]) as Hcovers.
  { repeat constructor; by eexists. }
  destruct (missing_image_is_not_an_error even_odd_covers "all" "out"
              [("background", 0); ("cat", 1)] [(0, 0, 0); (200, 100, 50)]
              (Batch 0 0 cat_4x4) "a.json"
              (annotation 4 4 "a.png" [("cat", full_canvas 4 4)]) "a.png"
              eq_refl eq_refl eq_refl eq_refl Hcovers
              ltac:(vm_compute; congruence) ltac:(vm_compute; congruence)
              eq_refl ltac:(vm_compute; congruence)
              ltac:(vm_compute; congruence))
    as (masks & Hmasks & Hstep & Hmask & _ & Himages).
  cbn zeta. rewrite Hstep.
  cbn [processed_count error_count batch_world files console].
  split; [done|]. split; [done|].
  vm_compute in Hmasks. injection Hmasks as <-. vm_compute.
  repeat split; reflexivity.
Defined.

(** *** Records that PIL refuses *)

(** An image without pixels cannot be saved (q.py:51): the record is
    counted as an error and no file changes. *)
Lemma empty_canvas_is_an_error :
  rasterizable (annotation 0 4 "a.png" [("cat", full_canvas 4 4)]) = false
  /\ process_file even_odd_covers "all" "out/images" "out/masks"
       "out/color_masks" [("background", 0); ("cat", 1)]
       [(0, 0, 0); (200, 100, 50)] (Batch 0 0 empty_canvas) "a.json"
     = Batch 0 1 (World (files empty_canvas)
                        [ErrorProcessing "all/a.json" ValueError]).
Proof. split; vm_compute; reflexivity. Qed.

(** A mapped shape of a single vertex cannot be drawn (q.py:41): the
    record is counted as an error and no file changes. *)
Lemma single_vertex_is_an_error :
  rasterizable (annotation 4 4 "a.png" [("cat", [(1, 1)%Q])]) = false
  /\ process_file even_odd_covers "all" "out/images" "out/masks"
       "out/color_masks" [("background", 0); ("cat", 1)]
       [(0, 0, 0); (200, 100, 50)] (Batch 0 0 single_vertex) "a.json"
     = Batch 0 1 (World (files single_vertex)
                        [ErrorProcessing "all/a.json" TypeError]).
Proof. split; vm_compute; reflexivity. Qed.

(** With an empty image name the index mask would be "out/masks/.png",
    a path without an extension, which [Image.save] refuses. *)
Lemma nameless_image_is_an_error :
  mask_path_of "out/masks" "sub/" = "out/masks/.png"
  /\ rasterizable (annotation 4 4 "sub/" [("cat", full_canvas 4 4)]) = false
  /\ process_file even_odd_covers "all" "out/images" "out/masks"
       "out/color_masks" [("background", 0); ("cat", 1)]
       [(0, 0, 0); (200, 100, 50)] (Batch 0 0 nameless_image) "a.json"
     = Batch 0 1 (World (files nameless_image)
                        [ErrorProcessing "all/a.json" ValueError]).
Proof. repeat split; vm_compute; reflexivity. Qed.

(** ** Rasterizing a rectangle over the whole canvas *)

Lemma Qltb_true (a b : Q) : (a < b)%Q -> Qltb a b = true.
Proof.
  intros H. unfold Qltb. apply negb_true_iff.
  destruct (Qle_bool b a) eqn:E; [|done].
  apply Qle_bool_iff in E. exfalso. by apply (Qlt_not_le a b).
Qed.

Lemma Qltb_false (a b : Q) : (b <= a)%Q -> Qltb a b = false.
Proof.
  intros H. unfold Qltb. apply negb_false_iff. by apply Qle_bool_iff.
Qed.

(** The centre of pixel [x] lies strictly between 0 and [w]. *)
Lemma centre_bounds (x : nat) (w : Z) :
  Z.of_nat x < w ->
  (0 < inject_Z (Z.of_nat x) + (1 # 2)
   /\ inject_Z (Z.of_nat x) + (1 # 2) < inject_Z w)%Q.
Proof.
  intros H.
  assert (0 <= inject_Z (Z.of_nat x))%Q as H0.
  { rewrite <- (Zle_Qle 0). lia. }
  assert (inject_Z (Z.of_nat x) + 1 <= inject_Z w)%Q as H1.
  { change 1%Q with (inject_Z 1). rewrite <- inject_Z_plus, <- Zle_Qle. lia. }
  split; lra.
Qed.

Lemma even_odd_covers_full_canvas (w h : Z) (x y : nat) :
  Z.of_nat x < w -> Z.of_nat y < h ->
  even_odd_covers (full_canvas w h) x y = true.
Proof.
  intros Hx Hy.
  destruct (centre_bounds x w Hx) as [Hx0 Hxw].
  destruct (centre_bounds y h Hy) as [Hy0 Hyh].
  unfold even_odd_covers, full_canvas, edges.
  set (px := (inject_Z (Z.of_nat x) + (1 # 2))%Q) in *.
  set (py := (inject_Z (Z.of_nat y) + (1 # 2))%Q) in *.
  set (W := inject_Z w) in *. set (H := inject_Z h) in *.
  cbn [zip zip_with app foldr crosses].
  rewrite (Qltb_false py 0) by lra.
  rewrite (Qltb_true py H) by lra.
  rewrite (Qltb_true px (W + (W - W) * (py - 0) / (H - 0))).
  2:{ assert (E : (W + (W - W) * (py - 0) / (H - 0) == W)%Q) by (field; lra).
      by rewrite E. }
  rewrite (Qltb_false px (0 + (0 - 0) * (py - H) / (0 - H))).
  2:{ assert (E : (0 + (0 - 0) * (py - H) / (0 - H) == 0)%Q) by (field; lra).
      rewrite E. lra. }
  reflexivity.
Qed.

Lemma paint_everywhere {A} (region : nat -> nat -> bool) (ink old : A) (w h : Z) :
  (forall x y : nat, Z.of_nat x < w -> Z.of_nat y < h -> region x y = true) ->
  paint region ink (filled w h old) = filled w h ink.
Proof.
  intros Hr. unfold paint, filled. cbn [width height rows]. f_equal.
  apply list_eq. intros y. rewrite list_lookup_imap.
  destruct (decide (y < Z.to_nat h)%nat) as [Hy|Hy].
  - rewrite !lookup_replicate_2 by done. cbn. f_equal.
    apply list_eq. intros x. rewrite list_lookup_imap.
    destruct (decide (x < Z.to_nat w)%nat) as [Hx|Hx].
    + rewrite !lookup_replicate_2 by done. cbn.
      rewrite Hr by lia. done.
    + rewrite !lookup_ge_None_2 by (rewrite length_replicate; lia). done.
  - rewrite !lookup_ge_None_2 by (rewrite length_replicate; lia). done.
Qed.

Lemma clip8_id (v : Z) : 0 <= v <= 255 -> clip8 v = v.
Proof. unfold clip8. lia. Qed.

Lemma clip8_rgb_id (c : color) : rgb8 c -> clip8_rgb c = c.
Proof.
  destruct c as [[r g] b]. cbn. intros (Hr & Hg & Hb).
  by rewrite !clip8_id.
Qed.

Lemma masks_of_full_canvas class_mapping class_colors w h path l class_id col :
  0 < w -> 0 < h ->
  dict_get l class_mapping = Some class_id -> 0 <= class_id <= 255 ->
  list_getitem class_colors class_id = Some col -> rgb8 col ->
  masks_of even_odd_covers (annotation w h path [(l, full_canvas w h)])
           class_mapping class_colors
  = Done (filled w h class_id, filled w h col)
  /\ warnings_of even_odd_covers (annotation w h path [(l, full_canvas w h)])
                 class_mapping class_colors = [].
Proof.
  intros Hw Hh Hget Hid Hcol Hrgb.
  assert (dict_mem l class_mapping = true) as Hmem.
  { rewrite dict_mem_get, Hget. by apply bool_decide_eq_true. }
  unfold masks_of, warnings_of, rasterize, annotation, bind, getitem, ret,
    Image_new.
  cbn [imageWidth imageHeight shapes fmap list_fmap].
  rewrite !decide_False by lia. cbn [draw_shapes fst snd].
  unfold bind, draw_shape, getitem, ret, bind. cbn [label points fst snd].
  rewrite Hmem, Hget, Hcol. cbn [negb fst snd].
  unfold draw_polygon_L, draw_polygon_RGB.
  fold (filled w h 0) (filled w h (0, 0, 0)).
  rewrite !paint_everywhere by (intros; by apply even_odd_covers_full_canvas).
  by rewrite clip8_id, clip8_rgb_id.
Qed.

(** C6 (amended). A record whose single shape is the rectangle over the
    whole canvas, with a label mapped to a class id between 0 and 255 and a
    palette entry of 8-bit channels, and whose image name gives the masks
    a file name with an extension: [json_to_mask] writes an index mask of
    the record's size in which every pixel is the class id and a color mask
    in which every pixel is the palette entry, and prints no warning. The
    4x4 record of the spec with "cat" mapped to 1 gives four rows of four
    1s. *)
Theorem json_to_mask_full_canvas :
  (forall json_path masks_dir color_masks_dir class_mapping class_colors
          wld w h path l class_id col,
     files wld !! json_path
     = Some (JsonFile (annotation w h path [(l, full_canvas w h)])) ->
     0 < w -> 0 < h -> names_masks path = true ->
     dict_get l class_mapping = Some class_id -> 0 <= class_id <= 255 ->
     list_getitem class_colors class_id = Some col -> rgb8 col ->
     files wld !! mask_path_of masks_dir path ≠ Some Directory ->
     files wld !! color_mask_path_of color_masks_dir path ≠ Some Directory ->
     json_to_mask even_odd_covers json_path masks_dir color_masks_dir
                  class_mapping class_colors wld
     = (Done tt,
        World (with_masks (files wld) masks_dir color_masks_dir path
                 (filled w h class_id, filled w h col))
              (console wld
               ++ [MasksCreated (mask_path_of masks_dir path)
                                (color_mask_path_of color_masks_dir path)])))
  /\ (forall class_colors col,
        list_getitem class_colors 1 = Some col -> rgb8 col ->
        masks_of even_odd_covers
                 (annotation 4 4 "a.png" [("cat", full_canvas 4 4)])
                 [("background", 0); ("cat", 1)] class_colors
        = Done (Image 4 4 [[1; 1; 1; 1]; [1; 1; 1; 1]; [1; 1; 1; 1]; [1; 1; 1; 1]],
                Image 4 4 (replicate 4 (replicate 4 col)))).
Proof.
  split.
  - intros json_path masks_dir color_masks_dir class_mapping class_colors
      wld w h path l class_id col Hfile Hw Hh Hname Hget Hid Hcol Hrgb Hmp Hcp.
    destruct (masks_of_full_canvas class_mapping class_colors w h path l
                class_id col Hw Hh Hget Hid Hcol Hrgb) as [Hmasks Hwarn].
    assert (savable (annotation w h path [(l, full_canvas w h)]) = true)
      as Hsav.
    { unfold savable, annotation. cbn.
      rewrite Hname, !andb_true_r. apply andb_true_iff.
      split; by apply Z.ltb_lt. }
    rewrite (json_to_mask_done even_odd_covers json_path masks_dir
               color_masks_dir class_mapping class_colors wld _ _ path
               Hfile Hmasks eq_refl Hsav Hmp Hcp).
    by rewrite Hwarn.
  - intros class_colors col Hcol Hrgb.
    by destruct (masks_of_full_canvas [("background", 0); ("cat", 1)]
                   class_colors 4 4 "a.png" "cat" 1 col) as [-> _].
Qed.

Lemma json_to_mask_full_canvas_witness :
  json_to_mask even_odd_covers "all/a.json" "out/masks" "out/color_masks"
               [("background", 0); ("cat", 1)] [(0, 0, 0); (200, 100, 50)]
               cat_4x4
  = (Done tt,
     World (with_masks (files cat_4x4) "out/masks" "out/color_masks" "a.png"
              (filled 4 4 1, filled 4 4 (200, 100, 50)))
           [MasksCreated "out/masks/a.png" "out/color_masks/a_color.png"]).
Proof.
  apply (proj1 json_to_mask_full_canvas "all/a.json" "out/masks"
           "out/color_masks" [("background", 0); ("cat", 1)]
           [(0, 0, 0); (200, 100, 50)] cat_4x4 4 4 "a.png" "cat" 1
           (200, 100, 50));
    try reflexivity; try lia; try (vm_compute; congruence).
  cbn. lia.
Defined.

(** C6, as stated, fails for class ids above 255: the index mask is an
    8-bit image. With 257 classes the full-canvas rectangle labelled with
    class 256 gives an index mask filled with 255, not with 256. *)
Lemma index_mask_saturates :
  let class_colors :=
    fst (generate_class_colors 257 (Rng (fun n => Z.of_nat n) 0)) in
  dict_get "256" many_classes = Some 256
  /\ exists mask col,
       list_getitem class_colors 256 = Some col
       /\ masks_of even_odd_covers
                   (annotation 2 2 "a.png" [("256", full_canvas 2 2)])
                   many_classes class_colors
          = Done (mask, filled 2 2 col)
       /\ rows mask = [[255; 255]; [255; 255]]
       /\ mask ≠ filled 2 2 256.
Proof.
  cbn zeta. split; [vm_compute; reflexivity|].
  eexists _, _. split; [vm_compute; reflexivity|].
  split; [vm_compute; reflexivity|]. split; [reflexivity|]. discriminate.
Qed.

(** ** The class-colors report *)

Lemma color_lines_in_range (items : dict) class_colors :
  palette_covers items class_colors ->
  exists lines,
    color_lines items class_colors = (lines, None)
    /\ Forall2 (line_of class_colors) items lines.
Proof.
  induction 1 as [|[name class_id] items [c Hc] _ (lines & IH1 & IH2)].
  - by exists [].
  - cbn in Hc. exists (color_line class_id name c :: lines).
    cbn [color_lines]. rewrite Hc, IH1. split; [done|].
    constructor; [|done]. by exists c.
Qed.

Lemma list_getitem_in_range {A} (l : list A) (i : Z) :
  0 <= i < Z.of_nat (length l) -> is_Some (list_getitem l i).
Proof.
  intros Hi. unfold list_getitem. rewrite decide_True by done.
  apply lookup_lt_is_Some. lia.
Qed.

Lemma write_class_colors_in_range output_base_dir (class_mapping : dict)
    class_colors w :
  let report_path := PosixPath.join output_base_dir "class_colors.txt" in
  palette_covers class_mapping class_colors ->
  files w !! report_path ≠ Some Directory ->
  exists lines,
    write_class_colors output_base_dir class_mapping class_colors w
    = (Done tt,
       World (<[report_path := TextFile (report_header :: lines)]> (files w))
             (console w))
    /\ Forall2 (line_of class_colors) class_mapping lines.
Proof.
  intros report_path Hids Hdir.
  destruct (color_lines_in_range class_mapping class_colors Hids)
    as (lines & Hlines & Hrel).
  exists lines. split; [|done].
  unfold write_class_colors. fold report_path. rewrite Hlines.
  destruct (files w !! report_path) as [[]|]; done.
Qed.

(** C7 (amended). When every class id indexes the palette (and the report
    path is not a directory), [process_labelme_folder] ends normally and
    leaves in [class_colors.txt] the header followed by exactly one line
    per entry of the mapping, of the form [id, label, (R, G, B)], in the
    mapping's iteration order. For a mapping built by
    [auto_detect_classes] from data without the label "background", and
    the palette generated for it, every id indexes the palette and the ids
    in iteration order are 0, 1, 2, ...: the lines are in strictly
    increasing order of class id. *)
Theorem class_colors_report :
  (forall covers input_dir output_base_dir (class_mapping : dict) listing g w,
     let class_colors :=
       fst (generate_class_colors (Z.of_nat (length class_mapping)) g) in
     let report_path := PosixPath.join output_base_dir "class_colors.txt" in
     palette_covers class_mapping class_colors ->
     files w !! report_path ≠ Some Directory ->
     exists lines counts w',
       process_labelme_folder covers input_dir output_base_dir class_mapping
                              listing g w
       = (Done counts, w')
       /\ files w' !! report_path = Some (TextFile (report_header :: lines))
       /\ Forall2 (line_of class_colors) class_mapping lines)
  /\ (forall input_dir listing w g,
        let class_mapping := fst (auto_detect_classes input_dir listing w) in
        let class_colors :=
          fst (generate_class_colors (Z.of_nat (length class_mapping)) g) in
        "background" ∉ observed_labels input_dir listing w ->
        class_mapping.*2 = seqZ 0 (Z.of_nat (length class_mapping))
        /\ palette_covers class_mapping class_colors).
Proof.
  split.
  - intros covers input_dir output_base_dir class_mapping listing g w
      class_colors report_path Hids Hdir.
    unfold process_labelme_folder. fold class_colors.
    set (st := fold_left _ listing (Batch 0 0 w)).
    assert (files (batch_world st) !! report_path ≠ Some Directory) as Hdir'.
    { by apply batch_keeps_files. }
    unfold bind at 1, print.
    set (w1 := World (files (batch_world st)) _).
    destruct (write_class_colors_in_range output_base_dir class_mapping
                class_colors w1 Hids Hdir') as (lines & Hw & Hrel).
    unfold bind. rewrite Hw. eexists lines, _, _. split; [done|].
    split; [|done]. cbn. fold report_path. by rewrite lookup_insert_eq.
  - intros input_dir listing w g class_mapping class_colors Hbg.
    destruct (auto_detect_classes_dense_ids input_dir listing w Hbg)
      as (_ & _ & Hids).
    fold class_mapping in Hids. split; [done|].
    apply Forall_forall. intros [name class_id] Hin.
    apply list_getitem_in_range. cbn [snd].
    assert (class_id ∈ class_mapping.*2) as Hid.
    { apply list_elem_of_fmap. by exists (name, class_id). }
    rewrite Hids in Hid. apply list_elem_of_lookup in Hid as [i Hi].
    apply lookup_seqZ in Hi as [-> Hi].
    unfold class_colors. rewrite generate_class_colors_size. lia.
Qed.

Lemma class_colors_report_witness :
  exists lines counts w',
    process_labelme_folder even_odd_covers "all" "out"
      [("background", 0); ("cat", 1)] ["a.json"]
      sample_rng cat_4x4
    = (Done counts, w')
    /\ files w' !! "out/class_colors.txt"
       = Some (TextFile (report_header :: lines))
    /\ Forall2 (line_of (fst (generate_class_colors 2
                                sample_rng)))
               [("background", 0); ("cat", 1)] lines.
Proof.
  apply (proj1 class_colors_report even_odd_covers "all" "out"
           [("background", 0); ("cat", 1)] ["a.json"]
           sample_rng cat_4x4).
  - repeat constructor; by eexists.
  - vm_compute. congruence.
Defined.

(** C7, as stated, fails: the report follows the order of the mapping it
    is given. For the mapping "cat" -> 1, "background" -> 0 the line of
    class 1 comes before the line of class 0. *)
Lemma class_colors_report_follows_mapping_order :
  files (snd (process_labelme_folder even_odd_covers "all" "out"
                [("cat", 1); ("background", 0)] ["a.json"]
                sample_rng cat_4x4))
    !! "out/class_colors.txt"
  = Some (TextFile ["Class ID, Class Name, Color (R,G,B)";
                    "1, cat, (50, 127, 204)";
                    "0, background, (0, 0, 0)"]).
Proof. vm_compute. reflexivity. Qed.

(** * Further properties of the code *)

(** ** [auto_detect_classes] *)

Lemma labels_of_file_other_extension input_dir fs filename :
  PosixPath.endswith ".json" filename = false ->
  labels_of_file input_dir fs filename = ∅.
Proof. intros H. unfold labels_of_file. by rewrite H. Qed.

Lemma labels_of_json_entries input_dir fs listing :
  ⋃ (labels_of_file input_dir fs <$> listing)
  = ⋃ (labels_of_file input_dir fs
         <$> filter (fun f => PosixPath.endswith ".json" f = true) listing).
Proof.
  induction listing as [|f r IH]; [done|].
  rewrite filter_cons. cbn [fmap list_fmap]. rewrite union_list_cons, IH.
  destruct (PosixPath.endswith ".json" f) eqn:E.
  - rewrite decide_True by done. cbn [fmap list_fmap].
    by rewrite union_list_cons.
  - rewrite decide_False by done.
    rewrite labels_of_file_other_extension by done. set_solver.
Qed.

(** X1. The mapping depends only on which ".json" entries the directory
    has: entries with another extension and the order of the listing do
    not matter. *)
Theorem auto_detect_classes_json_entries input_dir listing1 listing2 w :
  filter (fun f => PosixPath.endswith ".json" f = true) listing1
  ≡ₚ filter (fun f => PosixPath.endswith ".json" f = true) listing2 ->
  fst (auto_detect_classes input_dir listing1 w)
  = fst (auto_detect_classes input_dir listing2 w).
Proof.
  intros Hp. rewrite !auto_detect_classes_mapping, !observed_labels_union.
  rewrite (labels_of_json_entries _ _ listing1),
          (labels_of_json_entries _ _ listing2).
  do 2 f_equal. apply leibniz_equiv. by rewrite Hp.
Qed.

Lemma auto_detect_classes_json_entries_witness :
  fst (auto_detect_classes "all" ["b.json"; "a.png"; "notes.txt"; "a.json"]
         mixed_directory)
  = fst (auto_detect_classes "all" ["a.json"; "b.json"] mixed_directory).
Proof.
  apply auto_detect_classes_json_entries. vm_compute.
  apply perm_swap.
Defined.

(** Where each entry of the mapping comes from. *)
Lemma auto_detect_classes_entry input_dir listing w l class_id :
  let L := observed_labels input_dir listing w in
  (l, class_id) ∈ fst (auto_detect_classes input_dir listing w) ->
  (l = "background" /\ class_id = 0 /\ "background" ∉ L)
  \/ exists j : nat, sorted L !! j = Some l /\ class_id = 1 + Z.of_nat j.
Proof.
  intros L Hin.
  destruct (auto_detect_classes_keys input_dir listing w) as [Hnd Hkeys].
  assert (l ∈ (fst (auto_detect_classes input_dir listing w)).*1) as Hk.
  { apply list_elem_of_fmap. by exists (l, class_id). }
  apply (dict_get_elem _ _ _ Hnd) in Hin.
  destruct (decide (l ∈ L)) as [Hl|Hl].
  - right. apply sorted_elem, list_elem_of_lookup in Hl as [j Hj].
    exists j. split; [done|].
    rewrite (auto_detect_classes_rank _ _ _ _ _ Hj) in Hin. by injection Hin.
  - left. apply Hkeys in Hk as [->|]; [|done].
    rewrite auto_detect_classes_mapping in Hin.
    rewrite dict_get_assign_ids_notin in Hin by (by rewrite sorted_elem).
    cbn in Hin. by injection Hin as <-.
Qed.

Lemma auto_detect_classes_ids_NoDup input_dir listing w :
  NoDup (fst (auto_detect_classes input_dir listing w)).*2.
Proof.
  destruct (auto_detect_classes_keys input_dir listing w) as [Hnd _].
  apply NoDup_fmap_2_strong; [|by eapply NoDup_fmap_1].
  intros [l1 v1] [l2 v2] H1 H2 Hv. cbn in Hv. subst v2.
  apply auto_detect_classes_entry in H1, H2.
  destruct H1 as [(-> & -> & Hb1)|(j1 & Hj1 & ->)],
           H2 as [(-> & E & Hb2)|(j2 & Hj2 & E)]; try done; try lia.
  assert (j1 = j2) as -> by lia. congruence.
Qed.

Lemma auto_detect_classes_ids_range input_dir listing w l class_id :
  (l, class_id) ∈ fst (auto_detect_classes input_dir listing w) ->
  0 <= class_id <= Z.of_nat (size (observed_labels input_dir listing w)).
Proof.
  intros Hin. apply auto_detect_classes_entry in Hin.
  destruct Hin as [(-> & -> & _)|(j & Hj & ->)]; [lia|].
  apply lookup_lt_Some in Hj. rewrite sorted_length in Hj. lia.
Qed.

(** X2. Whatever the data, the mapping is one-to-one: its labels are
    distinct, its ids are distinct, and every id lies between 0 and the
    number of observed labels. *)
Theorem auto_detect_classes_one_to_one input_dir listing w :
  let class_mapping := fst (auto_detect_classes input_dir listing w) in
  NoDup class_mapping.*1
  /\ NoDup class_mapping.*2
  /\ forall l class_id,
       (l, class_id) ∈ class_mapping ->
       0 <= class_id <= Z.of_nat (size (observed_labels input_dir listing w)).
Proof.
  intros class_mapping. split; [apply auto_detect_classes_keys|].
  split; [apply auto_detect_classes_ids_NoDup|].
  apply auto_detect_classes_ids_range.
Qed.

Lemma StronglySorted_lookup_lt {A} (R : A -> A -> Prop) (l : list A) :
  StronglySorted R l ->
  forall (i j : nat) x y,
    l !! i = Some x -> l !! j = Some y -> (i < j)%nat -> R x y.
Proof.
  induction 1 as [|a l Hl IH Ha]; intros i j x y Hi Hj Hlt; [done|].
  destruct j as [|j]; [lia|]. cbn in Hj.
  destruct i as [|i]; cbn in Hi.
  - injection Hi as <-. rewrite Forall_forall in Ha.
    apply Ha. by eapply list_elem_of_lookup_2.
  - eapply IH; eauto. lia.
Qed.

(** X3. The ids of the observed labels follow the lexicographic order of
    the labels: a smaller id means a smaller label. *)
Theorem auto_detect_classes_sorted input_dir listing w l1 l2 id1 id2 :
  let class_mapping := fst (auto_detect_classes input_dir listing w) in
  l1 ∈ observed_labels input_dir listing w ->
  l2 ∈ observed_labels input_dir listing w ->
  dict_get l1 class_mapping = Some id1 ->
  dict_get l2 class_mapping = Some id2 ->
  id1 < id2 -> String.le l1 l2 /\ l1 ≠ l2.
Proof.
  intros class_mapping H1 H2 Hg1 Hg2 Hlt.
  apply sorted_elem, list_elem_of_lookup in H1 as [j1 Hj1].
  apply sorted_elem, list_elem_of_lookup in H2 as [j2 Hj2].
  unfold class_mapping in *.
  rewrite (auto_detect_classes_rank _ _ _ _ _ Hj1) in Hg1.
  rewrite (auto_detect_classes_rank _ _ _ _ _ Hj2) in Hg2.
  injection Hg1 as <-. injection Hg2 as <-.
  assert (j1 < j2)%nat as Hj by lia.
  split.
  - pose proof (sorted_Sorted (observed_labels input_dir listing w)) as Hs.
    by eapply (StronglySorted_lookup_lt _ _ Hs j1 j2).
  - intros ->.
    pose proof (sorted_NoDup (observed_labels input_dir listing w)) as Hnd.
    rewrite NoDup_alt in Hnd. specialize (Hnd _ _ _ Hj1 Hj2). lia.
Qed.

Lemma add_labels_unlabelled pre bad post : forall L : gset string,
  Forall (fun s => is_Some (label s)) pre -> label bad = None ->
  add_labels (pre ++ bad :: post) L
  = (Raised (KeyError "label"), L ∪ list_to_set (omap label pre)).
Proof.
  induction pre as [|s r IH]; intros L Hpre Hbad; cbn.
  - rewrite Hbad. f_equal. set_solver.
  - apply Forall_cons in Hpre as [[l Hl] Hpre]. rewrite Hl.
    rewrite IH by done. f_equal. set_solver.
Qed.

(** X4. A shape without a label ends the reading of its file: the labels
    of the shapes before it are kept, those of the shapes after it are
    never seen, and one line reports the [KeyError]. *)
Theorem scan_file_unlabelled_shape input_dir (L : gset string) w filename
    data pre bad post :
  PosixPath.endswith ".json" filename = true ->
  files w !! PosixPath.join input_dir filename = Some (JsonFile data) ->
  shapes data = Some (pre ++ bad :: post) ->
  Forall (fun s => is_Some (label s)) pre ->
  label bad = None ->
  scan_file input_dir (L, w) filename
  = (L ∪ list_to_set (omap label pre),
     World (files w)
           (console w ++ [ErrorReading (PosixPath.join input_dir filename)
                                       (KeyError "label")])).
Proof.
  intros Hext Hfile Hshapes Hpre Hbad.
  unfold scan_file. rewrite Hext.
  unfold bind, load_json. rewrite Hfile, Hshapes. cbn [getitem ret].
  by rewrite add_labels_unlabelled.
Qed.

Lemma scan_file_unlabelled_shape_witness :
  scan_file "all" (∅, unlabelled_shape) "a.json"
  = (∅ ∪ list_to_set (omap label [JsonShape (Some "cat") (Some (full_canvas 4 4))]),
     World (files unlabelled_shape)
           (console unlabelled_shape
            ++ [ErrorReading (PosixPath.join "all" "a.json") (KeyError "label")])).
Proof.
  apply (scan_file_unlabelled_shape "all" ∅ unlabelled_shape "a.json"
           (JsonRecord (Some 4) (Some 4) (Some "a.png")
              (Some [JsonShape (Some "cat") (Some (full_canvas 4 4));
                     JsonShape None (Some (full_canvas 2 2));
                     JsonShape (Some "dog") (Some (full_canvas 2 2))]))
           [JsonShape (Some "cat") (Some (full_canvas 4 4))]
           (JsonShape None (Some (full_canvas 2 2)))
           [JsonShape (Some "dog") (Some (full_canvas 2 2))]).
  - reflexivity.
  - reflexivity.
  - reflexivity.
  - repeat constructor. by eexists.
  - reflexivity.
Defined.

Lemma add_labels_outcome shps : forall L : gset string,
  fst (add_labels shps L)
  = if forallb (fun s => bool_decide (is_Some (label s))) shps then Done tt
    else Raised (KeyError "label").
Proof.
  induction shps as [|s r IH]; intros L; cbn; [done|].
  destruct (label s) as [l|]; cbn; [|done].
  apply IH.
Qed.

Lemma scan_file_console input_dir (L : gset string) w filename :
  exists evs,
    snd (scan_file input_dir (L, w) filename)
    = World (files w) (console w ++ evs)
    /\ Forall2 (reports input_dir)
         (filter (fun f => unreadable input_dir (files w) f = true) [filename])
         evs.
Proof.
  unfold scan_file, unreadable, reads_to_end. rewrite filter_cons, filter_nil.
  destruct (PosixPath.endswith ".json" filename).
  2:{ exists []. cbn. rewrite app_nil_r. split; [by destruct w|].
      rewrite decide_False by done. constructor. }
  unfold bind, load_json, getitem, print, ret, raise. cbn [andb].
  set (json_path := PosixPath.join input_dir filename).
  destruct (files w !! json_path) as [[ | data | | | | | ]|] eqn:E;
    try (eexists [_]; cbn; split; [done|]; rewrite decide_True by done;
         repeat constructor; by eexists).
  destruct (shapes data) as [shps|];
    [|eexists [_]; cbn; split; [done|]; rewrite decide_True by done;
      repeat constructor; by eexists].
  pose proof (add_labels_outcome shps L) as Ho.
  destruct (add_labels shps L) as [[[]|e] L']; cbn in Ho |- *.
  - destruct (forallb _ shps); [|done]. exists []. cbn. rewrite app_nil_r.
    split; [by destruct w|]. rewrite decide_False by done. constructor.
  - destruct (forallb _ shps); [done|]. eexists [_]. cbn. split; [done|].
    rewrite decide_True by done. repeat constructor. by eexists.
Qed.

Lemma scan_fold_console input_dir listing : forall (L : gset string) w,
  exists evs,
    snd (fold_left (scan_file input_dir) listing (L, w))
    = World (files w) (console w ++ evs)
    /\ Forall2 (reports input_dir)
         (filter (fun f => unreadable input_dir (files w) f = true) listing)
         evs.
Proof.
  induction listing as [|f r IH]; intros L w; cbn [fold_left].
  - exists []. cbn. rewrite app_nil_r. split; [by destruct w|constructor].
  - destruct (scan_file_console input_dir L w f) as (evs1 & Hs & Hr1).
    destruct (scan_file input_dir (L, w) f) as [L1 w1]. cbn in Hs. subst w1.
    destruct (IH L1 (World (files w) (console w ++ evs1)))
      as (evs2 & -> & Hr2).
    exists (evs1 ++ evs2). cbn [files console] in *.
    split; [by rewrite <- app_assoc|].
    change (f :: r) with ([f] ++ r). rewrite filter_app.
    by apply Forall2_app.
Qed.

(** X5. [auto_detect_classes] changes no file, and prints one line for
    each ".json" entry it could not read to its end, in the order of the
    listing, and nothing else: a missing file, a directory, a file that
    is not JSON, a record without "shapes" and a shape without "label"
    are each reported, and the scan goes on with the next entry. *)
Theorem auto_detect_classes_console input_dir listing w :
  let w' := snd (auto_detect_classes input_dir listing w) in
  files w' = files w
  /\ exists evs,
       console w' = console w ++ evs
       /\ Forall2 (reports input_dir)
            (filter (fun f => unreadable input_dir (files w) f = true) listing)
            evs.
Proof.
  cbn zeta. unfold auto_detect_classes.
  destruct (scan_fold_console input_dir listing ∅ w) as (evs & H & Hr).
  destruct (fold_left _ _ _) as [L w1]. cbn in H |- *. subst w1.
  split; [done|]. by exists evs.
Qed.

Lemma auto_detect_classes_sorted_witness :
  String.le "apple" "background" /\ "apple" ≠ "background".
Proof.
  apply (auto_detect_classes_sorted "all" ["a.json"] apple_and_background
           "apple" "background" 1 2).
  - apply (bool_decide_unpack _). vm_compute. exact I.
  - apply (bool_decide_unpack _). vm_compute. exact I.
  - vm_compute. reflexivity.
  - vm_compute. reflexivity.
  - lia.
Defined.

(** ** From the vocabulary to the masks *)

Lemma add_labels_labelled shps : forall L : gset string,
  Forall (fun s => is_Some (label s)) shps ->
  add_labels shps L = (Done tt, L ∪ list_to_set (omap label shps)).
Proof.
  induction shps as [|s r IH]; intros L Hl; cbn.
  - f_equal. set_solver.
  - apply Forall_cons in Hl as [[l Hl] Hr]. rewrite Hl.
    rewrite IH by done. f_equal. set_solver.
Qed.

Lemma complete_shapes_labelled shps :
  forallb complete_shape shps = true ->
  Forall (fun s => is_Some (label s)) shps.
Proof.
  induction shps as [|s r IH]; cbn [forallb]; intros H; [done|].
  apply andb_true_iff in H as [Hs H]. constructor; [|by apply IH].
  unfold complete_shape in Hs. destruct (label s); [eauto|done].
Qed.

(** Every label of a listed annotation that is read to its end is a key of
    the mapping. *)
Lemma auto_detect_classes_covers input_dir listing w filename data shps s l :
  filename ∈ listing ->
  PosixPath.endswith ".json" filename = true ->
  files w !! PosixPath.join input_dir filename = Some (JsonFile data) ->
  shapes data = Some shps ->
  Forall (fun s => is_Some (label s)) shps ->
  s ∈ shps -> label s = Some l ->
  dict_mem l (fst (auto_detect_classes input_dir listing w)) = true.
Proof.
  intros Hin Hext Hfile Hshapes Hall Hs Hl.
  unfold dict_mem. apply bool_decide_eq_true.
  apply auto_detect_classes_keys. right.
  rewrite observed_labels_union. apply elem_of_union_list.
  exists (labels_of_file input_dir (files w) filename). split.
  - apply list_elem_of_fmap. by exists filename.
  - unfold labels_of_file. rewrite Hext, Hfile, Hshapes.
    rewrite add_labels_labelled by done. cbn.
    apply elem_of_union. right. apply elem_of_list_to_set.
    apply list_elem_of_omap. by exists s.
Qed.

Lemma unmapped_labels_nil (class_mapping : dict) shps :
  (forall s l, s ∈ shps -> label s = Some l -> dict_mem l class_mapping = true) ->
  unmapped_labels class_mapping shps = [].
Proof.
  induction shps as [|s r IH]; intros H; [done|].
  unfold unmapped_labels in *. cbn [omap list_omap].
  rewrite IH by (intros s' l' Hs'; apply H; by right).
  destruct (label s) as [l|] eqn:Hl; [|done].
  rewrite (H s l) by (done || by left). done.
Qed.

(** The warnings of a record that rasterizes are those of its unmapped
    shapes. *)
Lemma warnings_of_rasterized covers data class_mapping class_colors masks shps :
  shapes data = Some shps ->
  forallb complete_shape shps = true ->
  masks_of covers data class_mapping class_colors = Done masks ->
  warnings_of covers data class_mapping class_colors
  = WarnUnmappedLabel <$> unmapped_labels class_mapping shps.
Proof.
  intros Hshapes Hc. unfold masks_of, warnings_of, rasterize.
  rewrite Hshapes.
  destruct (imageWidth data) as [w|]; [|done].
  destruct (imageHeight data) as [h|]; [|done].
  cbn [getitem]. unfold bind, ret, Image_new.
  destruct (decide (w < 0 ∨ h < 0)); [done|]. cbn [ret].
  intros Hd.
  by eapply (draw_shapes_skips covers class_mapping class_colors shps Hc).
Qed.

(** The palette generated for a mapping detected in data without the
    label "background" has a color for every class id. *)
Lemma detected_palette_covers input_dir listing w g :
  let class_mapping := fst (auto_detect_classes input_dir listing w) in
  "background" ∉ observed_labels input_dir listing w ->
  palette_covers class_mapping
    (fst (generate_class_colors (Z.of_nat (length class_mapping)) g)).
Proof.
  intros class_mapping Hbg.
  destruct (auto_detect_classes_dense_ids input_dir listing w Hbg)
    as (_ & _ & Hids).
  fold class_mapping in Hids.
  apply Forall_forall. intros [name class_id] Hin.
  apply list_getitem_in_range. cbn [snd].
  assert (class_id ∈ class_mapping.*2) as Hid.
  { apply list_elem_of_fmap. by exists (name, class_id). }
  rewrite Hids in Hid. apply list_elem_of_lookup in Hid as [i Hi].
  apply lookup_seqZ in Hi as [-> Hi].
  rewrite generate_class_colors_size. lia.
Qed.

(** X6. The three stages fit together. Every shape label of a listed
    annotation that [json_to_mask] can draw and save (all keys present,
    polygons of two vertices or more, a canvas with pixels) is a key of
    the detected mapping, so the rasterizer skips none of its shapes;
    and when no shape is labelled "background", the record is drawn with
    the palette generated for that mapping, without a warning. *)
Theorem detected_mapping_covers_the_data covers input_dir listing w g
    filename data shps :
  let class_mapping := fst (auto_detect_classes input_dir listing w) in
  let class_colors :=
    fst (generate_class_colors (Z.of_nat (length class_mapping)) g) in
  filename ∈ listing ->
  PosixPath.endswith ".json" filename = true ->
  files w !! PosixPath.join input_dir filename = Some (JsonFile data) ->
  rasterizable data = true ->
  shapes data = Some shps ->
  unmapped_labels class_mapping shps = []
  /\ ("background" ∉ observed_labels input_dir listing w ->
      exists masks,
        masks_of covers data class_mapping class_colors = Done masks
        /\ warnings_of covers data class_mapping class_colors = []).
Proof.
  intros class_mapping class_colors Hin Hext Hfile Hvalid Hshapes.
  assert (forallb complete_shape shps = true) as Hc.
  { unfold rasterizable in Hvalid.
    apply andb_true_iff in Hvalid as [[Hc _]%andb_true_iff _].
    unfold complete_record in Hc. rewrite Hshapes in Hc.
    by destruct (imageWidth data), (imageHeight data), (imagePath data). }
  assert (unmapped_labels class_mapping shps = []) as Hnone.
  { apply unmapped_labels_nil. intros s l Hs Hl.
    eapply auto_detect_classes_covers; eauto.
    by apply complete_shapes_labelled. }
  split; [done|]. intros Hbg.
  destruct (masks_of_total covers data class_mapping class_colors Hvalid)
    as [masks Hmasks].
  { by apply detected_palette_covers. }
  exists masks. split; [done|].
  by rewrite (warnings_of_rasterized covers data class_mapping class_colors
                masks shps Hshapes Hc Hmasks), Hnone.
Qed.

Lemma detected_mapping_covers_the_data_witness :
  let class_mapping :=
    fst (auto_detect_classes "all" ["a.json"; "broken.json"; "b.json"]
           mixed_directory) in
  let class_colors :=
    fst (generate_class_colors (Z.of_nat (length class_mapping)) sample_rng) in
  unmapped_labels class_mapping
    [JsonShape (Some "cat") (Some (full_canvas 2 2))] = []
  /\ ("background" ∉ observed_labels "all" ["a.json"; "broken.json"; "b.json"]
                       mixed_directory ->
      exists masks,
        masks_of even_odd_covers
          (annotation 2 2 "b.png" [("cat", full_canvas 2 2)])
          class_mapping class_colors = Done masks
        /\ warnings_of even_odd_covers
             (annotation 2 2 "b.png" [("cat", full_canvas 2 2)])
             class_mapping class_colors = []).
Proof.
  apply (detected_mapping_covers_the_data even_odd_covers "all"
           ["a.json"; "broken.json"; "b.json"] mixed_directory sample_rng
           "b.json" (annotation 2 2 "b.png" [("cat", full_canvas 2 2)])).
  - set_solver.
  - reflexivity.
  - reflexivity.
  - reflexivity.
  - reflexivity.
Defined.

(** ** The report when a class id has no color *)

Lemma color_lines_truncated (pre : dict) name class_id (post : dict)
    class_colors :
  palette_covers pre class_colors ->
  list_getitem class_colors class_id = None ->
  exists lines,
    color_lines (pre ++ (name, class_id) :: post) class_colors
    = (lines, Some (IndexError class_id))
    /\ Forall2 (line_of class_colors) pre lines.
Proof.
  intros Hpre Hnone.
  induction Hpre as [|[n i] items [c Hc] _ (lines & IH1 & IH2)].
  - exists []. cbn. by rewrite Hnone.
  - cbn in Hc. exists (color_line i n c :: lines).
    cbn [app color_lines]. rewrite Hc, IH1. split; [done|].
    constructor; [|done]. by exists c.
Qed.

Lemma color_lines_error (items : dict) class_colors lines e :
  color_lines items class_colors = (lines, Some e) ->
  exists name class_id,
    (name, class_id) ∈ items
    /\ list_getitem class_colors class_id = None
    /\ e = IndexError class_id.
Proof.
  revert lines. induction items as [|[n i] items IH]; intros lines; cbn;
    [done|].
  destruct (list_getitem class_colors i) as [c|] eqn:Hc.
  - destruct (color_lines items class_colors) as [ls e'] eqn:E.
    intros [= <- ->].
    destruct (IH ls eq_refl) as (name & class_id & Hin & Hnone & ->).
    exists name, class_id. split; [by right|done].
  - intros [= <- <-]. exists n, i. split; [by left|done].
Qed.

(** [process_labelme_folder] ends the way the writing of the report ends,
    in the world the loop and the summary leave. *)
Lemma process_labelme_folder_report covers input_dir output_base_dir
    class_mapping listing g w :
  let class_colors :=
    fst (generate_class_colors (Z.of_nat (length class_mapping)) g) in
  let st :=
    fold_left
      (process_file covers input_dir
         (PosixPath.join output_base_dir "images")
         (PosixPath.join output_base_dir "masks")
         (PosixPath.join output_base_dir "color_masks") class_mapping
         class_colors)
      listing (Batch 0 0 w) in
  process_labelme_folder covers input_dir output_base_dir class_mapping
                         listing g w
  = match write_class_colors output_base_dir class_mapping class_colors
            (World (files (batch_world st))
                   (console (batch_world st)
                    ++ [Summary (processed_count st) (error_count st)])) with
    | (Done _, w') => (Done (processed_count st, error_count st), w')
    | (Raised e, w') => (Raised e, w')
    end.
Proof.
  intros class_colors st. unfold process_labelme_folder.
  fold class_colors. fold st. unfold bind at 1, print. unfold bind.
  by destruct (write_class_colors _ _ _ _) as [[[]|e] w'].
Qed.

Lemma write_class_colors_truncated output_base_dir (items pre : dict) name
    class_id (post : dict) class_colors w :
  let report_path := PosixPath.join output_base_dir "class_colors.txt" in
  items = pre ++ (name, class_id) :: post ->
  palette_covers pre class_colors ->
  list_getitem class_colors class_id = None ->
  files w !! report_path ≠ Some Directory ->
  exists lines,
    write_class_colors output_base_dir items class_colors w
    = (Raised (IndexError class_id),
       World (<[report_path := TextFile (report_header :: lines)]> (files w))
             (console w))
    /\ Forall2 (line_of class_colors) pre lines.
Proof.
  intros report_path -> Hpre Hnone Hdir.
  destruct (color_lines_truncated pre name class_id post class_colors
              Hpre Hnone) as (lines & Hlines & Hrel).
  exists lines. split; [|done].
  unfold write_class_colors. fold report_path. rewrite Hlines.
  destruct (files w !! report_path) as [[]|]; done.
Qed.

(** X7. The report is written entry by entry: at the first entry of the
    mapping whose class id has no color the loop raises [IndexError], and
    [class_colors.txt] keeps the header and the lines of the entries
    before it. The counters are printed before, and are not returned. *)
Theorem class_colors_report_truncated covers input_dir output_base_dir
    (pre : dict) name class_id (post : dict) listing g w :
  let class_mapping := pre ++ (name, class_id) :: post in
  let class_colors :=
    fst (generate_class_colors (Z.of_nat (length class_mapping)) g) in
  let report_path := PosixPath.join output_base_dir "class_colors.txt" in
  palette_covers pre class_colors ->
  list_getitem class_colors class_id = None ->
  files w !! report_path ≠ Some Directory ->
  exists lines w',
    process_labelme_folder covers input_dir output_base_dir class_mapping
                           listing g w
    = (Raised (IndexError class_id), w')
    /\ files w' !! report_path = Some (TextFile (report_header :: lines))
    /\ Forall2 (line_of class_colors) pre lines
    /\ exists processed errors, last (console w') = Some (Summary processed errors).
Proof.
  intros class_mapping class_colors report_path Hpre Hnone Hdir.
  rewrite process_labelme_folder_report. subst class_mapping.
  fold class_colors.
  set (st := fold_left _ listing (Batch 0 0 w)).
  set (w1 := World (files (batch_world st)) _).
  assert (files w1 !! report_path ≠ Some Directory) as Hdir'.
  { by apply batch_keeps_files. }
  destruct (write_class_colors_truncated output_base_dir _ pre name class_id
              post class_colors w1 eq_refl Hpre Hnone Hdir')
    as (lines & -> & Hrel).
  eexists lines, _. split; [done|]. cbn [files console w1].
  split; [by rewrite lookup_insert_eq|]. split; [done|].
  eexists _, _. apply last_snoc.
Qed.

Lemma class_colors_report_truncated_witness :
  let class_mapping := [("background", 0)] ++ ("cat", 5) :: [("dog", 1)] in
  let class_colors :=
    fst (generate_class_colors (Z.of_nat (length class_mapping)) sample_rng) in
  exists lines w',
    process_labelme_folder even_odd_covers "all" "out" class_mapping
                           ["a.json"] sample_rng cat_4x4
    = (Raised (IndexError 5), w')
    /\ files w' !! PosixPath.join "out" "class_colors.txt"
       = Some (TextFile (report_header :: lines))
    /\ Forall2 (line_of class_colors) [("background", 0)] lines
    /\ exists processed errors, last (console w') = Some (Summary processed errors).
Proof.
  apply (class_colors_report_truncated even_odd_covers "all" "out"
           [("background", 0)] "cat" 5 [("dog", 1)] ["a.json"] sample_rng
           cat_4x4).
  - repeat constructor. by eexists.
  - reflexivity.
  - vm_compute. congruence.
Defined.

(** X8. No exception of a record leaves the loop: when
    [process_labelme_folder] raises, the exception comes from the report,
    which is either a directory or stopped at a class id without a
    color; the summary has been printed by then. *)
Theorem process_labelme_folder_raises covers input_dir output_base_dir
    class_mapping listing g w e :
  let class_colors :=
    fst (generate_class_colors (Z.of_nat (length class_mapping)) g) in
  let run :=
    process_labelme_folder covers input_dir output_base_dir class_mapping
                           listing g w in
  fst run = Raised e ->
  (e = IsADirectoryError (PosixPath.join output_base_dir "class_colors.txt")
   \/ exists name class_id,
        (name, class_id) ∈ class_mapping
        /\ list_getitem class_colors class_id = None
        /\ e = IndexError class_id)
  /\ exists processed errors,
       last (console (snd run)) = Some (Summary processed errors).
Proof.
  intros class_colors run. unfold run.
  rewrite process_labelme_folder_report. fold class_colors.
  set (st := fold_left _ listing (Batch 0 0 w)).
  set (w1 := World (files (batch_world st)) _).
  unfold write_class_colors. cbn [files console w1].
  set (report_path := PosixPath.join output_base_dir "class_colors.txt").
  destruct (color_lines class_mapping class_colors) as [ls [e'|]] eqn:E.
  - apply color_lines_error in E as (name & class_id & Hin & Hnone & ->).
    destruct (files (batch_world st) !! report_path) as [[]|]; cbn;
      intros [= <-]; (split; [|eexists _, _; apply last_snoc]);
      first [by left | right; by exists name, class_id].
  - destruct (files (batch_world st) !! report_path) as [[]|]; cbn;
      intros [= <-]. split; [by left|]. eexists _, _. apply last_snoc.
Qed.

Lemma process_labelme_folder_raises_witness :
  (IndexError 2
   = IsADirectoryError (PosixPath.join "out" "class_colors.txt")
   \/ exists name class_id,
        (name, class_id) ∈ [("background", 2); ("apple", 1)]
        /\ list_getitem
             (fst (generate_class_colors
                     (Z.of_nat (length [("background", 2); ("apple", 1)]))
                     sample_rng)) class_id = None
        /\ IndexError 2 = IndexError class_id)
  /\ exists processed errors,
       last (console (snd (process_labelme_folder even_odd_covers "all" "out"
                             [("background", 2); ("apple", 1)] ["a.json"]
                             sample_rng apple_and_background)))
       = Some (Summary processed errors).
Proof.
  apply (process_labelme_folder_raises even_odd_covers "all" "out"
           [("background", 2); ("apple", 1)] ["a.json"] sample_rng
           apple_and_background (IndexError 2)).
  vm_compute. reflexivity.
Defined.

(** ** A shape labelled "background" *)

Lemma auto_detect_classes_length_background input_dir listing w :
  "background" ∈ observed_labels input_dir listing w ->
  length (fst (auto_detect_classes input_dir listing w))
  = size (observed_labels input_dir listing w).
Proof.
  intros Hbg.
  destruct (auto_detect_classes_keys input_dir listing w) as [Hnd Hkeys].
  rewrite <- sorted_length, <- (length_fmap fst).
  apply Permutation_length, NoDup_Permutation; [done|apply sorted_NoDup|].
  intros l. rewrite Hkeys, sorted_elem. naive_solver.
Qed.

(** With "background" among the observed labels, the entry with the
    largest id is one past the end of every palette generated for the
    mapping, and the entries before it have a color. *)
Lemma background_in_data_split input_dir listing w g :
  let class_mapping := fst (auto_detect_classes input_dir listing w) in
  let n := Z.of_nat (length class_mapping) in
  let class_colors := fst (generate_class_colors n g) in
  "background" ∈ observed_labels input_dir listing w ->
  list_getitem class_colors n = None
  /\ exists pre l post,
       class_mapping = pre ++ (l, n) :: post
       /\ dict_get l class_mapping = Some n
       /\ palette_covers pre class_colors.
Proof.
  intros class_mapping n class_colors Hbg.
  set (L := observed_labels input_dir listing w) in *.
  assert (length class_mapping = size L) as Hlen.
  { by apply auto_detect_classes_length_background. }
  assert (0 < size L)%nat as Hpos.
  { rewrite <- sorted_length. apply sorted_elem in Hbg.
    destruct (sorted L); [by apply elem_of_nil in Hbg|cbn; lia]. }
  assert (is_Some (sorted L !! (size L - 1)%nat)) as [l Hl].
  { apply lookup_lt_is_Some. rewrite sorted_length. lia. }
  assert (dict_get l class_mapping = Some n) as Hget.
  { unfold class_mapping. rewrite (auto_detect_classes_rank _ _ _ _ _ Hl).
    f_equal. unfold n. fold class_mapping. lia. }
  assert (Z.of_nat (length class_colors) = n) as Hcolors.
  { unfold class_colors. rewrite generate_class_colors_size. lia. }
  split.
  { unfold list_getitem. rewrite !decide_False by lia. done. }
  destruct (list_elem_of_split class_mapping (l, n)) as (pre & post & Hsplit).
  { by apply dict_get_elem_of. }
  exists pre, l, post. split; [done|]. split; [done|].
  apply Forall_forall. intros [k v] Hin. cbn [snd].
  apply list_getitem_in_range. rewrite Hcolors.
  assert ((k, v) ∈ class_mapping) as Hin'.
  { rewrite Hsplit. apply elem_of_app. by left. }
  pose proof (auto_detect_classes_ids_range _ _ _ _ _ Hin') as Hr.
  destruct (auto_detect_classes_background_in_data input_dir listing w Hbg)
    as [_ Hone]. specialize (Hone k v Hin').
  fold L in Hr.
  assert (v ≠ n); [|lia]. intros ->.
  pose proof (auto_detect_classes_ids_NoDup input_dir listing w) as Hnd.
  fold class_mapping in Hnd. rewrite Hsplit, fmap_app in Hnd.
  apply NoDup_app in Hnd as (_ & Hdisj & _).
  apply (Hdisj n).
  - apply list_elem_of_fmap. by exists (k, n).
  - cbn. by left.
Qed.

(** X9. When some shape is labelled "background", the mapping has as many
    entries as there are observed labels, with the ids 1 to that number:
    the largest id is the length of the mapping, one past the end of the
    palette [process_labelme_folder] generates. Whatever the directory
    holds, the run prints its summary and raises [IndexError] while
    writing the report. *)
Theorem background_label_overflows_palette covers input_dir listing w
    output_base_dir listing' g w0 :
  let class_mapping := fst (auto_detect_classes input_dir listing w) in
  let n := Z.of_nat (length class_mapping) in
  "background" ∈ observed_labels input_dir listing w ->
  files w0 !! PosixPath.join output_base_dir "class_colors.txt"
  ≠ Some Directory ->
  length class_mapping = size (observed_labels input_dir listing w)
  /\ (exists l, dict_get l class_mapping = Some n)
  /\ list_getitem (fst (generate_class_colors n g)) n = None
  /\ fst (process_labelme_folder covers input_dir output_base_dir
            class_mapping listing' g w0)
     = Raised (IndexError n).
Proof.
  intros class_mapping n Hbg Hdir.
  destruct (background_in_data_split input_dir listing w g Hbg)
    as (Hnone & pre & l & post & Hsplit & Hget & Hpre).
  fold class_mapping n in Hnone, Hsplit, Hget, Hpre.
  split; [by apply auto_detect_classes_length_background|].
  split; [by exists l|]. split; [done|].
  rewrite process_labelme_folder_report. fold n.
  set (class_colors := fst (generate_class_colors n g)) in *.
  set (st := fold_left _ listing' (Batch 0 0 w0)).
  set (w1 := World (files (batch_world st)) _).
  assert (files w1 !! PosixPath.join output_base_dir "class_colors.txt"
          ≠ Some Directory) as Hdir'.
  { by apply batch_keeps_files. }
  by destruct (write_class_colors_truncated output_base_dir class_mapping
                 pre l n post class_colors w1 Hsplit Hpre Hnone Hdir')
    as (lines & -> & _).
Qed.

Lemma background_label_overflows_palette_witness :
  let class_mapping :=
    fst (auto_detect_classes "all" ["a.json"] apple_and_background) in
  let n := Z.of_nat (length class_mapping) in
  length class_mapping
  = size (observed_labels "all" ["a.json"] apple_and_background)
  /\ (exists l, dict_get l class_mapping = Some n)
  /\ list_getitem (fst (generate_class_colors n sample_rng)) n = None
  /\ fst (process_labelme_folder even_odd_covers "all" "out"
            class_mapping ["a.json"] sample_rng apple_and_background)
     = Raised (IndexError n).
Proof.
  apply (background_label_overflows_palette even_odd_covers "all" ["a.json"]
           apple_and_background "out" ["a.json"] sample_rng
           apple_and_background).
  - apply (bool_decide_unpack _). vm_compute. exact I.
  - vm_compute. congruence.
Defined.

(** ** The palette and the generator *)

Lemma append_colors_add k1 : forall k2 colors g,
  append_colors (k1 + k2) colors g
  = append_colors k2 (fst (append_colors k1 colors g))
                  (snd (append_colors k1 colors g)).
Proof.
  induction k1 as [|k1 IH]; intros k2 colors g; [done|].
  cbn [Nat.add append_colors].
  destruct (randint 50 255 g) as [r g1].
  destruct (randint 50 255 g1) as [gr g2].
  destruct (randint 50 255 g2) as [b g3].
  apply IH.
Qed.

Lemma append_colors_rng k : forall colors g,
  draws (snd (append_colors k colors g)) = draws g
  /\ position (snd (append_colors k colors g)) = (position g + 3 * k)%nat.
Proof.
  induction k as [|k IH]; intros colors g; cbn [append_colors].
  - cbn. split; [done|lia].
  - unfold randint. cbn [draws position].
    destruct (IH (colors ++ [(50 + draws g (position g) `mod` (255 - 50 + 1),
                              50 + draws g (S (position g)) `mod` (255 - 50 + 1),
                              50 + draws g (S (S (position g))) `mod` (255 - 50 + 1))])
                 (Rng (draws g) (S (S (S (position g)))))) as [Hd Hp].
    cbn [draws position] in Hd, Hp. split; [done|]. rewrite Hp. lia.
Qed.

(** X10. The generator is used three times for each class after the
    first and for nothing else; and from the same state of the generator
    a palette for fewer classes is the beginning of the palette for more
    classes: adding classes does not change the colors of the others. *)
Theorem generate_class_colors_draws (num_classes more : Z) (g : rng) :
  num_classes <= more ->
  let g' := snd (generate_class_colors num_classes g) in
  draws g' = draws g
  /\ position g' = (position g + 3 * Z.to_nat (num_classes - 1))%nat
  /\ fst (generate_class_colors num_classes g)
     `prefix_of` fst (generate_class_colors more g).
Proof.
  intros Hle g'. unfold g', generate_class_colors.
  destruct (append_colors_rng (Z.to_nat (num_classes - 1)) [(0, 0, 0)] g)
    as [Hd Hp].
  split; [done|]. split; [done|].
  replace (Z.to_nat (more - 1))
    with (Z.to_nat (num_classes - 1)
          + (Z.to_nat (more - 1) - Z.to_nat (num_classes - 1)))%nat by lia.
  rewrite append_colors_add.
  destruct (append_colors_spec
              (Z.to_nat (more - 1) - Z.to_nat (num_classes - 1))
              (fst (append_colors (Z.to_nat (num_classes - 1)) [(0, 0, 0)] g))
              (snd (append_colors (Z.to_nat (num_classes - 1)) [(0, 0, 0)] g)))
    as (extra & -> & _).
  by exists extra.
Qed.

Lemma generate_class_colors_draws_witness :
  let g' := snd (generate_class_colors 3 sample_rng) in
  draws g' = draws sample_rng
  /\ position g' = (position sample_rng + 3 * Z.to_nat (3 - 1))%nat
  /\ fst (generate_class_colors 3 sample_rng)
     `prefix_of` fst (generate_class_colors 5 sample_rng).
Proof. apply (generate_class_colors_draws 3 5 sample_rng). lia. Defined.

Lemma generate_class_colors_rgb8 num_classes g c :
  c ∈ fst (generate_class_colors num_classes g) -> rgb8 c.
Proof.
  destruct (generate_class_colors_spec num_classes g)
    as (extra & -> & _ & Hall).
  intros [->|Hc]%elem_of_cons; [cbn; lia|].
  rewrite Forall_forall in Hall. specialize (Hall c Hc).
  destruct c as [[r gr] b]. cbn in *. lia.
Qed.

(** X11. Every color of the palette has its three channels in 0..255, so
    the 8-bit color canvas stores it as it is: what is painted for a
    class is the palette entry itself. *)
Theorem palette_colors_are_stored_unchanged num_classes g class_id c :
  list_getitem (fst (generate_class_colors num_classes g)) class_id = Some c ->
  rgb8 c /\ clip8_rgb c = c.
Proof.
  intros Hc.
  assert (rgb8 c) as Hrgb.
  { apply (generate_class_colors_rgb8 num_classes g).
    unfold list_getitem in Hc.
    repeat case_decide; try done; by eapply list_elem_of_lookup_2. }
  split; [done|]. by apply clip8_rgb_id.
Qed.

Lemma palette_colors_are_stored_unchanged_witness :
  rgb8 (50, 127, 204) /\ clip8_rgb (50, 127, 204) = (50, 127, 204).
Proof.
  apply (palette_colors_are_stored_unchanged 2 sample_rng 1).
  vm_compute. reflexivity.
Defined.

(** ** The masks, pixel by pixel *)

Lemma pixel_paint {A} (region : nat -> nat -> bool) (ink : A) im x y :
  pixel (paint region ink im) x y
  = (fun old => if region x y then ink else old) <$> pixel im x y.
Proof.
  unfold pixel, paint. cbn [rows]. rewrite list_lookup_imap.
  destruct (rows im !! y) as [row|]; [|done]. cbn.
  by rewrite list_lookup_imap.
Qed.

Lemma pixel_filled {A} (w h : Z) (v : A) (x y : nat) :
  Z.of_nat x < w -> Z.of_nat y < h -> pixel (filled w h v) x y = Some v.
Proof.
  intros Hx Hy. unfold pixel, filled. cbn [rows].
  rewrite lookup_replicate_2 by lia. cbn.
  by rewrite lookup_replicate_2 by lia.
Qed.

Lemma well_formed_filled {A} (P : A -> Prop) (w h : Z) (v : A) :
  P v -> well_formed P w h (filled w h v).
Proof.
  intros Hv. unfold well_formed, filled. cbn [width height rows].
  split; [done|]. split; [done|]. split; [apply length_replicate|].
  apply Forall_replicate. split; [apply length_replicate|].
  by apply Forall_replicate.
Qed.

Lemma well_formed_paint {A} (P : A -> Prop) (w h : Z) region (ink : A) im :
  P ink -> well_formed P w h im -> well_formed P w h (paint region ink im).
Proof.
  intros Hink (Hw & Hh & Hlen & Hrows). unfold well_formed, paint.
  cbn [width height rows]. split; [done|]. split; [done|].
  split; [by rewrite length_imap|].
  apply Forall_forall. intros row' Hrow'.
  apply list_elem_of_lookup in Hrow' as [j Hj].
  rewrite list_lookup_imap in Hj.
  destruct (rows im !! j) as [row|] eqn:Hrow; [|done].
  cbn in Hj. injection Hj as <-.
  rewrite Forall_forall in Hrows.
  destruct (Hrows row) as [Hlenrow Hall];
    [by eapply list_elem_of_lookup_2|].
  split; [by rewrite length_imap|].
  apply Forall_forall. intros v Hv.
  apply list_elem_of_lookup in Hv as [i Hi].
  rewrite list_lookup_imap in Hi.
  destruct (row !! i) as [old|] eqn:Hold; [|done].
  cbn in Hi. injection Hi as <-.
  destruct (region i j); [done|].
  rewrite Forall_forall in Hall. apply Hall.
  by eapply list_elem_of_lookup_2.
Qed.

Lemma clip8_range v : 0 <= clip8 v <= 255.
Proof. unfold clip8. lia. Qed.

Lemma clip8_rgb_range c : rgb8 (clip8_rgb c).
Proof.
  destruct c as [[r g] b]. cbn.
  pose proof (clip8_range r). pose proof (clip8_range g).
  pose proof (clip8_range b). lia.
Qed.

Section Pixels.

Variable covers : list point -> nat -> nat -> bool.
Variable class_mapping : dict.
Variable class_colors : list color.

Lemma draw_shapes_app pre post : forall canvases w,
  draw_shapes covers class_mapping class_colors (pre ++ post) canvases w
  = (let* canvases' :=
       draw_shapes covers class_mapping class_colors pre canvases in
     draw_shapes covers class_mapping class_colors post canvases') w.
Proof.
  induction pre as [|s r IH]; intros canvases w; [done|].
  cbn [app draw_shapes]. unfold bind.
  destruct (draw_shape _ _ _ _ _ _) as [[c1|e] w1]; [|done].
  by rewrite IH.
Qed.

(** The canvases keep their size and their 8-bit pixels. *)
Lemma draw_shapes_well_formed shps w h : forall canvases wld canvases' wld',
  draw_shapes covers class_mapping class_colors shps canvases wld
  = (Done canvases', wld') ->
  well_formed (fun v => 0 <= v <= 255) w h (fst canvases) ->
  well_formed rgb8 w h (snd canvases) ->
  well_formed (fun v => 0 <= v <= 255) w h (fst canvases')
  /\ well_formed rgb8 w h (snd canvases').
Proof.
  induction shps as [|s r IH]; intros canvases wld canvases' wld' Hrun H1 H2.
  - cbn in Hrun. by injection Hrun as <- _.
  - cbn [draw_shapes] in Hrun. unfold bind in Hrun.
    destruct (draw_shape _ _ _ _ _ _) as [[c1|e] w1] eqn:Hs; [|done].
    apply draw_shape_done in Hs
      as (l & pts & _ & _ & [[_ ->]|(id & col & _ & _ & _ & _ & ->)]).
    + by eapply IH.
    + eapply IH; [done| |]; cbn [fst snd].
      * apply well_formed_paint; [apply clip8_range|done].
      * apply well_formed_paint; [apply clip8_rgb_range|done].
Qed.

(** Shapes that do not paint a pixel leave it as it is. *)
Lemma draw_shapes_pixel_kept shps x y : forall canvases wld canvases' wld',
  draw_shapes covers class_mapping class_colors shps canvases wld
  = (Done canvases', wld') ->
  Forall (fun s => paints covers class_mapping x y s = false) shps ->
  pixel (fst canvases') x y = pixel (fst canvases) x y
  /\ pixel (snd canvases') x y = pixel (snd canvases) x y.
Proof.
  induction shps as [|s r IH]; intros canvases wld canvases' wld' Hrun Hno.
  - cbn in Hrun. by injection Hrun as <- _.
  - cbn [draw_shapes] in Hrun. unfold bind in Hrun.
    apply Forall_cons in Hno as [Hs Hno].
    destruct (draw_shape _ _ _ _ _ _) as [[c1|e] w1] eqn:Hd; [|done].
    destruct (IH _ _ _ _ Hrun Hno) as [-> ->].
    apply draw_shape_done in Hd
      as (l & pts & Hl & Hpts & [[_ ->]|(id & col & Hmem & _ & _ & _ & ->)]);
      [done|].
    unfold paints in Hs. rewrite Hl, Hpts, Hmem in Hs. cbn in Hs.
    cbn [fst snd].
    rewrite !pixel_paint, Hs.
    by destruct (pixel canvases.1 x y), (pixel canvases.2 x y).
Qed.

Lemma draw_shapes_pixel_is_Some shps x y : forall canvases wld canvases' wld',
  draw_shapes covers class_mapping class_colors shps canvases wld
  = (Done canvases', wld') ->
  is_Some (pixel (fst canvases) x y) -> is_Some (pixel (snd canvases) x y) ->
  is_Some (pixel (fst canvases') x y) /\ is_Some (pixel (snd canvases') x y).
Proof.
  induction shps as [|s r IH]; intros canvases wld canvases' wld' Hrun H1 H2.
  - cbn in Hrun. by injection Hrun as <- _.
  - cbn [draw_shapes] in Hrun. unfold bind in Hrun.
    destruct (draw_shape _ _ _ _ _ _) as [[c1|e] w1] eqn:Hd; [|done].
    apply draw_shape_done in Hd
      as (l & pts & _ & _ & [[_ ->]|(id & col & _ & _ & _ & _ & ->)]).
    + by eapply IH.
    + eapply IH; [done| |]; cbn [fst snd]; rewrite pixel_paint;
        by apply fmap_is_Some.
Qed.

End Pixels.

(** X12. The two masks of a record always have the size the record
    declares, in rows of equal length, and hold 8-bit values: class ids
    and channels outside 0..255 never reach a mask. *)
Theorem masks_are_8_bit_images covers data class_mapping class_colors masks :
  masks_of covers data class_mapping class_colors = Done masks ->
  exists w h,
    imageWidth data = Some w /\ imageHeight data = Some h
    /\ well_formed (fun v => 0 <= v <= 255) w h (fst masks)
    /\ well_formed rgb8 w h (snd masks).
Proof.
  intros (w & h & shps & wld & Hw & Hh & _ & _ & _ & Hrun)%masks_of_done.
  exists w, h. split; [done|]. split; [done|].
  eapply draw_shapes_well_formed; [done| |]; cbn [fst snd].
  - by apply well_formed_filled.
  - by apply well_formed_filled.
Qed.

Lemma masks_are_8_bit_images_witness :
  exists w h,
    imageWidth (annotation 2 2 "a.png" [("256", full_canvas 2 2)]) = Some w
    /\ imageHeight (annotation 2 2 "a.png" [("256", full_canvas 2 2)]) = Some h
    /\ well_formed (fun v => 0 <= v <= 255) w h
         (Image 2 2 [[255; 255]; [255; 255]])
    /\ well_formed rgb8 w h (filled 2 2 (197, 198, 199)).
Proof.
  apply (masks_are_8_bit_images even_odd_covers
           (annotation 2 2 "a.png" [("256", full_canvas 2 2)])
           many_classes
           (fst (generate_class_colors 257 (Rng (fun n => Z.of_nat n) 0)))
           (Image 2 2 [[255; 255]; [255; 255]], filled 2 2 (197, 198, 199))).
  vm_compute. reflexivity.
Defined.

Section PaintOrder.

Variable covers : list point -> nat -> nat -> bool.
Variable class_mapping : dict.
Variable class_colors : list color.

(** X13. Paint order: a pixel of the masks shows the last shape of the
    record that is drawn and fills it. In the index mask it holds that
    shape's class id, clipped to 8 bits, and in the color mask the
    palette entry of that id; the two masks show the same shape. *)
Theorem last_painting_shape_wins data masks pre s post l pts class_id w h
    (x y : nat) :
  masks_of covers data class_mapping class_colors = Done masks ->
  imageWidth data = Some w -> imageHeight data = Some h ->
  Z.of_nat x < w -> Z.of_nat y < h ->
  shapes data = Some (pre ++ s :: post) ->
  label s = Some l -> points s = Some pts ->
  dict_get l class_mapping = Some class_id ->
  covers pts x y = true ->
  Forall (fun s' => paints covers class_mapping x y s' = false) post ->
  pixel (fst masks) x y = Some (clip8 class_id)
  /\ exists col,
       list_getitem class_colors class_id = Some col
       /\ pixel (snd masks) x y = Some (clip8_rgb col).
Proof.
  intros Hmasks Hw Hh Hx Hy Hshapes Hl Hpts Hget Hcov Hpost.
  apply masks_of_done in Hmasks
    as (w' & h' & shps & wld & Hw' & Hh' & Hshapes' & _ & _ & Hrun).
  assert (w' = w) as -> by congruence.
  assert (h' = h) as -> by congruence.
  assert (shps = pre ++ s :: post) as -> by congruence.
  rewrite draw_shapes_app in Hrun. unfold bind at 1 in Hrun.
  destruct (draw_shapes _ _ _ pre _ _) as [[c1|e] w1] eqn:Hpre; [|done].
  cbn [draw_shapes] in Hrun. unfold bind at 1 in Hrun.
  destruct (draw_shape _ _ _ c1 s w1) as [[c2|e] w2] eqn:Hs; [|done].
  destruct (draw_shapes_pixel_kept covers class_mapping class_colors post x y
              _ _ _ _ Hrun Hpost) as [-> ->].
  destruct (draw_shapes_pixel_is_Some covers class_mapping class_colors pre x y
              _ _ _ _ Hpre) as [[v Hv] [c Hc]].
  { cbn [fst]. rewrite pixel_filled by done. eauto. }
  { cbn [snd]. rewrite pixel_filled by done. eauto. }
  apply draw_shape_done in Hs
    as (l' & pts' & Hl' & Hpts' & [[Hmem _]|(id & col & _ & Hid & Hcol & _ & ->)]).
  - assert (l' = l) as -> by congruence.
    rewrite dict_mem_get, Hget in Hmem.
    by rewrite bool_decide_true in Hmem by eauto.
  - assert (l' = l) as -> by congruence.
    assert (pts' = pts) as -> by congruence.
    assert (id = class_id) as -> by congruence.
    cbn [fst snd].
    rewrite !pixel_paint, Hcov, Hv, Hc. split; [done|]. by exists col.
Qed.

(** X14. A pixel that no drawn shape fills keeps the value the canvases
    start with: 0 in the index mask and black in the color mask. *)
Theorem unpainted_pixels_are_background data masks shps w h (x y : nat) :
  masks_of covers data class_mapping class_colors = Done masks ->
  imageWidth data = Some w -> imageHeight data = Some h ->
  Z.of_nat x < w -> Z.of_nat y < h ->
  shapes data = Some shps ->
  Forall (fun s => paints covers class_mapping x y s = false) shps ->
  pixel (fst masks) x y = Some 0 /\ pixel (snd masks) x y = Some (0, 0, 0).
Proof.
  intros Hmasks Hw Hh Hx Hy Hshapes Hnone.
  apply masks_of_done in Hmasks
    as (w' & h' & shps' & wld & Hw' & Hh' & Hshapes' & _ & _ & Hrun).
  assert (w' = w) as -> by congruence.
  assert (h' = h) as -> by congruence.
  assert (shps' = shps) as -> by congruence.
  destruct (draw_shapes_pixel_kept covers class_mapping class_colors shps x y
              _ _ _ _ Hrun Hnone) as [-> ->].
  cbn [fst snd]. by rewrite !pixel_filled.
Qed.

End PaintOrder.

Lemma last_painting_shape_wins_witness :
  let masks :=
    (Image 4 4 [[2; 2; 1; 1]; [2; 2; 1; 1]; [1; 1; 1; 1]; [1; 1; 1; 1]],
     Image 4 4 [[(60, 70, 80); (60, 70, 80); (200, 100, 50); (200, 100, 50)];
                [(60, 70, 80); (60, 70, 80); (200, 100, 50); (200, 100, 50)];
                replicate 4 (200, 100, 50); replicate 4 (200, 100, 50)]) in
  pixel (fst masks) 1 1 = Some (clip8 2)
  /\ exists col,
       list_getitem [(0, 0, 0); (200, 100, 50); (60, 70, 80)] 2 = Some col
       /\ pixel (snd masks) 1 1 = Some (clip8_rgb col).
Proof.
  apply (last_painting_shape_wins even_odd_covers
           [("background", 0); ("cat", 1); ("dog", 2)]
           [(0, 0, 0); (200, 100, 50); (60, 70, 80)]
           overlapping_shapes _
           [JsonShape (Some "cat") (Some (full_canvas 4 4))]
           (JsonShape (Some "dog") (Some (full_canvas 2 2))) []
           "dog" (full_canvas 2 2) 2 4 4 1 1).
  - vm_compute. reflexivity.
  - reflexivity.
  - reflexivity.
  - lia.
  - lia.
  - reflexivity.
  - reflexivity.
  - reflexivity.
  - reflexivity.
  - vm_compute. reflexivity.
  - constructor.
Defined.

Lemma unpainted_pixels_are_background_witness :
  let masks :=
    (Image 4 4 [[2; 2; 0; 0]; [2; 2; 0; 0]; [0; 0; 0; 0]; [0; 0; 0; 0]],
     Image 4 4 [[(60, 70, 80); (60, 70, 80); (0, 0, 0); (0, 0, 0)];
                [(60, 70, 80); (60, 70, 80); (0, 0, 0); (0, 0, 0)];
                replicate 4 (0, 0, 0); replicate 4 (0, 0, 0)]) in
  pixel (fst masks) 3 0 = Some 0 /\ pixel (snd masks) 3 0 = Some (0, 0, 0).
Proof.
  apply (unpainted_pixels_are_background even_odd_covers
           [("background", 0); ("dog", 2)]
           [(0, 0, 0); (200, 100, 50); (60, 70, 80)]
           overlapping_shapes _
           [JsonShape (Some "cat") (Some (full_canvas 4 4));
            JsonShape (Some "dog") (Some (full_canvas 2 2))] 4 4 3 0).
  - vm_compute. reflexivity.
  - reflexivity.
  - reflexivity.
  - lia.
  - lia.
  - reflexivity.
  - repeat constructor.
Defined.

(** ** What [json_to_mask] writes *)

Section Footprint.

Variable covers : list point -> nat -> nat -> bool.
Variables json_path masks_dir color_masks_dir : string.
Variable class_mapping : dict.
Variable class_colors : list color.

Local Abbreviation to_mask :=
  (json_to_mask covers json_path masks_dir color_masks_dir
                class_mapping class_colors).

(** X15. [json_to_mask] writes last. A run that ends normally has
    written both masks: the two mask paths hold the masks of the record
    and no other path has changed. A run that raises leaves all files as
    they were, with two exceptions: the index mask is written and the
    path of the color mask is a directory; or the canvas has no pixels
    and the path of the index mask held a file, which is left as the
    beginning of an image. *)
Theorem json_to_mask_writes_last w :
  let run :=
    json_to_mask covers json_path masks_dir color_masks_dir
                 class_mapping class_colors w in
  (fst run = Done tt ->
   exists data path masks,
     files w !! json_path = Some (JsonFile data)
     /\ imagePath data = Some path
     /\ masks_of covers data class_mapping class_colors = Done masks
     /\ files (snd run)
        = with_masks (files w) masks_dir color_masks_dir path masks
     /\ files (snd run) !! color_mask_path_of color_masks_dir path
        = Some (ImageRGB (snd masks))
     /\ (mask_path_of masks_dir path
         ≠ color_mask_path_of color_masks_dir path ->
         files (snd run) !! mask_path_of masks_dir path
         = Some (ImageL (fst masks)))
     /\ forall q,
          q ≠ mask_path_of masks_dir path ->
          q ≠ color_mask_path_of color_masks_dir path ->
          files (snd run) !! q = files w !! q)
  /\ (forall e,
        fst run = Raised e ->
        files (snd run) = files w
        \/ exists data path masks,
             files w !! json_path = Some (JsonFile data)
             /\ imagePath data = Some path
             /\ masks_of covers data class_mapping class_colors = Done masks
             /\ ((e = IsADirectoryError
                         (color_mask_path_of color_masks_dir path)
                  /\ files (snd run)
                     = <[mask_path_of masks_dir path := ImageL (fst masks)]>
                         (files w))
                 \/ (e = ValueError
                     /\ (width (fst masks) = 0 \/ height (fst masks) = 0)
                     /\ is_Some (files w !! mask_path_of masks_dir path)
                     /\ files (snd run)
                        = <[mask_path_of masks_dir path := PartialImage]>
                            (files w)))).
Proof.
  intros run. unfold run. clear run.
  destruct (to_mask w) as [r w1] eqn:Hrun. cbn [fst snd]. split.
  - intros ->.
    apply json_to_mask_Done_inv in Hrun
      as (data & path & masks & Hf & Hp & Hm & _ & _ & _ & _ & ->).
    exists data, path, masks. do 4 (split; [done|]).
    cbn [files]. unfold with_masks. split; [by rewrite lookup_insert_eq|].
    split.
    + intros Hne. by rewrite lookup_insert_ne, lookup_insert_eq.
    + intros q Hq1 Hq2. by rewrite !lookup_insert_ne.
  - intros e ->. revert Hrun.
    unfold json_to_mask, bind at 1, load_json.
    destruct (files w !! json_path) as [[ | data | | | | | ]|] eqn:Hf;
      try (intros [= <- <-]; by left).
    unfold bind at 1. rewrite console_only_rasterize.
    fold (masks_of covers data class_mapping class_colors).
    fold (warnings_of covers data class_mapping class_colors).
    destruct (masks_of covers data class_mapping class_colors) as [masks|e']
      eqn:Hm; [|intros [= <- <-]; by left].
    unfold bind at 1. destruct (imagePath data) as [path|] eqn:Hp;
      [|intros [= <- <-]; by left].
    cbn [getitem ret]. unfold bind at 1.
    destruct (save ImageL _ _ _) as [[[]|e1] w2] eqn:Hs1.
    + apply save_Done_inv in Hs1 as (_ & _ & Hw1 & Hh1 & ->).
      destruct (masks_of_size covers data class_mapping class_colors masks Hm)
        as (iw & ih & _ & _ & _ & _ & E1 & E2 & E3 & E4).
      unfold bind.
      destruct (save ImageRGB _ _ _) as [[[]|e2] w3] eqn:Hs2; [done|].
      apply save_nonempty_Raised in Hs2 as [-> ->];
        [|apply color_mask_path_extension|congruence..].
      intros [= <- <-]. right. exists data, path, masks.
      do 3 (split; [done|]). by left.
    + intros [= <- <-].
      apply save_Raised_inv in Hs1 as (_ & [Hfs|(-> & Hdim & Hsome & Hfs)]);
        [by left|].
      right. exists data, path, masks. do 3 (split; [done|]). by right.
Qed.

(** X16. Running [json_to_mask] again on the files it has left, with the
    annotation still in place, writes the same two masks again and
    changes nothing. *)
Theorem json_to_mask_again w w1 :
  json_to_mask covers json_path masks_dir color_masks_dir
               class_mapping class_colors w = (Done tt, w1) ->
  files w1 !! json_path = files w !! json_path ->
  exists w2,
    json_to_mask covers json_path masks_dir color_masks_dir
                 class_mapping class_colors w1 = (Done tt, w2)
    /\ files w2 = files w1.
Proof.
  intros Hrun Hsame.
  destruct (json_to_mask_Done_inv covers json_path masks_dir color_masks_dir
              class_mapping class_colors w w1 Hrun)
    as (data & path & masks & Hf & Hp & Hm & Hmp & Hext & Hw1 & Hh1 & ->).
  cbn [files] in Hsame.
  eexists. split.
  - apply (json_to_mask_saved covers json_path masks_dir color_masks_dir
             class_mapping class_colors _ data masks path);
      cbn [files]; try done; [congruence| |].
    + unfold with_masks.
      rewrite lookup_insert. case_decide; [done|].
      by rewrite lookup_insert_eq.
    + unfold with_masks. by rewrite lookup_insert_eq.
  - cbn [files]. unfold with_masks. apply map_eq. intros q.
    rewrite !lookup_insert. repeat case_decide; done.
Qed.

End Footprint.

Lemma json_to_mask_again_witness :
  exists w2,
    json_to_mask even_odd_covers "all/a.json" "out/masks" "out/color_masks"
      [("background", 0); ("cat", 1)] [(0, 0, 0); (200, 100, 50)]
      (World (with_masks (files cat_4x4) "out/masks" "out/color_masks" "a.png"
                (filled 4 4 1, filled 4 4 (200, 100, 50)))
             [MasksCreated "out/masks/a.png" "out/color_masks/a_color.png"])
    = (Done tt, w2)
    /\ files w2
       = with_masks (files cat_4x4) "out/masks" "out/color_masks" "a.png"
           (filled 4 4 1, filled 4 4 (200, 100, 50)).
Proof.
  apply (json_to_mask_again even_odd_covers "all/a.json" "out/masks"
           "out/color_masks" [("background", 0); ("cat", 1)]
           [(0, 0, 0); (200, 100, 50)] cat_4x4
           (World (with_masks (files cat_4x4) "out/masks" "out/color_masks"
                     "a.png" (filled 4 4 1, filled 4 4 (200, 100, 50)))
                  [MasksCreated "out/masks/a.png"
                                "out/color_masks/a_color.png"])).
  - vm_compute. reflexivity.
  - vm_compute. reflexivity.
Defined.

(** ** The copy of the image *)

(** The image the batch looks for has the file name of [imagePath]. *)
Lemma image_path_basename input_dir path :
  PosixPath.basename (image_path_of input_dir path) = PosixPath.basename path.
Proof.
  unfold image_path_of. destruct (PosixPath.isabs path); cbn [negb]; [done|].
  apply basename_join. by apply basename_from_no_sep.
Qed.

Section Copy.

Variable covers : list point -> nat -> nat -> bool.
Variables input_dir images_dir masks_dir color_masks_dir : string.
Variable class_mapping : dict.
Variable class_colors : list color.

Local Abbreviation step :=
  (process_file covers input_dir images_dir masks_dir color_masks_dir
                class_mapping class_colors).

(** X17. Once the masks of a record are drawn and can be saved (a canvas
    with pixels, a file name with an extension, no directory at their
    paths), an image that exists is copied, with its content, into the
    images directory under the file name of [imagePath], whatever
    directories that path names; the copy is announced and the record
    counts as processed. *)
Theorem existing_image_is_copied st filename data masks path :
  let w := batch_world st in
  let json_path := PosixPath.join input_dir filename in
  let image_path := image_path_of input_dir path in
  let output_image_path :=
    PosixPath.join images_dir (PosixPath.basename path) in
  let mask_path := mask_path_of masks_dir path in
  let color_mask_path := color_mask_path_of color_masks_dir path in
  let fs1 := with_masks (files w) masks_dir color_masks_dir path masks in
  PosixPath.endswith ".json" filename = true ->
  files w !! json_path = Some (JsonFile data) ->
  imagePath data = Some path ->
  masks_of covers data class_mapping class_colors = Done masks ->
  savable data = true ->
  files w !! mask_path ≠ Some Directory ->
  files w !! color_mask_path ≠ Some Directory ->
  copyable fs1 image_path output_image_path ->
  exists f,
    fs1 !! image_path = Some f
    /\ step st filename
       = Batch (processed_count st + 1) (error_count st)
           (World (<[output_image_path := f]> fs1)
              (console w ++ warnings_of covers data class_mapping class_colors
               ++ [MasksCreated mask_path color_mask_path;
                   ImageCopied output_image_path])).
Proof.
  intros w json_path image_path output_image_path mask_path color_mask_path
    fs1 Hext Hfile Hpath Hmasks Hsav Hmp Hcp Hcopy.
  rewrite (process_file_rasterized covers input_dir images_dir masks_dir
             color_masks_dir class_mapping class_colors st filename data
             masks path Hext Hfile Hpath Hmasks Hsav Hmp Hcp).
  cbn [files]. rewrite image_path_basename.
  fold w fs1 image_path mask_path color_mask_path output_image_path.
  destruct (copy2_copyable fs1
              (console w ++ warnings_of covers data class_mapping class_colors
               ++ [MasksCreated mask_path color_mask_path])
              image_path output_image_path Hcopy) as (f & Hf & Hc2).
  exists f. split; [done|].
  rewrite Hf, bool_decide_true by eauto.
  unfold bind. rewrite Hc2. unfold print. cbn.
  by rewrite <- !app_assoc.
Qed.

(** X18. When the image already lies where it would be copied, as it
    does when the batch reads from its own images directory, [copy2]
    raises [SameFileError]: the masks of a record that is drawn and can
    be saved are written, yet the record is counted as an error. *)
Theorem image_in_place_is_an_error st filename data masks path f :
  let w := batch_world st in
  let json_path := PosixPath.join input_dir filename in
  let image_path := image_path_of input_dir path in
  let mask_path := mask_path_of masks_dir path in
  let color_mask_path := color_mask_path_of color_masks_dir path in
  let fs1 := with_masks (files w) masks_dir color_masks_dir path masks in
  PosixPath.endswith ".json" filename = true ->
  files w !! json_path = Some (JsonFile data) ->
  imagePath data = Some path ->
  masks_of covers data class_mapping class_colors = Done masks ->
  savable data = true ->
  files w !! mask_path ≠ Some Directory ->
  files w !! color_mask_path ≠ Some Directory ->
  fs1 !! image_path = Some f -> f ≠ Directory ->
  PosixPath.join images_dir (PosixPath.basename path) = image_path ->
  step st filename
  = Batch (processed_count st) (error_count st + 1)
      (World fs1
         (console w ++ warnings_of covers data class_mapping class_colors
          ++ [MasksCreated mask_path color_mask_path;
              ErrorProcessing json_path (SameFileError image_path)])).
Proof.
  intros w json_path image_path mask_path color_mask_path fs1
    Hext Hfile Hpath Hmasks Hsav Hmp Hcp Hf Hnd Hsame.
  rewrite (process_file_rasterized covers input_dir images_dir masks_dir
             color_masks_dir class_mapping class_colors st filename data
             masks path Hext Hfile Hpath Hmasks Hsav Hmp Hcp).
  cbn [files]. rewrite image_path_basename.
  fold w fs1 image_path mask_path color_mask_path json_path.
  rewrite Hsame, Hf, bool_decide_true by eauto.
  unfold bind, copy2. cbn [files]. rewrite Hf.
  assert ((match f with
           | Directory =>
               PosixPath.join image_path (PosixPath.basename image_path)
           | _ => image_path
           end) = image_path) as -> by (by destruct f).
  rewrite decide_True by done. unfold print. cbn.
  by rewrite <- !app_assoc.
Qed.

End Copy.

Lemma existing_image_is_copied_witness :
  let fs1 :=
    with_masks (files unknown_label) "out/masks" "out/color_masks" "a.png"
      (filled 4 4 0, filled 4 4 (0, 0, 0)) in
  exists f,
    fs1 !! image_path_of "all" "a.png" = Some f
    /\ process_file even_odd_covers "all" "out/images" "out/masks"
         "out/color_masks" [("background", 0)] [(0, 0, 0)]
         (Batch 0 0 unknown_label) "a.json"
       = Batch (0 + 1) 0
           (World (<[PosixPath.join "out/images" (PosixPath.basename "a.png")
                     := f]> fs1)
              (console unknown_label
               ++ warnings_of even_odd_covers
                    (annotation 4 4 "a.png" [("unknown_xyz", full_canvas 4 4)])
                    [("background", 0)] [(0, 0, 0)]
               ++ [MasksCreated (mask_path_of "out/masks" "a.png")
                     (color_mask_path_of "out/color_masks" "a.png");
                   ImageCopied
                     (PosixPath.join "out/images" (PosixPath.basename "a.png"))])).
Proof.
  apply (existing_image_is_copied even_odd_covers "all" "out/images"
           "out/masks" "out/color_masks" [("background", 0)] [(0, 0, 0)]
           (Batch 0 0 unknown_label) "a.json"
           (annotation 4 4 "a.png" [("unknown_xyz", full_canvas 4 4)])
           (filled 4 4 0, filled 4 4 (0, 0, 0)) "a.png").
  - reflexivity.
  - reflexivity.
  - reflexivity.
  - vm_compute. reflexivity.
  - reflexivity.
  - vm_compute. congruence.
  - vm_compute. congruence.
  - split; [vm_compute; congruence|]. split; [vm_compute; congruence|].
    exists (OtherFile "pixels of a"). split; [reflexivity|congruence].
Defined.

Lemma image_in_place_is_an_error_witness :
  let st := Batch 0 0 image_in_place in
  let fs1 :=
    with_masks (files (batch_world st)) "out/masks" "out/color_masks" "a.png"
      (filled 4 4 1, filled 4 4 (200, 100, 50)) in
  process_file even_odd_covers "out/images" "out/images" "out/masks"
    "out/color_masks" [("background", 0); ("cat", 1)]
    [(0, 0, 0); (200, 100, 50)] st "a.json"
  = Batch 0 (0 + 1)
      (World fs1
         (console (batch_world st)
          ++ warnings_of even_odd_covers
               (annotation 4 4 "a.png" [("cat", full_canvas 4 4)])
               [("background", 0); ("cat", 1)] [(0, 0, 0); (200, 100, 50)]
          ++ [MasksCreated (mask_path_of "out/masks" "a.png")
                (color_mask_path_of "out/color_masks" "a.png");
              ErrorProcessing (PosixPath.join "out/images" "a.json")
                (SameFileError (image_path_of "out/images" "a.png"))])).
Proof.
  apply (image_in_place_is_an_error even_odd_covers "out/images" "out/images"
           "out/masks" "out/color_masks" [("background", 0); ("cat", 1)]
           [(0, 0, 0); (200, 100, 50)] (Batch 0 0 image_in_place) "a.json"
           (annotation 4 4 "a.png" [("cat", full_canvas 4 4)])
           (filled 4 4 1, filled 4 4 (200, 100, 50)) "a.png"
           (OtherFile "pixels of a")).
  - reflexivity.
  - reflexivity.
  - reflexivity.
  - vm_compute. reflexivity.
  - reflexivity.
  - vm_compute. congruence.
  - vm_compute. congruence.
  - reflexivity.
  - congruence.
  - reflexivity.
Defined.

(** ** Where the batch writes *)

Lemma startswith_prefix (a y : string) : PosixPath.startswith a (a +:+ y) = true.
Proof.
  rewrite <- (string_app_empty_r a) at 1. by rewrite startswith_app.
Qed.

Lemma startswith_app_r (p x y : string) :
  PosixPath.startswith p x = true -> PosixPath.startswith p (x +:+ y) = true.
Proof.
  revert x. induction p as [|a p IH]; intros x; [done|].
  destruct x as [|b x]; [done|]. rewrite app_cons. cbn.
  destruct (decide (a = b)); [apply IH|done].
Qed.

Lemma startswith_trans (p x y : string) :
  PosixPath.startswith p x = true -> PosixPath.startswith x y = true ->
  PosixPath.startswith p y = true.
Proof.
  revert x y. induction p as [|a p IH]; intros x y; [done|].
  destruct x as [|b x]; [done|]. destruct y as [|c y]; [done|]. cbn.
  destruct (decide (a = b)) as [->|]; [|done].
  destruct (decide (b = c)) as [->|]; [|done].
  apply IH.
Qed.

Lemma startswith_join (p x b : string) :
  PosixPath.startswith p x = true -> has_sep b = false ->
  PosixPath.startswith p (PosixPath.join x b) = true.
Proof.
  intros Hx Hb. unfold PosixPath.join.
  rewrite no_sep_not_absolute by done.
  destruct (decide (x = "")) as [->|]; [by destruct p|].
  destruct (PosixPath.endswith "/" x); by apply startswith_app_r.
Qed.

(** A relative path joined to one of the output directories lies in that
    directory. *)
Lemma output_path_inside output_base_dir name b c :
  last_char name = Some c -> c ≠ "/"%char ->
  PosixPath.startswith "/" name = false ->
  PosixPath.startswith "/" b = false ->
  PosixPath.startswith (PosixPath.join output_base_dir name +:+ "/")
    (PosixPath.join (PosixPath.join output_base_dir name) b) = true.
Proof.
  intros Hlast Hc Hname Hb.
  rewrite (join_under output_base_dir name b c) by done.
  rewrite (join_relative output_base_dir name) by done.
  rewrite <- !string_app_assoc. apply startswith_prefix.
Qed.

Lemma output_directory_under output_base_dir name :
  PosixPath.startswith "/" name = false ->
  PosixPath.startswith (PosixPath.join output_base_dir "")
    (PosixPath.join output_base_dir name +:+ "/") = true.
Proof.
  intros Hname. rewrite (join_relative output_base_dir name) by done.
  rewrite string_app_assoc. apply startswith_prefix.
Qed.

(** The output area lies under the output directory. *)
Lemma output_area_under output_base_dir q :
  PosixPath.startswith (PosixPath.join output_base_dir "") q = false ->
  output_area output_base_dir q = false.
Proof.
  intros Hq. unfold output_area.
  assert (forall name,
            PosixPath.startswith "/" name = false ->
            PosixPath.startswith (PosixPath.join output_base_dir name +:+ "/") q
            = false) as Hdir.
  { intros name Hname.
    destruct (PosixPath.startswith (PosixPath.join output_base_dir name +:+ "/") q)
      eqn:E; [|reflexivity].
    rewrite <- Hq. symmetry.
    by apply (startswith_trans _ _ _ (output_directory_under _ name Hname)). }
  rewrite !Hdir by done. cbn. apply bool_decide_eq_false. intros ->.
  rewrite (join_relative _ "class_colors.txt") in Hq by done.
  by rewrite startswith_prefix in Hq.
Qed.

Lemma writes_only_console_only {A} area (m : M A) :
  console_only m -> writes_only area m.
Proof. intros H w q Hq. by rewrite (H w). Qed.

Lemma writes_only_load_json area path : writes_only area (load_json path).
Proof.
  intros w q Hq. unfold load_json. by destruct (files w !! path) as [[]|].
Qed.

Lemma writes_only_path_exists area path : writes_only area (path_exists path).
Proof. by intros w q Hq. Qed.

Lemma writes_only_write_file (area : string -> bool) path f :
  area path = true -> writes_only area (write_file path f).
Proof.
  intros Hp w q Hq. unfold write_file.
  destruct (files w !! path) as [[]|]; cbn; try done;
    (rewrite lookup_insert_ne; [done|congruence]).
Qed.

Lemma writes_only_save {A} (area : string -> bool) (wrap : image A -> file)
    im path :
  area path = true -> writes_only area (save wrap im path).
Proof.
  intros Hp w q Hq. unfold save. case_bool_decide; [done|].
  destruct (files w !! path) as [[]|]; try done; case_bool_decide; cbn;
    try done; (rewrite lookup_insert_ne; [done|congruence]).
Qed.

Lemma writes_only_bind {A B} area (m : M A) (k : A -> M B) :
  writes_only area m -> (forall a, writes_only area (k a)) ->
  writes_only area (bind m k).
Proof.
  intros Hm Hk w q Hq. unfold bind. specialize (Hm w q Hq).
  destruct (m w) as [[a|e] w1]; [|done].
  cbn in Hm. rewrite <- Hm. by apply Hk.
Qed.

Lemma writes_only_copy2 (area : string -> bool) prefix src dst :
  (forall q, PosixPath.startswith prefix q = true -> area q = true) ->
  PosixPath.startswith prefix dst = true ->
  writes_only area (copy2 src dst).
Proof.
  intros Harea Hdst w q Hq. unfold copy2.
  set (dst' := match files w !! dst with
               | Some Directory => PosixPath.join dst (PosixPath.basename src)
               | _ => dst end).
  assert (PosixPath.startswith prefix dst' = true) as Hdst'.
  { unfold dst'. destruct (files w !! dst) as [[]|]; try done.
    apply startswith_join; [done|]. by apply basename_from_no_sep. }
  case_decide; [done|].
  destruct (files w !! src) as [f|]; [|done].
  destruct f;
    first [done | apply (writes_only_write_file area); by auto].
Qed.

Lemma mask_path_in_output output_base_dir path :
  output_area output_base_dir
    (mask_path_of (PosixPath.join output_base_dir "masks") path) = true.
Proof.
  pose proof (image_name_no_sep path) as Hname.
  unfold output_area, mask_path_of.
  rewrite (output_path_inside _ "masks" _ "s"%char);
    try done; [by rewrite orb_true_r|by apply no_sep_relative].
Qed.

Lemma color_mask_path_in_output output_base_dir path :
  output_area output_base_dir
    (color_mask_path_of (PosixPath.join output_base_dir "color_masks") path)
  = true.
Proof.
  pose proof (image_name_no_sep path) as Hname.
  unfold output_area, color_mask_path_of.
  rewrite (output_path_inside _ "color_masks" _ "s"%char);
    try done; [by rewrite orb_true_r|by apply no_sep_relative_underscore].
Qed.

Lemma output_image_path_in_output output_base_dir path :
  output_area output_base_dir
    (PosixPath.join (PosixPath.join output_base_dir "images")
       (PosixPath.basename path)) = true.
Proof.
  unfold output_area.
  rewrite (output_path_inside _ "images" _ "s"%char); try done.
  apply no_sep_not_absolute. by apply basename_from_no_sep.
Qed.

Section Layout.

Variable covers : list point -> nat -> nat -> bool.
Variables input_dir output_base_dir : string.
Variable class_mapping : dict.
Variable class_colors : list color.

Local Abbreviation images_dir := (PosixPath.join output_base_dir "images").
Local Abbreviation masks_dir := (PosixPath.join output_base_dir "masks").
Local Abbreviation color_masks_dir :=
  (PosixPath.join output_base_dir "color_masks").
Local Abbreviation in_output := (writes_only (output_area output_base_dir)).

Lemma writes_only_json_to_mask json_path :
  in_output (json_to_mask covers json_path masks_dir color_masks_dir
                          class_mapping class_colors).
Proof.
  unfold json_to_mask.
  apply writes_only_bind; [apply writes_only_load_json|intros data].
  apply writes_only_bind;
    [apply writes_only_console_only, console_only_rasterize|intros masks].
  apply writes_only_bind;
    [apply writes_only_console_only, console_only_getitem|intros path].
  apply writes_only_bind; [|intros _].
  { apply writes_only_save, mask_path_in_output. }
  apply writes_only_bind; [|intros _].
  { apply writes_only_save, color_mask_path_in_output. }
  apply writes_only_console_only, console_only_print.
Qed.

Lemma writes_only_handle_record json_path :
  in_output (handle_record covers input_dir images_dir masks_dir
                           color_masks_dir class_mapping class_colors
                           json_path).
Proof.
  unfold handle_record.
  apply writes_only_bind; [apply writes_only_json_to_mask|intros _].
  apply writes_only_bind; [apply writes_only_load_json|intros data].
  apply writes_only_bind;
    [apply writes_only_console_only, console_only_getitem|intros path].
  apply writes_only_bind; [apply writes_only_path_exists|intros found].
  destruct found.
  - apply writes_only_bind; [|intros _].
    + apply (writes_only_copy2 _ (images_dir +:+ "/")).
      * intros q Hq. unfold output_area. by rewrite Hq.
      * apply (output_path_inside _ "images" _ "s"%char); try done.
        apply no_sep_not_absolute. by apply basename_from_no_sep.
    + apply writes_only_console_only, console_only_print.
  - apply writes_only_console_only, console_only_print.
Qed.

Lemma process_file_in_output st filename q :
  output_area output_base_dir q = false ->
  files (batch_world
           (process_file covers input_dir images_dir masks_dir
              color_masks_dir class_mapping class_colors st filename)) !! q
  = files (batch_world st) !! q.
Proof.
  intros Hq. unfold process_file.
  destruct (PosixPath.endswith ".json" filename); [|done].
  pose proof (writes_only_handle_record (PosixPath.join input_dir filename)
                (batch_world st) q Hq) as H.
  by destruct (handle_record _ _ _ _ _ _ _ _ _) as [[[]|e] w].
Qed.

Lemma batch_in_output listing : forall st q,
  output_area output_base_dir q = false ->
  files (batch_world
           (fold_left (process_file covers input_dir images_dir masks_dir
                         color_masks_dir class_mapping class_colors)
                      listing st)) !! q
  = files (batch_world st) !! q.
Proof.
  induction listing as [|f r IH]; intros st q Hq; cbn [fold_left]; [done|].
  rewrite IH by done. by apply process_file_in_output.
Qed.

Lemma writes_only_write_class_colors :
  in_output (write_class_colors output_base_dir class_mapping class_colors).
Proof.
  intros w q Hq. unfold write_class_colors.
  assert (q ≠ PosixPath.join output_base_dir "class_colors.txt") as Hne.
  { intros ->. unfold output_area in Hq.
    rewrite bool_decide_true, !orb_true_r in Hq by done. done. }
  destruct (files w !! _) as [[]|]; try done;
    destruct (color_lines class_mapping class_colors) as [ls e]; cbn;
    by rewrite lookup_insert_ne.
Qed.

End Layout.

Lemma process_labelme_folder_in_output covers input_dir output_base_dir
    class_mapping listing g :
  writes_only (output_area output_base_dir)
    (process_labelme_folder covers input_dir output_base_dir class_mapping
                            listing g).
Proof.
  intros w q Hq. rewrite process_labelme_folder_report.
  set (class_colors := fst (generate_class_colors _ g)).
  set (st := fold_left _ listing (Batch 0 0 w)).
  set (w1 := World (files (batch_world st)) _).
  pose proof (writes_only_write_class_colors output_base_dir class_mapping
                class_colors w1 q Hq) as Hr.
  assert (files w1 !! q = files w !! q) as <-.
  { unfold w1, st. cbn [files].
    by rewrite (batch_in_output covers input_dir output_base_dir
                  class_mapping class_colors listing (Batch 0 0 w) q Hq). }
  by destruct (write_class_colors _ _ _ _) as [[[]|e] w2].
Qed.

(** X19. [process_labelme_folder] writes in its three output directories
    and its report, and nowhere else: a path outside them holds after
    the run what it held before. All of this lies under the output
    directory, so the annotations and the images of an input directory
    outside it are never modified. *)
Theorem batch_writes_under_output covers input_dir output_base_dir
    class_mapping listing g w q :
  let run :=
    process_labelme_folder covers input_dir output_base_dir class_mapping
                           listing g w in
  (output_area output_base_dir q = false ->
   files (snd run) !! q = files w !! q)
  /\ (PosixPath.startswith (PosixPath.join output_base_dir "") q = false ->
      files (snd run) !! q = files w !! q).
Proof.
  intros run. split; intros Hq.
  - by apply process_labelme_folder_in_output.
  - by apply process_labelme_folder_in_output, output_area_under.
Qed.

Lemma batch_writes_under_output_witness :
  files (snd (process_labelme_folder even_odd_covers "all" "out"
                [("background", 0)] ["a.json"] sample_rng unknown_label))
    !! "all/a.png"
  = files unknown_label !! "all/a.png".
Proof.
  apply (proj2 (batch_writes_under_output even_odd_covers "all" "out"
                  [("background", 0)] ["a.json"] sample_rng unknown_label
                  "all/a.png")).
  reflexivity.
Defined.

(** ** The names of the masks *)

(** X20. The masks are named after the file name of [imagePath] without
    its last extension, whatever directory the path names: for an image
    [dir/stem.ext] they are [stem.png] and [stem_color.png] in their
    directories. *)
Theorem masks_are_named_after_the_stem masks_dir color_masks_dir dir stem ext :
  has_sep stem = false -> has_sep ext = false ->
  has_nondot stem = true -> has_dot ext = false ->
  let path := dir +:+ "/" +:+ stem +:+ "." +:+ ext in
  image_name_of path = stem
  /\ image_name_of (stem +:+ "." +:+ ext) = stem
  /\ mask_path_of masks_dir path = PosixPath.join masks_dir (stem +:+ ".png")
  /\ color_mask_path_of color_masks_dir path
     = PosixPath.join color_masks_dir (stem +:+ "_color.png").
Proof.
  intros Hstem Hext Hnd Hdot path.
  assert (has_sep (stem +:+ "." +:+ ext) = false) as Hsep.
  { by rewrite !has_sep_app, Hstem, Hext. }
  assert (image_name_of path = stem) as Hname.
  { unfold image_name_of, path, PosixPath.basename.
    rewrite basename_from_app. change ("/" +:+ stem +:+ "." +:+ ext)
      with (String "/" (stem +:+ "." +:+ ext)).
    cbn [PosixPath.basename_from]. rewrite decide_True by done.
    rewrite basename_from_plain, app_empty_l by done.
    by apply splitext_root_stem. }
  split; [done|]. split.
  - unfold image_name_of, PosixPath.basename.
    rewrite basename_from_plain, app_empty_l by done.
    by apply splitext_root_stem.
  - unfold mask_path_of, color_mask_path_of. by rewrite Hname.
Qed.

Lemma masks_are_named_after_the_stem_witness :
  let path := "photos/2024" +:+ "/" +:+ "img.v2" +:+ "." +:+ "jpeg" in
  image_name_of path = "img.v2"
  /\ image_name_of ("img.v2" +:+ "." +:+ "jpeg") = "img.v2"
  /\ mask_path_of "out/masks" path
     = PosixPath.join "out/masks" ("img.v2" +:+ ".png")
  /\ color_mask_path_of "out/color_masks" path
     = PosixPath.join "out/color_masks" ("img.v2" +:+ "_color.png").
Proof.
  apply (masks_are_named_after_the_stem "out/masks" "out/color_masks"
           "photos/2024" "img.v2" "jpeg"); reflexivity.
Defined.

Section Overwrite.

Variable covers : list point -> nat -> nat -> bool.
Variables masks_dir color_masks_dir : string.
Variable class_mapping : dict.
Variable class_colors : list color.

(** X21. The masks of two records whose images have the same name
    without extension go to the same two paths. Rasterizing the second
    record overwrites the masks of the first: the files are those the
    second record alone would have left. *)
Theorem same_name_overwrites_masks json_path1 json_path2 w w1 w2
    data1 data2 path1 path2 :
  json_to_mask covers json_path1 masks_dir color_masks_dir
               class_mapping class_colors w = (Done tt, w1) ->
  json_to_mask covers json_path2 masks_dir color_masks_dir
               class_mapping class_colors w1 = (Done tt, w2) ->
  files w !! json_path1 = Some (JsonFile data1) ->
  imagePath data1 = Some path1 ->
  files w1 !! json_path2 = Some (JsonFile data2) ->
  imagePath data2 = Some path2 ->
  image_name_of path1 = image_name_of path2 ->
  mask_path_of masks_dir path1 = mask_path_of masks_dir path2
  /\ color_mask_path_of color_masks_dir path1
     = color_mask_path_of color_masks_dir path2
  /\ exists masks2,
       masks_of covers data2 class_mapping class_colors = Done masks2
       /\ files w2
          = with_masks (files w) masks_dir color_masks_dir path2 masks2.
Proof.
  intros Hrun1 Hrun2 Hf1 Hp1 Hf2 Hp2 Hname.
  assert (mask_path_of masks_dir path1 = mask_path_of masks_dir path2) as Hm.
  { unfold mask_path_of. by rewrite Hname. }
  assert (color_mask_path_of color_masks_dir path1
          = color_mask_path_of color_masks_dir path2) as Hc.
  { unfold color_mask_path_of. by rewrite Hname. }
  split; [done|]. split; [done|].
  apply json_to_mask_Done_inv in Hrun1
    as (d1 & p1 & masks1 & Hf1' & Hp1' & Hm1 & _ & _ & _ & _ & ->).
  apply json_to_mask_Done_inv in Hrun2
    as (d2 & p2 & masks2 & Hf2' & Hp2' & Hm2 & _ & _ & _ & _ & ->).
  assert (d1 = data1) as -> by congruence.
  assert (p1 = path1) as -> by congruence.
  assert (d2 = data2) as -> by congruence.
  assert (p2 = path2) as -> by congruence.
  exists masks2. split; [done|]. cbn [files]. unfold with_masks.
  rewrite Hm, Hc. apply map_eq. intros q.
  rewrite !lookup_insert. repeat case_decide; done.
Qed.

End Overwrite.

Lemma same_name_overwrites_masks_witness :
  let to_mask json_path :=
    json_to_mask even_odd_covers json_path "out/masks" "out/color_masks"
      [("background", 0); ("cat", 1); ("dog", 2)]
      [(0, 0, 0); (200, 100, 50); (60, 70, 80)] in
  let w1 := snd (to_mask "all/a.json" same_image_name) in
  let w2 := snd (to_mask "all/b.json" w1) in
  mask_path_of "out/masks" "a.png" = mask_path_of "out/masks" "sub/a.jpg"
  /\ color_mask_path_of "out/color_masks" "a.png"
     = color_mask_path_of "out/color_masks" "sub/a.jpg"
  /\ exists masks2,
       masks_of even_odd_covers
         (annotation 2 2 "sub/a.jpg" [("dog", full_canvas 1 1)])
         [("background", 0); ("cat", 1); ("dog", 2)]
         [(0, 0, 0); (200, 100, 50); (60, 70, 80)] = Done masks2
       /\ files w2
          = with_masks (files same_image_name) "out/masks" "out/color_masks"
              "sub/a.jpg" masks2.
Proof.
  apply (same_name_overwrites_masks even_odd_covers "out/masks"
           "out/color_masks" [("background", 0); ("cat", 1); ("dog", 2)]
           [(0, 0, 0); (200, 100, 50); (60, 70, 80)]
           "all/a.json" "all/b.json" same_image_name
           (snd (json_to_mask even_odd_covers "all/a.json" "out/masks"
                   "out/color_masks"
                   [("background", 0); ("cat", 1); ("dog", 2)]
                   [(0, 0, 0); (200, 100, 50); (60, 70, 80)]
                   same_image_name))
           (snd (json_to_mask even_odd_covers "all/b.json" "out/masks"
                   "out/color_masks"
                   [("background", 0); ("cat", 1); ("dog", 2)]
                   [(0, 0, 0); (200, 100, 50); (60, 70, 80)]
                   (snd (json_to_mask even_odd_covers "all/a.json" "out/masks"
                           "out/color_masks"
                           [("background", 0); ("cat", 1); ("dog", 2)]
                           [(0, 0, 0); (200, 100, 50); (60, 70, 80)]
                           same_image_name))))
           (annotation 2 2 "a.png" [("cat", full_canvas 2 2)])
           (annotation 2 2 "sub/a.jpg" [("dog", full_canvas 1 1)])
           "a.png" "sub/a.jpg").
  - vm_compute. reflexivity.
  - vm_compute. reflexivity.
  - reflexivity.
  - reflexivity.
  - vm_compute. reflexivity.
  - reflexivity.
  - reflexivity.
Defined.

(** ** The script *)

Lemma process_labelme_folder_keeps_files covers input_dir output_base_dir
    class_mapping listing g :
  keeps_files (process_labelme_folder covers input_dir output_base_dir
                 class_mapping listing g).
Proof.
  intros w q Hq. rewrite process_labelme_folder_report.
  set (class_colors := fst (generate_class_colors _ g)).
  set (st := fold_left _ listing (Batch 0 0 w)).
  set (w1 := World (files (batch_world st)) _).
  assert (files w1 !! q ≠ Some Directory) as Hq1.
  { by apply batch_keeps_files. }
  assert (files (snd (write_class_colors output_base_dir class_mapping
                        class_colors w1)) !! q ≠ Some Directory) as Hq2.
  { unfold write_class_colors.
    destruct (files w1 !! PosixPath.join output_base_dir "class_colors.txt")
      as [[]|]; try done;
      destruct (color_lines class_mapping class_colors) as [ls e]; cbn;
      (rewrite lookup_insert; case_decide; [done|exact Hq1]). }
  by destruct (write_class_colors _ _ _ _) as [[[]|e] w2].
Qed.

Lemma startswith_split (p q : string) :
  PosixPath.startswith p q = true -> exists rest, q = p +:+ rest.
Proof.
  revert q. induction p as [|a p IH]; intros q; [by exists q|].
  destruct q as [|b q]; [done|]. cbn.
  destruct (decide (a = b)) as [->|]; [|done].
  intros [rest ->]%IH. by exists rest.
Qed.

Section Script.

Variable covers : list point -> nat -> nat -> bool.
Variables listing listing' : list string.
Variable g : rng.
Variable fs : gmap string file.

Local Abbreviation class_mapping :=
  (fst (auto_detect_classes input_directory listing (World fs []))).
Local Abbreviation class_colors :=
  (fst (generate_class_colors (Z.of_nat (length class_mapping)) g)).
Local Abbreviation batch_run :=
  (process_labelme_folder covers input_directory output_directory
     class_mapping listing' g (World fs [])).

(** The script in terms of the run of the batch. *)
Lemma main_batch :
  main covers listing listing' g fs
  = let detected :=
      (Printed <$> console (snd (auto_detect_classes input_directory listing
                                   (World fs []))))
      ++ [ClassesDetected class_mapping] in
    match batch_run with
    | (Raised e, w2) =>
        Run (Raised e) (files w2) (detected ++ (Printed <$> console w2))
    | (Done _, w2) =>
        match write_labels output_directory class_mapping
                (World (files w2) []) with
        | (Raised e, w3) =>
            Run (Raised e) (files w3) (detected ++ (Printed <$> console w2))
        | (Done _, w3) =>
            Run (Done tt) (files w3)
                (detected ++ (Printed <$> console w2)
                 ++ [LabelsSaved labels_path; ColorsSaved colors_path])
        end
    end.
Proof.
  unfold main.
  pose proof (auto_detect_classes_files input_directory listing (World fs []))
    as Hfiles.
  destruct (auto_detect_classes _ _ _) as [m w1]. cbn in Hfiles |- *.
  by rewrite Hfiles.
Qed.

(** X22. On data without the label "background", and with the two report
    paths free, the script ends normally. [labels.txt] holds one line
    [id label] per class, in the order of the mapping, and
    [class_colors.txt] one line per class in the same order with the
    same ids and labels; the ids in that order are 0, 1, 2, ... *)
Theorem main_writes_both_reports :
  "background" ∉ observed_labels input_directory listing (World fs []) ->
  fs !! colors_path ≠ Some Directory ->
  fs !! labels_path ≠ Some Directory ->
  let r := main covers listing listing' g fs in
  run_outcome r = Done tt
  /\ run_files r !! labels_path
     = Some (TextFile ((fun item => label_line item.2 item.1)
                         <$> class_mapping))
  /\ (exists lines,
        run_files r !! colors_path = Some (TextFile (report_header :: lines))
        /\ Forall2 (line_of class_colors) class_mapping lines)
  /\ class_mapping.*2 = seqZ 0 (Z.of_nat (length class_mapping))
  /\ exists printed,
       run_output r
       = printed ++ [LabelsSaved labels_path; ColorsSaved colors_path].
Proof.
  intros Hbg Hcp Hlp r. unfold r. rewrite main_batch. cbn zeta.
  pose proof (detected_palette_covers input_directory listing (World fs []) g
                Hbg) as Hcovers.
  pose proof (process_labelme_folder_keeps_files covers input_directory
                output_directory class_mapping listing' g (World fs [])
                labels_path Hlp) as Hlp'.
  revert Hlp'. rewrite process_labelme_folder_report.
  set (st := fold_left _ listing' (Batch 0 0 (World fs []))).
  set (w1 := World (files (batch_world st)) _).
  assert (files w1 !! colors_path ≠ Some Directory) as Hcp'.
  { by apply batch_keeps_files. }
  destruct (write_class_colors_in_range output_directory class_mapping
              class_colors w1 Hcovers Hcp') as (lines & -> & Hrel).
  cbn [snd files]. intros Hlp'.
  unfold write_labels. fold labels_path.
  rewrite write_file_ok by done. cbn [run_outcome run_files run_output files].
  split; [done|]. split; [by rewrite lookup_insert_eq|]. split.
  { exists lines. split; [|done].
    rewrite lookup_insert_ne by done. apply lookup_insert_eq. }
  split.
  { by destruct (auto_detect_classes_dense_ids input_directory listing
                   (World fs []) Hbg) as (_ & _ & Hids). }
  eexists. by rewrite !app_assoc.
Qed.

(** X23. With a shape labelled "background" in the data the script does
    not reach [labels.txt]: it stops with the [IndexError] of the
    report, after the summary, and [labels.txt] is as it was. *)
Theorem main_stops_on_background_label :
  "background" ∈ observed_labels input_directory listing (World fs []) ->
  fs !! colors_path ≠ Some Directory ->
  let r := main covers listing listing' g fs in
  run_outcome r = Raised (IndexError (Z.of_nat (length class_mapping)))
  /\ run_files r !! labels_path = fs !! labels_path
  /\ exists processed errors,
       last (run_output r) = Some (Printed (Summary processed errors)).
Proof.
  intros Hbg Hcp r. unfold r. rewrite main_batch. cbn zeta.
  destruct (background_in_data_split input_directory listing (World fs []) g
              Hbg) as (Hnone & pre & l & post & Hsplit & _ & Hpre).
  pose proof (process_labelme_folder_in_output covers input_directory
                output_directory class_mapping listing' g (World fs [])
                labels_path eq_refl) as Hlabels.
  revert Hlabels. rewrite process_labelme_folder_report.
  set (st := fold_left _ listing' (Batch 0 0 (World fs []))).
  set (w1 := World (files (batch_world st)) _).
  assert (files w1 !! colors_path ≠ Some Directory) as Hcp'.
  { by apply batch_keeps_files. }
  destruct (write_class_colors_truncated output_directory class_mapping
              pre l (Z.of_nat (length class_mapping)) post class_colors w1
              Hsplit Hpre Hnone Hcp') as (lines & -> & _).
  cbn [snd files console w1 run_outcome run_files run_output].
  intros Hlabels. split; [done|]. split; [done|].
  eexists _, _. rewrite fmap_app, app_assoc. apply last_snoc.
Qed.

(** X24. The script writes in [datasets/images], [datasets/masks],
    [datasets/color_masks] and the two reports, and nowhere else:
    nothing under the input directory [all] is ever modified. *)
Theorem main_leaves_the_input q :
  let r := main covers listing listing' g fs in
  (output_area output_directory q = false -> q ≠ labels_path ->
   run_files r !! q = fs !! q)
  /\ (PosixPath.startswith (PosixPath.join input_directory "") q = true ->
      run_files r !! q = fs !! q).
Proof.
  intros r.
  assert (output_area output_directory q = false -> q ≠ labels_path ->
          run_files r !! q = fs !! q) as Hout.
  { intros Hq Hne. unfold r. rewrite main_batch. cbn zeta.
    pose proof (process_labelme_folder_in_output covers input_directory
                  output_directory class_mapping listing' g (World fs [])
                  q Hq) as Hbatch.
    destruct batch_run as [[counts|e] w2]; cbn in Hbatch |- *; [|done].
    unfold write_labels, write_file. fold labels_path. cbn [files].
    destruct (files w2 !! labels_path) as [[]|]; cbn; try done;
      by rewrite lookup_insert_ne. }
  split; [done|]. intros Hq.
  apply startswith_split in Hq as [rest ->].
  by apply Hout.
Qed.

End Script.

Lemma main_writes_both_reports_witness :
  let class_mapping :=
    fst (auto_detect_classes input_directory ["a.json"]
           (World (files cat_4x4) [])) in
  let class_colors :=
    fst (generate_class_colors (Z.of_nat (length class_mapping)) sample_rng) in
  let r :=
    main even_odd_covers ["a.json"] ["a.json"] sample_rng (files cat_4x4) in
  run_outcome r = Done tt
  /\ run_files r !! labels_path
     = Some (TextFile ((fun item => label_line item.2 item.1)
                         <$> class_mapping))
  /\ (exists lines,
        run_files r !! colors_path = Some (TextFile (report_header :: lines))
        /\ Forall2 (line_of class_colors) class_mapping lines)
  /\ class_mapping.*2 = seqZ 0 (Z.of_nat (length class_mapping))
  /\ exists printed,
       run_output r
       = printed ++ [LabelsSaved labels_path; ColorsSaved colors_path].
Proof.
  apply (main_writes_both_reports even_odd_covers ["a.json"] ["a.json"]
           sample_rng (files cat_4x4)).
  - apply (bool_decide_unpack _). vm_compute. exact I.
  - vm_compute. congruence.
  - vm_compute. congruence.
Defined.

Lemma main_stops_on_background_label_witness :
  let class_mapping :=
    fst (auto_detect_classes input_directory ["a.json"]
           (World (files apple_and_background) [])) in
  let r :=
    main even_odd_covers ["a.json"] ["a.json"] sample_rng
         (files apple_and_background) in
  run_outcome r = Raised (IndexError (Z.of_nat (length class_mapping)))
  /\ run_files r !! labels_path = files apple_and_background !! labels_path
  /\ exists processed errors,
       last (run_output r) = Some (Printed (Summary processed errors)).
Proof.
  apply (main_stops_on_background_label even_odd_covers ["a.json"] ["a.json"]
           sample_rng (files apple_and_background)).
  - apply (bool_decide_unpack _). vm_compute. exact I.
  - vm_compute. congruence.
Defined.

Lemma main_leaves_the_input_witness :
  run_files (main even_odd_covers ["a.json"] ["a.json"] sample_rng
               (files unknown_label)) !! "all/a.png"
  = files unknown_label !! "all/a.png".
Proof.
  apply (proj2 (main_leaves_the_input even_odd_covers ["a.json"] ["a.json"]
                  sample_rng (files unknown_label) "all/a.png")).
  reflexivity.
Defined.

(** The first run of the script on the spec's example. *)
Lemma main_on_the_example :
  let r :=
    main even_odd_covers ["a.json"] ["a.json"] sample_rng (files cat_4x4) in
  run_outcome r = Done tt
  /\ run_files r !! "datasets/labels.txt"
     = Some (TextFile ["0 background"; "1 cat"])
  /\ run_files r !! "datasets/class_colors.txt"
     = Some (TextFile ["Class ID, Class Name, Color (R,G,B)";
                       "0, background, (0, 0, 0)";
                       "1, cat, (50, 127, 204)"])
  /\ run_output r
     = [ClassesDetected [("background", 0); ("cat", 1)];
        Printed (MasksCreated "datasets/masks/a.png"
                              "datasets/color_masks/a_color.png");
        Printed (WarnImageMissing "all/a.png");
        Printed (Summary 1 0);
        LabelsSaved "datasets/labels.txt";
        ColorsSaved "datasets/class_colors.txt"].
Proof. vm_compute. repeat split; reflexivity. Qed.

(** ** A class id without a color *)

Section NoColor.

Variable covers : list point -> nat -> nat -> bool.
Variable class_mapping : dict.
Variable class_colors : list color.

Lemma draw_shapes_no_color pre s post l pts class_id :
  forallb complete_shape pre = true ->
  forallb (drawable class_mapping class_colors) pre = true ->
  label s = Some l -> points s = Some pts ->
  dict_get l class_mapping = Some class_id ->
  list_getitem class_colors class_id = None ->
  forall canvases w,
    draw_shapes covers class_mapping class_colors (pre ++ s :: post) canvases w
    = (Raised (IndexError class_id),
       World (files w)
             (console w
              ++ (WarnUnmappedLabel <$> unmapped_labels class_mapping pre))).
Proof.
  intros Hc Hcol Hl Hpts Hget Hnone.
  induction pre as [|s' r IH]; intros canvases w.
  - cbn [app draw_shapes]. unfold bind, draw_shape, bind, getitem.
    rewrite Hl, Hpts. cbn [ret]. rewrite dict_mem_get, Hget.
    rewrite bool_decide_true by eauto. cbn [negb]. rewrite Hnone.
    cbn. rewrite app_nil_r. by destruct w.
  - cbn [forallb] in Hc, Hcol.
    apply andb_true_iff in Hc as [Hs' Hc].
    apply andb_true_iff in Hcol as [Hcs' Hcol].
    specialize (IH Hc Hcol).
    destruct s' as [[l'|] [pts'|]]; try done.
    cbn [app draw_shapes]. unfold bind.
    unfold unmapped_labels. cbn [omap list_omap label].
    destruct (dict_mem l' class_mapping) eqn:Hmem.
    + unfold drawable, polygonal in Hcs'. cbn in Hcs'.
      rewrite dict_mem_get in Hmem.
      apply bool_decide_eq_true in Hmem as [id Hid]. rewrite Hid in Hcs'.
      apply andb_true_iff in Hcs'
        as [[col Hcol']%bool_decide_eq_true Hpts'%bool_decide_eq_true].
      rewrite (draw_shape_painted covers class_mapping class_colors canvases
                 l' pts' id col w Hid Hcol' Hpts').
      apply IH.
    + rewrite draw_shape_unmapped by done. rewrite IH. cbn [files console].
      by rewrite <- app_assoc.
Qed.

(** X25. A shape whose class id has no palette entry stops the record
    with [IndexError], whatever its polygon: when the shapes before it
    are skipped or drawn without an exception (a color for their class,
    two vertices or more), their warnings are printed, but no mask is
    written and no file changes. *)
Theorem shape_without_color_stops_the_record json_path masks_dir
    color_masks_dir wld data w h pre s post l pts class_id :
  files wld !! json_path = Some (JsonFile data) ->
  imageWidth data = Some w -> imageHeight data = Some h ->
  0 <= w -> 0 <= h ->
  shapes data = Some (pre ++ s :: post) ->
  forallb complete_shape pre = true ->
  forallb (drawable class_mapping class_colors) pre = true ->
  label s = Some l -> points s = Some pts ->
  dict_get l class_mapping = Some class_id ->
  list_getitem class_colors class_id = None ->
  json_to_mask covers json_path masks_dir color_masks_dir
               class_mapping class_colors wld
  = (Raised (IndexError class_id),
     World (files wld)
           (console wld
            ++ (WarnUnmappedLabel <$> unmapped_labels class_mapping pre))).
Proof.
  intros Hf Hw Hh Hw0 Hh0 Hshapes Hc Hcol Hl Hpts Hget Hnone.
  assert (rasterize covers data class_mapping class_colors empty_world
          = (Raised (IndexError class_id),
             World ∅ (WarnUnmappedLabel <$> unmapped_labels class_mapping pre)))
    as Hr.
  { unfold rasterize. rewrite Hw, Hh, Hshapes. cbn [getitem].
    unfold bind, ret, Image_new. rewrite !decide_False by lia. cbn [ret].
    by rewrite (draw_shapes_no_color pre s post l pts class_id). }
  rewrite (json_to_mask_raised covers json_path masks_dir color_masks_dir
             class_mapping class_colors wld data (IndexError class_id) Hf).
  - unfold warnings_of. by rewrite Hr.
  - unfold masks_of. by rewrite Hr.
Qed.

End NoColor.

Lemma shape_without_color_stops_the_record_witness :
  json_to_mask even_odd_covers "all/a.json" "out/masks" "out/color_masks"
    [("background", 2); ("apple", 1)] [(0, 0, 0); (200, 100, 50)] fruit
  = (Raised (IndexError 2),
     World (files fruit)
           (console fruit
            ++ (WarnUnmappedLabel
                  <$> unmapped_labels [("background", 2); ("apple", 1)]
                        [JsonShape (Some "pear") (Some (full_canvas 4 4));
                         JsonShape (Some "apple") (Some (full_canvas 2 2))]))).
Proof.
  apply (shape_without_color_stops_the_record even_odd_covers
           [("background", 2); ("apple", 1)] [(0, 0, 0); (200, 100, 50)]
           "all/a.json" "out/masks" "out/color_masks" fruit fruit_record 4 4
           [JsonShape (Some "pear") (Some (full_canvas 4 4));
            JsonShape (Some "apple") (Some (full_canvas 2 2))]
           (JsonShape (Some "background") (Some (full_canvas 4 4))) []
           "background" (full_canvas 4 4) 2);
    try reflexivity; lia.
Defined.

(** ** A directory in order *)

Section CleanBatch.

Variable covers : list point -> nat -> nat -> bool.
Variables input_dir output_base_dir : string.
Variable class_mapping : dict.
Variable class_colors : list color.
Variable fs : gmap string file.

Local Abbreviation images_dir := (PosixPath.join output_base_dir "images").
Local Abbreviation masks_dir := (PosixPath.join output_base_dir "masks").
Local Abbreviation color_masks_dir :=
  (PosixPath.join output_base_dir "color_masks").
Local Abbreviation step :=
  (process_file covers input_dir images_dir masks_dir color_masks_dir
                class_mapping class_colors).

Hypothesis palette : palette_covers class_mapping class_colors.

Local Abbreviation reached := (reached output_base_dir fs).

Lemma reached_step st filename : reached st -> reached (step st filename).
Proof.
  intros [Hout Hdir]. split.
  - intros q Hq. rewrite <- (Hout q Hq). by apply process_file_in_output.
  - intros q Hq. by apply process_file_keeps_files, Hdir.
Qed.

Lemma process_file_ready st filename :
  reached st ->
  PosixPath.endswith ".json" filename = true ->
  ready input_dir output_base_dir fs filename ->
  processed_count (step st filename) = processed_count st + 1
  /\ error_count (step st filename) = error_count st.
Proof.
  intros [Hout Hdir] Hext
    (data & path & Hfile & Hvalid & Hpath & Hjson & Himage & Hreg).
  destruct (masks_of_total covers data class_mapping class_colors Hvalid
              palette) as [masks Hmasks].
  pose proof (mask_path_in_output output_base_dir path) as Hm.
  pose proof (color_mask_path_in_output output_base_dir path) as Hc.
  rewrite (process_file_rasterized covers input_dir images_dir masks_dir
             color_masks_dir class_mapping class_colors st filename data
             masks path Hext); try done;
    [|by rewrite Hout|by apply rasterizable_savable|by apply Hdir..].
  cbn [files]. rewrite image_path_basename.
  set (fs1 := with_masks _ _ _ _ _).
  set (image_path := image_path_of input_dir path) in *.
  set (dst := PosixPath.join images_dir (PosixPath.basename path)).
  assert (fs1 !! image_path = fs !! image_path) as Hsrc.
  { unfold fs1, with_masks.
    rewrite !lookup_insert_ne by congruence. by apply Hout. }
  destruct (fs !! image_path) as [f|] eqn:Hf.
  - rewrite Hsrc, bool_decide_true by eauto.
    pose proof (output_image_path_in_output output_base_dir path) as Hd.
    fold dst in Hd.
    destruct (copy2_copyable fs1
                (console (batch_world st)
                 ++ warnings_of covers data class_mapping class_colors
                 ++ [MasksCreated (mask_path_of masks_dir path)
                                  (color_mask_path_of color_masks_dir path)])
                image_path dst) as (f' & _ & Hcopy).
    { split; [congruence|]. split.
      - unfold fs1, with_masks. rewrite !lookup_insert.
        repeat case_decide; try done. by apply Hdir.
      - exists f. split; [done|]. by intros ->. }
    unfold bind. by rewrite Hcopy.
  - rewrite Hsrc, bool_decide_false by (by intros [? ?]). done.
Qed.

Lemma batch_ready listing : forall st,
  reached st ->
  Forall (fun f => PosixPath.endswith ".json" f = true ->
                   ready input_dir output_base_dir fs f) listing ->
  processed_count (fold_left step listing st)
  = processed_count st
    + Z.of_nat (length (filter (fun f => PosixPath.endswith ".json" f = true)
                               listing))
  /\ error_count (fold_left step listing st) = error_count st.
Proof.
  induction listing as [|f r IH]; intros st Hst Hall; cbn [fold_left].
  - cbn. lia.
  - apply Forall_cons in Hall as [Hf Hall].
    destruct (IH (step st f) (reached_step st f Hst) Hall) as [-> ->].
    rewrite filter_cons.
    destruct (PosixPath.endswith ".json" f) eqn:Hext.
    + destruct (process_file_ready st f Hst Hext (Hf eq_refl)) as [-> ->].
      rewrite decide_True by done. cbn [length]. lia.
    + rewrite process_file_other_extension by done.
      rewrite decide_False by done. lia.
Qed.

End CleanBatch.

(** X26. On a directory in order the batch has no error: when every
    class id has a color, no directory stands where the batch writes,
    and every ".json" entry is a record that rasterizes, kept with its
    image outside the output area, with an image that is missing or a
    regular file, then every record is counted as processed, none as an
    error, and [process_labelme_folder] ends normally. *)
Theorem clean_batch_has_no_error covers input_dir output_base_dir
    class_mapping listing g w :
  let class_colors :=
    fst (generate_class_colors (Z.of_nat (length class_mapping)) g) in
  palette_covers class_mapping class_colors ->
  (forall q, output_area output_base_dir q = true ->
             files w !! q ≠ Some Directory) ->
  Forall (fun f => PosixPath.endswith ".json" f = true ->
                   ready input_dir output_base_dir (files w) f) listing ->
  exists w',
    process_labelme_folder covers input_dir output_base_dir class_mapping
                           listing g w
    = (Done (Z.of_nat (length (filter
                (fun f => PosixPath.endswith ".json" f = true) listing)), 0),
       w').
Proof.
  intros class_colors Hpalette Hdir Hall.
  rewrite process_labelme_folder_report. fold class_colors.
  set (st := fold_left _ listing (Batch 0 0 w)).
  set (w1 := World (files (batch_world st)) _).
  destruct (batch_ready covers input_dir output_base_dir class_mapping
              class_colors (files w) Hpalette listing (Batch 0 0 w))
    as [Hp He]; [by split|done|].
  fold st in Hp, He. cbn in Hp, He.
  assert (files w1 !! PosixPath.join output_base_dir "class_colors.txt"
          ≠ Some Directory) as Hreport.
  { apply batch_keeps_files, Hdir. unfold output_area.
    by rewrite bool_decide_true, !orb_true_r. }
  destruct (write_class_colors_in_range output_base_dir class_mapping
              class_colors w1 Hpalette Hreport) as (lines & -> & _).
  eexists. by rewrite Hp, He.
Qed.

Lemma clean_batch_has_no_error_witness :
  exists w',
    process_labelme_folder even_odd_covers "all" "out"
      [("background", 0); ("cat", 1)] ["a.json"; "notes.txt"; "b.json"]
      sample_rng mixed_directory
    = (Done (Z.of_nat (length (filter
                (fun f => PosixPath.endswith ".json" f = true)
                ["a.json"; "notes.txt"; "b.json"])), 0),
       w').
Proof.
  apply (clean_batch_has_no_error even_odd_covers "all" "out"
           [("background", 0); ("cat", 1)] ["a.json"; "notes.txt"; "b.json"]
           sample_rng mixed_directory).
  - repeat constructor; by eexists.
  - intros q _. unfold mixed_directory. cbn [files].
    rewrite !lookup_insert, lookup_singleton. by repeat case_decide.
  - repeat constructor.
    + intros _.
      exists (annotation 4 4 "a.png" [("cat", full_canvas 4 4)]), "a.png".
      repeat split; try reflexivity. vm_compute. congruence.
    + done.
    + intros _.
      exists (annotation 2 2 "b.png" [("cat", full_canvas 2 2)]), "b.png".
      repeat split; try reflexivity. vm_compute. congruence.
Defined.
